(** * The explorer of the playground: a path-keyed virtual file system

    Shallow embedding of the [Explorer] and [PgExplorer] classes of
    client/src/utils/pg and the properties of their mutations and
    queries.

    The explorer keeps one JavaScript object, [files], whose property
    names are paths and whose values are [ItemInfo] objects.  The object
    is modelled as an association list in property order: a [for ... in]
    loop enumerates string keys in the order in which they were created,
    an assignment to an existing key keeps its place and an assignment to
    a new key appends it.  A property may hold [undefined] (the file
    branch of [renameItem] stores whatever [files[fullPath]] was), so a
    value is an [option ItemInfo].  Reading or writing a field of
    [undefined] raises a [TypeError]; the store at that moment is kept in
    the outcome, since the explorer object lives on after the exception.

    Property lookup is lookup among the own properties of [files].  This
    is what the host language does for the keys of the explorer, which are
    paths: a path contains the separator, so it is neither the name of a
    property inherited from [Object.prototype] nor an array index, which
    would be enumerated before the other keys.  The theorems that depend
    on this carry it as a hypothesis: [isPath] for a path that is looked
    up or added, [pathArg] for the paths of a sequence of mutations.

    Besides the explorer the development covers the loop of
    [PgExplorer.openAllParents], with the document seen through the
    paths that have an element, the static methods of [PgWallet] that
    keep the wallet in the local storage, and [getIconSrc] of the
    [LangIcon] component. *)

From Stdlib Require Import String Ascii List Bool Arith Lia.
From Stdlib Require DecimalString.
Import ListNotations.
Open Scope string_scope.
Open Scope list_scope.

(** ** String primitives of the host language *)

Module Js.

(** [s.startsWith(p)] *)
Definition startsWith (s p : string) : bool := String.prefix p s.

(** [s.endsWith(suf)]: some suffix of [s] is [suf]. *)
Fixpoint endsWith (s suf : string) : bool :=
  String.eqb s suf ||
  match s with
  | EmptyString => false
  | String _ r => endsWith r suf
  end.

(** [s.includes(sub)] *)
Fixpoint includes (s sub : string) : bool :=
  String.prefix sub s ||
  match s with
  | EmptyString => false
  | String _ r => includes r sub
  end.

(** Pieces of [s] between the occurrences of a non-empty separator, found
    from the left and not overlapping; [skip] counts the characters of a
    matched separator still to be dropped. *)
Fixpoint splitOn (sep : string) (skip : nat) (s : string) : list string :=
  match s with
  | EmptyString => [EmptyString]
  | String c r =>
      match skip with
      | S k => splitOn sep k r
      | O =>
          if String.prefix sep s
          then EmptyString :: splitOn sep (String.length sep - 1) r
          else match splitOn sep 0 r with
               | h :: t => String c h :: t
               | [] => [String c EmptyString]
               end
      end
  end.

(** The characters of a string, each one a string.  A character of the
    model is one code unit of the string of the code: the strings of the
    model are those whose code units are below 256. *)
Fixpoint chars (s : string) : list string :=
  match s with
  | EmptyString => []
  | String c r => String c EmptyString :: chars r
  end.

(** [s.split(sep)] for a string separator and no limit. *)
Definition split (s sep : string) : list string :=
  match sep with
  | EmptyString => chars s
  | _ => splitOn sep 0 s
  end.

(** The property name of array index [i], as [for ... in] over an array
    yields it. *)
Definition indexKey (i : nat) : string :=
  DecimalString.NilEmpty.string_of_uint (Nat.to_uint i).

(** [\w] of a regular expression without the unicode flag. *)
Definition isWordChar (c : ascii) : bool :=
  let n := nat_of_ascii c in
  (Nat.leb 48 n && Nat.leb n 57) || (Nat.leb 65 n && Nat.leb n 90) ||
  (Nat.leb 97 n && Nat.leb n 122) || Nat.eqb n 95.

Fixpoint allChars (p : ascii -> bool) (s : string) : bool :=
  match s with
  | EmptyString => true
  | String c r => p c && allChars p r
  end.

End Js.

(** ** Data model *)

(** Modelled from the spec: the [ItemError] enumeration of
    pg/errors, which is imported by the explorer but is not among the
    sources; the explorer uses these two members. *)
Inductive ItemError : Type := InvalidName | AlreadyExists.

(** [interface ItemInfo { content?: string; current?: boolean; tabs?: boolean }] *)
Record ItemInfo : Type := mkItem {
  content : option string;
  current : option bool;
  tabs : option bool
}.

(** The object literal [{}]. *)
Definition emptyItem : ItemInfo := mkItem None None None.

(** [interface FullFile extends ItemInfo { path: string }] *)
Record FullFile : Type := mkFull {
  f_path : string;
  f_content : option string;
  f_current : option bool;
  f_tabs : option bool
}.

(** [interface Folder { folders: string[]; files: string[] }] *)
Record Folder : Type := mkFolder {
  folders : list string;
  files : list string
}.

(** [{ folder: true }] or [{ file: true }] *)
Inductive ItemType : Type := IsFolder | IsFile.

(** The [files] object: own properties in enumeration order. *)
Definition Files : Type := list (string * option ItemInfo).

(** Truthiness of an optional boolean and of an optional string. *)
Definition truthyB (o : option bool) : bool :=
  match o with Some true => true | _ => false end.

Definition truthyS (o : option string) : bool :=
  match o with
  | Some EmptyString => false
  | Some _ => true
  | None => false
  end.

(** *** Property operations on the store *)

Definition keys (fs : Files) : list string := map fst fs.

(** Own property [k], if there is one. *)
Fixpoint lookup (k : string) (fs : Files) : option (option ItemInfo) :=
  match fs with
  | [] => None
  | (k', v) :: r => if String.eqb k' k then Some v else lookup k r
  end.

(** The value of the expression [files[k]], for [k] a key of the store
    or a string that names no property of [Object.prototype]: every
    string that contains the separator is one. *)
Definition getProp (k : string) (fs : Files) : option ItemInfo :=
  match lookup k fs with
  | Some v => v
  | None => None
  end.

(** [k in files] for own properties. *)
Definition hasProp (k : string) (fs : Files) : bool :=
  existsb (String.eqb k) (keys fs).

(** [files[k] = v]: an existing key keeps its place; a new key comes
    last in the enumeration, as it does in the code unless it is an array
    index, which no string that contains the separator is. *)
Fixpoint setProp (k : string) (v : option ItemInfo) (fs : Files) : Files :=
  match fs with
  | [] => [(k, v)]
  | (k', v') :: r =>
      if String.eqb k' k then (k, v) :: r else (k', v') :: setProp k v r
  end.

(** [delete files[k]] *)
Definition deleteProp (k : string) (fs : Files) : Files :=
  filter (fun kv => negb (String.eqb (fst kv) k)) fs.

(** ** Computations over the store *)

Inductive Outcome (A : Type) : Type :=
| Returned (a : A) (fs : Files)
| Raised (fs : Files).

Arguments Returned {A} a fs.
Arguments Raised {A} fs.

(** The store an outcome leaves behind. *)
Definition storeOf {A : Type} (o : Outcome A) : Files :=
  match o with
  | Returned _ fs => fs
  | Raised fs => fs
  end.

Definition M (A : Type) : Type := Files -> Outcome A.

Definition ret {A : Type} (a : A) : M A := fun fs => Returned a fs.

Definition bind {A B : Type} (m : M A) (f : A -> M B) : M B :=
  fun fs =>
    match m fs with
    | Returned a fs' => f a fs'
    | Raised fs' => Raised fs'
    end.

Declare Scope explorer_scope.
Delimit Scope explorer_scope with explorer.
Notation "x <- m ;; k" := (bind m (fun x => k))
  (at level 61, m at next level, right associativity) : explorer_scope.
Notation "m ;;; k" := (bind m (fun _ => k))
  (at level 61, right associativity) : explorer_scope.
Open Scope explorer_scope.

(** [throw new TypeError] *)
Definition typeError {A : Type} : M A := fun fs => Raised fs.

(** [files[k]] *)
Definition readProp (k : string) : M (option ItemInfo) :=
  fun fs => Returned (getProp k fs) fs.

(** [files[k] = v] *)
Definition writeProp (k : string) (v : option ItemInfo) : M unit :=
  fun fs => Returned tt (setProp k v fs).

(** [delete files[k]] *)
Definition removeProp (k : string) : M unit :=
  fun fs => Returned tt (deleteProp k fs).

(** [Object.keys(files)] *)
Definition ownKeys : M (list string) :=
  fun fs => Returned (keys fs) fs.

(** Whether [k] is still a key, as a [for ... in] loop checks before it
    visits a key. *)
Definition stillThere (k : string) : M bool :=
  fun fs => Returned (hasProp k fs) fs.

(** [files[k].field = ...]: the object at [k] is updated in place; a
    [TypeError] when [files[k]] is [undefined]. *)
Definition updateItem (k : string) (f : ItemInfo -> ItemInfo) : M unit :=
  v <- readProp k ;;
  match v with
  | Some i => writeProp k (Some (f i))
  | None => typeError
  end.

Definition withCurrent (b : bool) (i : ItemInfo) : ItemInfo :=
  mkItem (content i) (Some b) (tabs i).

Definition withTabs (b : bool) (i : ItemInfo) : ItemInfo :=
  mkItem (content i) (current i) (Some b).

Definition withContent (c : string) (i : ItemInfo) : ItemInfo :=
  mkItem (Some c) (current i) (tabs i).

(** [for (const k in files) body]: the keys are those present when the
    loop starts, a key deleted before its turn is skipped, and keys added
    during the loop are not visited.  The body either continues with the
    new value of the loop's local variables ([inl]) or returns from the
    enclosing method ([inr]). *)
Fixpoint forIn {A R : Type} (ks : list string)
    (body : string -> A -> M (A + R)) (acc : A) : M (A + R) :=
  match ks with
  | [] => ret (inl acc)
  | k :: rest =>
      here <- stillThere k ;;
      if here
      then x <- body k acc ;;
           match x with
           | inl acc' => forIn rest body acc'
           | inr r => ret (inr r)
           end
      else forIn rest body acc
  end.

(** ** PgExplorer: the path algebra *)

Module PgExplorer.

Definition getItemTypeFromPath (path : string) : ItemType :=
  if Js.endsWith path "/" then IsFolder else IsFile.

Definition getItemTypeFromName (itemName : string) : ItemType :=
  if Js.includes itemName "." then IsFile else IsFolder.

(** [itemsArr[i]] for an index that may be negative or out of range. *)
Definition at_ (l : list string) (n back : nat) : option string :=
  if Nat.ltb n back then None else nth_error l (n - back).

(** The result is [undefined] only for an index out of range, which does
    not happen: a path that ends with the separator splits into two
    items at least. *)
Definition getItemNameFromPath (path : string) : option string :=
  let itemsArr := Js.split path "/" in
  match getItemTypeFromPath path with
  | IsFolder => at_ itemsArr (length itemsArr) 2
  | IsFile => at_ itemsArr (length itemsArr) 1
  end.

(** The loop [for (let i = 0; i < bound; i++)] over the first [bound]
    items, skipping empty ones. *)
Fixpoint joinItems (items : list string) (bound : nat) (acc : string) : string :=
  match bound, items with
  | S b, it :: rest =>
      if String.eqb it "" then joinItems rest b acc
      else joinItems rest b (acc ++ (it ++ "/"))%string
  | _, _ => acc
  end.

Definition getParentPathFromPath (path : string) : string :=
  let itemsArr := Js.split path "/" in
  match getItemTypeFromPath path with
  | IsFolder => joinItems itemsArr (length itemsArr - 2) "/"
  | IsFile => joinItems itemsArr (length itemsArr - 1) "/"
  end.

(** [/^(?!\.)[\w.-]+$/] *)
Definition nameRegex (name : string) : bool :=
  match name with
  | EmptyString => false
  | String c _ =>
      negb (Ascii.eqb c ".") &&
      Js.allChars (fun a => Js.isWordChar a || Ascii.eqb a "." || Ascii.eqb a "-") name
  end.

Definition isItemNameValid (name : string) : bool :=
  nameRegex name && negb (Js.includes name "//") && negb (Js.includes name "..").

End PgExplorer.

(** ** Explorer: the methods on the store *)

Module Explorer.

Import PgExplorer.

Definition getFileContentFromPath (path : string) : M (option string) :=
  fileInfo <- readProp path ;;
  match fileInfo with
  | Some i => ret (content i)
  | None => ret None
  end.

Definition pushItem (item : string) (acc : Folder) : Folder :=
  if negb (existsb (String.eqb item) (files acc)) &&
     negb (existsb (String.eqb item) (folders acc)) &&
     negb (String.eqb item "")
  then if Js.includes item "."
       then mkFolder (folders acc) (files acc ++ [item])
       else mkFolder (folders acc ++ [item]) (files acc)
  else acc.

Definition getFolderContent (path : string) : M Folder :=
  ks <- ownKeys ;;
  r <- forIn (R := Empty_set) ks
         (fun itemPath filesAndFolders =>
            if Js.includes itemPath path
            then match nth_error (Js.split itemPath path) 1 with
                 | None => typeError
                 | Some rest =>
                     match Js.split rest "/" with
                     | item :: _ => ret (inl (pushItem item filesAndFolders))
                     | [] => typeError
                     end
                 end
            else ret (inl filesAndFolders))
         (mkFolder [] []) ;;
  match r with
  | inl filesAndFolders => ret filesAndFolders
  | inr e => match e with end
  end.

Definition saveFile (path cont : string) : M unit :=
  v <- readProp path ;;
  match v with
  | Some _ => updateItem path (withContent cont)
  | None => ret tt
  end.

Definition getCurrentFile : M (option FullFile) :=
  ks <- ownKeys ;;
  r <- forIn ks
         (fun path (_ : unit) =>
            fileInfo <- readProp path ;;
            match fileInfo with
            | None => typeError
            | Some i =>
                if truthyB (current i)
                then ret (inr (mkFull path (content i) None None))
                else ret (inl tt)
            end)
         tt ;;
  match r with
  | inr currentFile => ret (Some currentFile)
  | inl _ => ret None
  end.

Definition getTabs : M (list FullFile) :=
  ks <- ownKeys ;;
  r <- forIn (R := Empty_set) ks
         (fun path tabsAcc =>
            fileInfo <- readProp path ;;
            match fileInfo with
            | None => typeError
            | Some i =>
                if truthyB (tabs i)
                then ret (inl (tabsAcc ++ [mkFull path (content i) (current i) None]))
                else ret (inl tabsAcc)
            end)
         [] ;;
  match r with
  | inl tabsAcc => ret tabsAcc
  | inr e => match e with end
  end.

(** [for (const path in tabs) if (path === newPath) return;] runs over
    the index keys of the array. *)
Definition indexHits (n : nat) (newPath : string) : bool :=
  existsb (fun i => String.eqb (Js.indexKey i) newPath) (seq 0 n).

Definition changeCurrentFile (newPath : string) : M unit :=
  curFile <- getCurrentFile ;;
  match curFile with
  | Some f => updateItem (f_path f) (withCurrent false)
  | None => ret tt
  end ;;;
  updateItem newPath (withCurrent true) ;;;
  tabsNow <- getTabs ;;
  if indexHits (length tabsNow) newPath then ret tt
  else updateItem newPath (withTabs true).

Definition changeCurrentFileToTheLastTab : M unit :=
  tabsNow <- getTabs ;;
  match List.rev tabsNow with
  | [] => ret tt
  | lastTab :: _ => changeCurrentFile (f_path lastTab)
  end.

Definition removeFromTabs (path : string) : M unit :=
  updateItem path (withTabs false) ;;;
  changeCurrentFileToTheLastTab.

Definition getBuildFiles : M (list (string * string)) :=
  ks <- ownKeys ;;
  r <- forIn (R := Empty_set) ks
         (fun path buildFiles =>
            v <- readProp path ;;
            match v with
            | None => typeError
            | Some i =>
                match content i with
                | Some c =>
                    if truthyS (Some c)
                    then ret (inl (buildFiles ++ [(path, c)]))
                    else ret (inl buildFiles)
                | None => ret (inl buildFiles)
                end
            end)
         [] ;;
  match r with
  | inl buildFiles => ret buildFiles
  | inr e => match e with end
  end.

Definition newItem (fullPath : string) : M (option ItemError) :=
  match getItemNameFromPath fullPath with
  | None => typeError
  | Some name =>
      if negb (isItemNameValid name) then ret (Some InvalidName)
      else
        v <- readProp fullPath ;;
        match v with
        | Some _ => ret (Some AlreadyExists)
        | None =>
            match getItemTypeFromPath fullPath with
            | IsFolder =>
                writeProp fullPath (Some emptyItem) ;;; ret None
            | IsFile =>
                writeProp fullPath
                  (Some (mkItem (Some "") (Some true) (Some true))) ;;;
                changeCurrentFile fullPath ;;;
                ret None
            end
        end
  end.

Definition deleteItem (fullPath : string) : M unit :=
  v <- readProp fullPath ;;
  let isCurrentFile :=
    match v with Some i => truthyB (current i) | None => false end in
  ks <- ownKeys ;;
  forIn (R := Empty_set) ks
    (fun path (_ : unit) =>
       if Js.startsWith path fullPath
       then removeProp path ;;; ret (inl tt)
       else ret (inl tt))
    tt ;;;
  let parentPath := getParentPathFromPath fullPath in
  writeProp parentPath (Some emptyItem) ;;;
  ks' <- ownKeys ;;
  (if Nat.eqb (length ks') 1
   then writeProp (parentPath ++ "src/")%string (Some emptyItem)
   else ret tt) ;;;
  if isCurrentFile then changeCurrentFileToTheLastTab else ret tt.

(** The inner loop of the folder branch of [renameItem]: every item of
    the split path is written back followed by a separator. *)
Definition rebuildPath (oldName : option string) (newName : string)
    (itemsArr : list string) : string :=
  fold_left
    (fun (newPath item : string) =>
       match oldName with
       | Some o =>
           if String.eqb item o then ((newPath ++ newName) ++ "/")%string
           else (newPath ++ (item ++ "/"))%string
       | None => (newPath ++ (item ++ "/"))%string
       end)
    itemsArr "".

Definition renameItem (fullPath newName : string) : M (option ItemError) :=
  if negb (isItemNameValid newName) then ret (Some InvalidName)
  else
    match getItemTypeFromPath fullPath with
    | IsFile =>
        let parentFolder := getParentPathFromPath fullPath in
        let newPath := (parentFolder ++ newName)%string in
        v <- readProp newPath ;;
        match v with
        | Some _ => ret (Some AlreadyExists)
        | None =>
            file <- readProp fullPath ;;
            removeProp fullPath ;;;
            writeProp newPath file ;;;
            ret None
        end
    | IsFolder =>
        ks <- ownKeys ;;
        r <- forIn ks
               (fun path (_ : unit) =>
                  let oldName := getItemNameFromPath fullPath in
                  let itemsArr := Js.split path "/" in
                  let newPath := rebuildPath oldName newName itemsArr in
                  v <- readProp newPath ;;
                  match v with
                  | Some _ => ret (inr AlreadyExists)
                  | None =>
                      data <- readProp path ;;
                      removeProp path ;;;
                      writeProp newPath data ;;;
                      ret (inl tt)
                  end)
               tt ;;
        match r with
        | inr e => ret (Some e)
        | inl _ => ret None
        end
    end.

End Explorer.

(** ** Sequences of mutations and the predicates of the properties *)

(** The mutations the user interface invokes. *)
Inductive Mutation : Type :=
| NewItem (fullPath : string)
| DeleteItem (fullPath : string)
| RenameItem (fullPath newName : string)
| SaveFile (path cont : string)
| ChangeCurrentFile (newPath : string)
| RemoveFromTabs (path : string).

(** The store after a mutation, whether the call returned or raised. *)
Definition apply (m : Mutation) (fs : Files) : Files :=
  match m with
  | NewItem p => storeOf (Explorer.newItem p fs)
  | DeleteItem p => storeOf (Explorer.deleteItem p fs)
  | RenameItem p n => storeOf (Explorer.renameItem p n fs)
  | SaveFile p c => storeOf (Explorer.saveFile p c fs)
  | ChangeCurrentFile p => storeOf (Explorer.changeCurrentFile p fs)
  | RemoveFromTabs p => storeOf (Explorer.removeFromTabs p fs)
  end.

Definition applyAll (ms : list Mutation) (fs : Files) : Files :=
  fold_left (fun s m => apply m s) ms fs.

Definition isCurrentEntry (kv : string * option ItemInfo) : bool :=
  match snd kv with
  | Some i => truthyB (current i)
  | None => false
  end.

Definition isTabEntry (kv : string * option ItemInfo) : bool :=
  match snd kv with
  | Some i => truthyB (tabs i)
  | None => false
  end.

Definition isDefinedEntry (kv : string * option ItemInfo) : bool :=
  match snd kv with
  | Some _ => true
  | None => false
  end.

(** Number of entries whose [current] flag is set. *)
Definition countCurrent (fs : Files) : nat :=
  length (filter isCurrentEntry fs).

(** No property holds [undefined]. *)
Definition allDefined (fs : Files) : bool := forallb isDefinedEntry fs.

(** Every entry whose [current] flag is set has its [tabs] flag set. *)
Definition currentInTabs (fs : Files) : bool :=
  forallb (fun kv => negb (isCurrentEntry kv) || isTabEntry kv) fs.

(** A rename of a file names a key of the store. *)
Definition sourceExists (m : Mutation) (fs : Files) : bool :=
  match m with
  | RenameItem p _ =>
      match PgExplorer.getItemTypeFromPath p with
      | IsFile => hasProp p fs
      | IsFolder => true
      end
  | _ => true
  end.

Fixpoint sourcesExist (ms : list Mutation) (fs : Files) : bool :=
  match ms with
  | [] => true
  | m :: rest => sourceExists m fs && sourcesExist rest (apply m fs)
  end.

(** The [current] flag of the entry at a path. *)
Definition isCurrentAt (p : string) (fs : Files) : bool :=
  match getProp p fs with
  | Some i => truthyB (current i)
  | None => false
  end.

(** Some entry other than the one at [p] is an open tab. *)
Definition otherTabOpen (p : string) (fs : Files) : bool :=
  existsb (fun kv => negb (String.eqb (fst kv) p) && isTabEntry kv) fs.

(** The calls under which the current file stays among the tabs: the
    path given to [changeCurrentFile] is absolute, and [removeFromTabs]
    does not close the current file while no other tab is open. *)
Definition tabsGuard (m : Mutation) (fs : Files) : bool :=
  match m with
  | ChangeCurrentFile p => Js.startsWith p "/"
  | RemoveFromTabs p => negb (isCurrentAt p fs) || otherTabOpen p fs
  | _ => true
  end.

Fixpoint admissible (ms : list Mutation) (fs : Files) : bool :=
  match ms with
  | [] => true
  | m :: rest =>
      sourceExists m fs && tabsGuard m fs && admissible rest (apply m fs)
  end.

(** An entry that is current is an open tab. *)
Definition entryOk (v : option ItemInfo) : bool :=
  match v with
  | Some i => negb (truthyB (current i)) || truthyB (tabs i)
  | None => true
  end.

(** Sample items. *)
Definition fileItem (c : string) (cur tb : bool) : option ItemInfo :=
  Some (mkItem (Some c) (Some cur) (Some tb)).

Definition folderItem : option ItemInfo := Some emptyItem.

(** A computation that leaves the store as it found it, whether it
    returns or raises. *)
Definition readOnly {A : Type} (m : M A) : Prop :=
  forall fs, storeOf (m fs) = fs.

(** *** What the read-only loops compute

    A loop body that only reads the value at its key is a function of the
    key, the value and the loop's local variables; [None] stands for a
    [TypeError]. *)
Fixpoint scan {A R : Type}
    (step : string -> option ItemInfo -> A -> option (A + R))
    (l : Files) (acc : A) : option (A + R) :=
  match l with
  | [] => Some (inl acc)
  | (k, v) :: rest =>
      match step k v acc with
      | Some (inl acc') => scan step rest acc'
      | Some (inr r) => Some (inr r)
      | None => None
      end
  end.

Definition lift {A : Type} (o : option A) : M A :=
  fun fs =>
    match o with
    | Some a => Returned a fs
    | None => Raised fs
    end.

(** The first entry in enumeration order whose [current] flag is set;
    [None] when an [undefined] value is met before one is found. *)
Fixpoint currentOf (l : Files) : option (option FullFile) :=
  match l with
  | [] => Some None
  | (_, None) :: _ => None
  | (k, Some i) :: rest =>
      if truthyB (current i) then Some (Some (mkFull k (content i) None None))
      else currentOf rest
  end.

(** The entries whose [tabs] flag is set, in enumeration order. *)
Definition tabList (l : Files) : list FullFile :=
  flat_map
    (fun kv =>
       match snd kv with
       | Some i =>
           if truthyB (tabs i)
           then [mkFull (fst kv) (content i) (current i) None]
           else []
       | None => []
       end)
    l.

Definition b2n (b : bool) : nat := if b then 1 else 0.

(** No duplicate key and no [undefined] value. *)
Definition wellFormed (fs : Files) : Prop :=
  NoDup (keys fs) /\ allDefined fs = true.

(** The store after [if (curFile) files[curFile.path].current = false]
    in [changeCurrentFile], when [getCurrentFile] has returned. *)
Definition clearCurrent (s : Files) : Files :=
  match currentOf s with
  | Some (Some f) =>
      match getProp (f_path f) s with
      | Some i => setProp (f_path f) (Some (withCurrent false i)) s
      | None => s
      end
  | _ => s
  end.

(** A property of the store that a computation keeps, whether it returns
    or raises. *)
Definition preserves {A : Type} (P : Files -> Prop) (m : M A) : Prop :=
  forall s, P s -> P (storeOf (m s)).

(** The invariant of the current-file bookkeeping. *)
Definition oneCurrent (fs : Files) : Prop :=
  wellFormed fs /\ countCurrent fs <= 1.

(** A computation that neither adds nor removes a key. *)
Definition keysKept {A : Type} (m : M A) : Prop :=
  forall s, keys (storeOf (m s)) = keys s.

(** The invariant of the tab bookkeeping. *)
Definition currentIsTab (fs : Files) : Prop :=
  oneCurrent fs /\ currentInTabs fs = true.

(** The folder path made of the given segments: the separator, then
    every segment followed by the separator. *)
Fixpoint segsText (segs : list string) : string :=
  match segs with
  | [] => EmptyString
  | it :: rest => (it ++ String "/" (segsText rest))%string
  end.

Definition folderPath (segs : list string) : string :=
  String "/" (segsText segs).

(** A segment of a path: not empty and without separator. *)
Definition isSegment (s : string) : bool :=
  negb (String.eqb s "") && negb (Js.includes s "/").

(** The pairs of a path and its content, for the entries whose content
    is not empty, in enumeration order. *)
Definition buildList (l : Files) : list (string * string) :=
  flat_map
    (fun kv =>
       match snd kv with
       | Some i =>
           match content i with
           | Some c => if truthyS (Some c) then [(fst kv, c)] else []
           | None => []
           end
       | None => []
       end)
    l.

(** What every listing of [getFolderContent] satisfies: no name is
    repeated or listed both as a file and as a folder, no name is empty
    or contains the separator, and a name is a file exactly when it
    contains a dot. *)
Definition listingOk (r : Folder) : Prop :=
  NoDup (files r ++ folders r) /\
  (forall x, In x (files r ++ folders r) ->
     x <> EmptyString /\ Js.includes x "/" = false) /\
  (forall x, In x (files r) -> Js.includes x "." = true) /\
  (forall x, In x (folders r) -> Js.includes x "." = false).

(** The name is in the listing, on the side its dot decides. *)
Definition listed (name : string) (r : Folder) : Prop :=
  if Js.includes name "." then In name (files r) else In name (folders r).

(** The [tabs] flag of the entry at a path. *)
Definition isTabAt (p : string) (fs : Files) : bool :=
  match getProp p fs with
  | Some i => truthyB (tabs i)
  | None => false
  end.

(** What the folder branch of [renameItem] does to one entry: the key
    is rebuilt from its items, the value is carried over. *)
Definition rekey (oldName : option string) (newName : string)
    (kv : string * option ItemInfo) : string * option ItemInfo :=
  (Explorer.rebuildPath oldName newName (Js.split (fst kv) "/"), snd kv).

(** The store after the loop of [deleteItem]: the entries whose key does
    not start with the path. *)
Definition unprefixed (p : string) (fs : Files) : Files :=
  filter (fun kv => negb (Js.startsWith (fst kv) p)) fs.

(** The store after [deleteItem] has put back the parent folder and, when
    it is then the only key, the [src/] folder. *)
Definition restoreFolders (p : string) (s1 : Files) : Files :=
  let parentPath := PgExplorer.getParentPathFromPath p in
  let s2 := setProp parentPath (Some emptyItem) s1 in
  if Nat.eqb (length (keys s2)) 1
  then setProp (parentPath ++ "src/")%string (Some emptyItem) s2
  else s2.

(** The explorer of a first visit. *)
Definition DEFAULT_FILE : string := "/src/lib.rs".

(** The double quote. *)
Definition dq : string := String (Ascii.ascii_of_nat 34) EmptyString.

Definition DEFAULT_CODE : string :=
  ("use anchor_lang::prelude::*;

// This is your program's public key and it will update
// automatically when you first build the project.
declare_id!(" ++ dq ++
"11111111111111111111111111111111" ++ dq ++
");

#[program]
mod hello_anchor {
    use super::*;
    pub fn initialize(ctx: Context<Initialize>, data: u64) -> Result<()> {
        ctx.accounts.new_account.data = data;
        msg!(" ++ dq ++
"Changed data to: {}!" ++ dq ++
", data); // Message will show up in the tx logs
        Ok(())
    }
}

#[derive(Accounts)]
pub struct Initialize<'info> {
  // We must specify the space in order to initialize an account.
  // First 8 bytes are default account discriminator,
  // next 8 bytes come from NewAccount.data being type u64.
  // (u64 = 64 bits unsigned integer = 8 bytes)
  #[account(init, payer = signer, space = 8 + 8)]
  pub new_account: Account<'info, NewAccount>,
  #[account(mut)]
  pub signer: Signer<'info>,
  pub system_program: Program<'info, System>,
}

#[account]
#[derive(Default)]
pub struct NewAccount {
    data: u64
}")%string.

Definition DEFAULT_EXPLORER : Files :=
  [(DEFAULT_FILE, Some (mkItem (Some DEFAULT_CODE) (Some true) (Some true)))].

(** [PgExplorer.openAllParents]: the loop walks from a path to the root
    folder and opens the element of every folder on the way.  The
    document is seen through [hasEl], which tells whether
    [getElFromPath] finds an element with the given [data-path]; the
    result is the list of the paths whose element [openFolder] was called
    on, in the order of the calls.  The loop of the source has no bound:
    [fuel] bounds the number of rounds, and [None] is a loop that has not
    ended within the bound. *)
Fixpoint openAllParents (fuel : nat) (hasEl : string -> bool)
    (path : string) (opened : list string) : option (list string) :=
  match fuel with
  | 0 => None
  | S fuel' =>
      let parentPath := PgExplorer.getParentPathFromPath path in
      if negb (hasEl parentPath) then Some opened
      else
        let opened' := opened ++ [parentPath] in
        if String.eqb parentPath "/" then Some opened'
        else openAllParents fuel' hasEl parentPath opened'
  end.

(** The folder made of the segments, given innermost first, followed by
    the folders above it up to the root. *)
Fixpoint ancestorsOf (rsegs : list string) : list string :=
  folderPath (List.rev rsegs) ::
  match rsegs with
  | [] => []
  | _ :: above => ancestorsOf above
  end.

(** The longest prefix of a list on which [f] holds. *)
Fixpoint takeWhile {A : Type} (f : A -> bool) (l : list A) : list A :=
  match l with
  | [] => []
  | x :: r => if f x then x :: takeWhile f r else []
  end.

(** ** The icon of a file name *)

(** [getIconSrc] of the [LangIcon] component.  The table [Langs] and the
    constant [UNKNOWN_IMG_SRC] come from other modules: the function is
    modelled for any table, given by the value of [Langs[ext]] when it is
    neither [undefined] nor [null], and for any constant. *)
Definition getIconSrc (Langs : string -> option string)
    (UNKNOWN_IMG_SRC : string) (fileName : string) : string :=
  let parts := Js.split fileName "." in
  match PgExplorer.at_ parts (length parts) 1 with
  | None => UNKNOWN_IMG_SRC
  | Some ext =>
      if String.eqb ext "" then UNKNOWN_IMG_SRC
      else match Langs ext with
           | Some src => src
           | None => UNKNOWN_IMG_SRC
           end
  end.

(** ** The wallet kept in the local storage *)

Module PgWallet.

(** The secret key is an array of numbers, here natural numbers. *)
Record LsWallet : Type := mkLsWallet {
  setupCompleted : bool;
  connected : bool;
  sk : list nat
}.

Record UpdateLsParams : Type := mkUpdateLsParams {
  u_setupCompleted : option bool;
  u_connected : option bool;
  u_sk : option (list nat)
}.

(** What the static methods read and write: the item of the local
    storage under [WALLET_KEY], absent or the wallet that [updateLs]
    wrote there as JSON and that [getLs] parses back into a new object,
    and the object [DEFAULT_LS_WALLET] of the module, made when the page
    is loaded. *)
Record Storage : Type := mkStorage {
  item : option LsWallet;
  DEFAULT_LS_WALLET : LsWallet
}.

Definition getLs (w : Storage) : option LsWallet := item w.

(** [this.getLs() ?? DEFAULT_LS_WALLET] is the default object itself when
    the storage has no item: the assignments then change the default
    object. *)
Definition updateLs (updateParams : UpdateLsParams) (w : Storage) : Storage :=
  let lsWallet :=
    match getLs w with Some l => l | None => DEFAULT_LS_WALLET w end in
  let l1 :=
    match u_setupCompleted updateParams with
    | Some b => mkLsWallet b (connected lsWallet) (sk lsWallet)
    | None => lsWallet
    end in
  let l2 :=
    match u_connected updateParams with
    | Some b => mkLsWallet (setupCompleted l1) b (sk l1)
    | None => l1
    end in
  let l3 :=
    match u_sk updateParams with
    | Some k => mkLsWallet (setupCompleted l2) (connected l2) k
    | None => l2
    end in
  mkStorage (Some l3)
    (match getLs w with Some _ => DEFAULT_LS_WALLET w | None => l3 end).

(** A wallet object passed where update parameters are expected. *)
Definition asParams (l : LsWallet) : UpdateLsParams :=
  mkUpdateLsParams (Some (setupCompleted l)) (Some (connected l)) (Some (sk l)).

(** [new Uint8Array(sk)]: every number is taken modulo 256. *)
Definition toUint8Array (sk : list nat) : list nat :=
  map (fun n => n mod 256) sk.

(** The fields of a [PgWallet] object that the storage decides: the key
    pair and the connection flag; the public key is that of the key
    pair. *)
Record Wallet (K : Type) : Type := mkWallet {
  kp : K;
  isConnected : bool
}.

Arguments mkWallet {K} kp isConnected.
Arguments kp {K} w.
Arguments isConnected {K} w.

(** [new PgWallet()].  [fromSecretKey] is [Keypair.fromSecretKey] of the
    library, a function of the bytes it is given: the key pair, or [None]
    when it throws.  The wallet made is [None] when the constructor
    throws; the storage has been written by then, so it is part of the
    outcome in both cases. *)
Definition construct {K : Type} (fromSecretKey : list nat -> option K)
    (w : Storage) : option (Wallet K) * Storage :=
  match getLs w with
  | Some lsWallet =>
      (match fromSecretKey (toUint8Array (sk lsWallet)) with
       | Some k => Some (mkWallet k (connected lsWallet))
       | None => None
       end, w)
  | None =>
      let w' := updateLs (asParams (DEFAULT_LS_WALLET w)) w in
      let lsWallet := DEFAULT_LS_WALLET w' in
      (match fromSecretKey (toUint8Array (sk lsWallet)) with
       | Some k => Some (mkWallet k (connected lsWallet))
       | None => None
       end, w')
  end.

(** [getKp]: [None] is the [TypeError] of reading [sk] of [null], or the
    error that [Keypair.fromSecretKey] throws. *)
Definition getKp {K : Type} (fromSecretKey : list nat -> option K)
    (w : Storage) : option K :=
  match getLs w with
  | Some l => fromSecretKey (toUint8Array (sk l))
  | None => None
  end.

End PgWallet.

(** ** The keys on which the store is the object of the code *)

(** A string that contains the separator.  Such a string is not an array
    index ([5], say), which an object enumerates before its other keys
    wherever it was created, and it is not the name of a property of
    [Object.prototype] ([toString], [constructor], [__proto__]), which
    [files[k]] finds although it is no key of [files].  When the paths
    handed to the methods contain the separator, every key that is added
    does (the other keys that are written are parent paths, which start
    with the separator, and rebuilt folder keys, which end with it), new
    keys are enumerated last and a lookup of a path finds own keys only:
    [setProp] and [getProp] are then what the code does. *)
Definition isPath (p : string) : bool := Js.includes p "/".

(** The path a mutation is called with is one. *)
Definition pathArg (m : Mutation) : bool :=
  match m with
  | NewItem p => isPath p
  | DeleteItem p => isPath p
  | RenameItem p _ => isPath p
  | SaveFile p _ => isPath p
  | ChangeCurrentFile p => isPath p
  | RemoveFromTabs p => isPath p
  end.

(** * Properties *)

(** ** Facts about the store *)

Section StoreFacts.

Lemma hasProp_In (k : string) (fs : Files) :
  hasProp k fs = true <-> In k (keys fs).
Proof.
  unfold hasProp. rewrite existsb_exists. split.
  - intros [x [Hin Heq]]. apply String.eqb_eq in Heq. now subst.
  - intros Hin. exists k. split; [assumption | apply String.eqb_refl].
Qed.

Lemma hasProp_false (k : string) (fs : Files) :
  hasProp k fs = false <-> ~ In k (keys fs).
Proof.
  rewrite <- hasProp_In. destruct (hasProp k fs); split; intros H;
    try discriminate; try reflexivity; try (intros H'; discriminate).
  exfalso. now apply H.
Qed.

Lemma lookup_None (k : string) (fs : Files) :
  lookup k fs = None <-> hasProp k fs = false.
Proof.
  induction fs as [|[k' v] r IH]; simpl.
  - split; reflexivity.
  - unfold hasProp in *. simpl. rewrite (String.eqb_sym k k').
    destruct (String.eqb k' k); simpl.
    + split; discriminate.
    + exact IH.
Qed.

Lemma lookup_In (k : string) (v : option ItemInfo) (fs : Files) :
  lookup k fs = Some v -> In (k, v) fs.
Proof.
  induction fs as [|[k' v'] r IH]; simpl; [discriminate|].
  destruct (String.eqb k' k) eqn:E.
  - apply String.eqb_eq in E. intros [= ->]. left. now subst.
  - intros H. right. now apply IH.
Qed.

Lemma In_lookup (k : string) (v : option ItemInfo) (fs : Files) :
  NoDup (keys fs) -> In (k, v) fs -> lookup k fs = Some v.
Proof.
  induction fs as [|[k' v'] r IH]; simpl; [contradiction|].
  intros Hnd Hin. inversion Hnd as [|? ? Hnotin Hnd']; subst.
  destruct Hin as [[= -> ->]|Hin].
  - now rewrite String.eqb_refl.
  - destruct (String.eqb k' k) eqn:E.
    + apply String.eqb_eq in E. subst. exfalso. apply Hnotin.
      change k with (fst (k, v)). now apply in_map.
    + now apply IH.
Qed.

Lemma lookup_setProp (k k' : string) (v : option ItemInfo) (fs : Files) :
  lookup k (setProp k' v fs) =
  if String.eqb k' k then Some v else lookup k fs.
Proof.
  induction fs as [|[k0 v0] r IH]; simpl.
  - reflexivity.
  - destruct (String.eqb k0 k') eqn:E0; simpl.
    + apply String.eqb_eq in E0. subst.
      now destruct (String.eqb k' k).
    + rewrite IH. destruct (String.eqb k' k) eqn:E1.
      * apply String.eqb_eq in E1. subst. now rewrite E0.
      * reflexivity.
Qed.

Lemma getProp_setProp (k k' : string) (v : option ItemInfo) (fs : Files) :
  getProp k (setProp k' v fs) =
  if String.eqb k' k then v else getProp k fs.
Proof.
  unfold getProp. rewrite lookup_setProp. now destruct (String.eqb k' k).
Qed.

Lemma lookup_deleteProp (k k' : string) (fs : Files) :
  lookup k (deleteProp k' fs) =
  if String.eqb k' k then None else lookup k fs.
Proof.
  unfold deleteProp.
  induction fs as [|[k0 v0] r IH]; simpl.
  - now destruct (String.eqb k' k).
  - destruct (String.eqb k0 k') eqn:E0; simpl.
    + apply String.eqb_eq in E0. subst. rewrite IH.
      now destruct (String.eqb k' k).
    + rewrite IH. destruct (String.eqb k' k) eqn:E1.
      * apply String.eqb_eq in E1. subst. now rewrite E0.
      * reflexivity.
Qed.

Lemma keys_setProp_present (k : string) (v : option ItemInfo) (fs : Files) :
  hasProp k fs = true -> keys (setProp k v fs) = keys fs.
Proof.
  unfold hasProp.
  induction fs as [|[k0 v0] r IH]; simpl; [discriminate|].
  rewrite (String.eqb_sym k k0).
  destruct (String.eqb k0 k) eqn:E; simpl.
  - apply String.eqb_eq in E. now subst.
  - intros H. f_equal. now apply IH.
Qed.

Lemma setProp_absent (k : string) (v : option ItemInfo) (fs : Files) :
  hasProp k fs = false -> setProp k v fs = fs ++ [(k, v)].
Proof.
  unfold hasProp.
  induction fs as [|[k0 v0] r IH]; simpl; [reflexivity|].
  rewrite (String.eqb_sym k k0).
  destruct (String.eqb k0 k) eqn:E; simpl; [discriminate|].
  intros H. f_equal. now apply IH.
Qed.

Lemma setProp_same (k : string) (v : option ItemInfo) (fs : Files) :
  lookup k fs = Some v -> setProp k v fs = fs.
Proof.
  induction fs as [|[k0 v0] r IH]; simpl; [discriminate|].
  destruct (String.eqb k0 k) eqn:E.
  - apply String.eqb_eq in E. intros [= ->]. now subst.
  - intros H. f_equal. now apply IH.
Qed.

Lemma setProp_setProp (k : string) (v1 v2 : option ItemInfo) (fs : Files) :
  setProp k v2 (setProp k v1 fs) = setProp k v2 fs.
Proof.
  induction fs as [|[k0 v0] r IH]; simpl.
  - now rewrite String.eqb_refl.
  - destruct (String.eqb k0 k) eqn:E; simpl.
    + now rewrite String.eqb_refl.
    + rewrite E. f_equal. exact IH.
Qed.

Lemma keys_setProp_incl (k k' : string) (v : option ItemInfo) (fs : Files) :
  In k (keys (setProp k' v fs)) <-> k = k' \/ In k (keys fs).
Proof.
  destruct (hasProp k' fs) eqn:E.
  - rewrite keys_setProp_present by assumption.
    apply hasProp_In in E. split; [now right|]. intros [->|H]; assumption.
  - rewrite setProp_absent by assumption. unfold keys. rewrite map_app.
    rewrite in_app_iff. simpl. split.
    + intros [H|[H|[]]]; [now right | now left].
    + intros [H|H]; [right; now left | now left].
Qed.

Lemma NoDup_setProp (k : string) (v : option ItemInfo) (fs : Files) :
  NoDup (keys fs) -> NoDup (keys (setProp k v fs)).
Proof.
  intros Hnd. destruct (hasProp k fs) eqn:E.
  - now rewrite keys_setProp_present.
  - rewrite setProp_absent by assumption. unfold keys. rewrite map_app.
    simpl. apply NoDup_app.
    + exact Hnd.
    + constructor; [intros []|constructor].
    + intros x Hx [<-|[]]. apply hasProp_false in E. now apply E.
Qed.

Lemma keys_deleteProp (k k' : string) (fs : Files) :
  In k (keys (deleteProp k' fs)) <-> k <> k' /\ In k (keys fs).
Proof.
  unfold keys, deleteProp. rewrite !in_map_iff. split.
  - intros [[k0 v0] [Hk Hin]]. simpl in Hk. subst.
    apply filter_In in Hin. destruct Hin as [Hin Hne]. simpl in Hne.
    split.
    + intros ->. now rewrite String.eqb_refl in Hne.
    + exists (k, v0). now split.
  - intros [Hne [[k0 v0] [Hk Hin]]]. simpl in Hk. subst.
    exists (k, v0). split; [reflexivity|]. apply filter_In. split; [assumption|].
    simpl. apply negb_true_iff. now apply String.eqb_neq.
Qed.

Lemma NoDup_deleteProp (k : string) (fs : Files) :
  NoDup (keys fs) -> NoDup (keys (deleteProp k fs)).
Proof.
  unfold keys, deleteProp.
  induction fs as [|[k0 v0] r IH]; simpl; [intros; constructor|].
  intros Hnd. inversion Hnd as [|? ? Hnotin Hnd']; subst.
  destruct (negb (String.eqb k0 k)); simpl.
  - constructor; [|now apply IH].
    intros Hin. apply Hnotin.
    apply in_map_iff in Hin. destruct Hin as [x [Hx Hin]].
    apply filter_In in Hin. apply in_map_iff. exists x. now split.
  - now apply IH.
Qed.

Lemma deleteProp_absent (k : string) (fs : Files) :
  hasProp k fs = false -> deleteProp k fs = fs.
Proof.
  unfold hasProp, deleteProp.
  induction fs as [|[k0 v0] r IH]; simpl; [reflexivity|].
  rewrite (String.eqb_sym k k0).
  destruct (String.eqb k0 k); simpl; [discriminate|].
  intros H. f_equal. now apply IH.
Qed.

End StoreFacts.

(** ** Facts about paths *)

Section PathFacts.

Lemma prefix_refl (p : string) : String.prefix p p = true.
Proof.
  induction p as [|a r IH]; cbn [String.prefix]; [reflexivity|].
  now destruct (ascii_dec a a).
Qed.

Lemma endsWith_app (s t suf : string) :
  Js.endsWith t suf = true -> Js.endsWith (s ++ t) suf = true.
Proof.
  intros H. induction s as [|a r IH]; cbn [append Js.endsWith].
  - exact H.
  - rewrite IH. apply orb_true_r.
Qed.

Lemma joinItems_endsWith (items : list string) (bound : nat) (acc : string) :
  Js.endsWith acc "/" = true ->
  Js.endsWith (PgExplorer.joinItems items bound acc) "/" = true.
Proof.
  revert bound acc.
  induction items as [|it rest IH]; intros [|b] acc H;
    cbn [PgExplorer.joinItems]; try exact H.
  destruct (String.eqb it ""); apply IH; [exact H|].
  apply endsWith_app. now apply endsWith_app.
Qed.

Lemma parentPath_isFolder (p : string) :
  PgExplorer.getItemTypeFromPath (PgExplorer.getParentPathFromPath p) = IsFolder.
Proof.
  unfold PgExplorer.getItemTypeFromPath at 1.
  assert (H : Js.endsWith (PgExplorer.getParentPathFromPath p) "/" = true).
  { unfold PgExplorer.getParentPathFromPath.
    destruct (PgExplorer.getItemTypeFromPath p);
      now apply joinItems_endsWith. }
  now rewrite H.
Qed.

Lemma append_nonempty_neq (s t : string) :
  t <> EmptyString -> (s ++ t)%string <> s.
Proof.
  intros Ht. induction s as [|a r IH]; cbn [append].
  - exact Ht.
  - intros [= H]. now apply IH.
Qed.

Lemma splitOn_nonempty (sep : string) (s : string) (skip : nat) :
  Js.splitOn sep skip s <> [].
Proof.
  revert skip. induction s as [|c r IH]; intros skip; cbn [Js.splitOn].
  - discriminate.
  - destruct skip as [|k]; [|apply IH].
    destruct (String.prefix sep (String c r)); [discriminate|].
    destruct (Js.splitOn sep 0 r); discriminate.
Qed.

Lemma split_slash_nonempty (path : string) : Js.split path "/" <> [].
Proof. unfold Js.split. apply splitOn_nonempty. Qed.

Lemma rebuildPath_endsWith (oldName : option string) (newName : string)
    (itemsArr : list string) :
  itemsArr <> [] ->
  Js.endsWith (Explorer.rebuildPath oldName newName itemsArr) "/" = true.
Proof.
  unfold Explorer.rebuildPath.
  assert (H : forall items acc, items <> [] ->
    Js.endsWith
      (fold_left
         (fun (newPath item : string) =>
            match oldName with
            | Some o =>
                if String.eqb item o then ((newPath ++ newName) ++ "/")%string
                else (newPath ++ (item ++ "/"))%string
            | None => (newPath ++ (item ++ "/"))%string
            end) items acc) "/" = true).
  { induction items as [|it rest IH]; intros acc Hne; [now destruct Hne|].
    cbn [fold_left]. destruct rest as [|it' rest'].
    - cbn [fold_left]. destruct oldName as [o|].
      + destruct (String.eqb it o); apply endsWith_app;
          [reflexivity | now apply endsWith_app].
      + apply endsWith_app. now apply endsWith_app.
    - apply IH. discriminate. }
  apply H.
Qed.

End PathFacts.

(** ** Queries do not write *)

Section Frame.

Lemma readOnly_ret {A : Type} (a : A) : readOnly (ret a).
Proof. intros fs. reflexivity. Qed.

Lemma readOnly_typeError {A : Type} : readOnly (@typeError A).
Proof. intros fs. reflexivity. Qed.

Lemma readOnly_readProp (k : string) : readOnly (readProp k).
Proof. intros fs. reflexivity. Qed.

Lemma readOnly_ownKeys : readOnly ownKeys.
Proof. intros fs. reflexivity. Qed.

Lemma readOnly_stillThere (k : string) : readOnly (stillThere k).
Proof. intros fs. reflexivity. Qed.

Lemma readOnly_bind {A B : Type} (m : M A) (f : A -> M B) :
  readOnly m -> (forall a, readOnly (f a)) -> readOnly (bind m f).
Proof.
  intros Hm Hf fs. unfold bind. specialize (Hm fs).
  destruct (m fs) as [a fs'|fs']; simpl in Hm; subst.
  - apply Hf.
  - reflexivity.
Qed.

Lemma readOnly_forIn {A R : Type} (ks : list string)
    (body : string -> A -> M (A + R)) :
  (forall k a, readOnly (body k a)) ->
  forall acc, readOnly (forIn ks body acc).
Proof.
  intros Hbody. induction ks as [|k rest IH]; intros acc; simpl.
  - apply readOnly_ret.
  - apply readOnly_bind; [apply readOnly_stillThere|].
    intros [|]; [|apply IH].
    apply readOnly_bind; [apply Hbody|].
    intros [a|r]; [apply IH | apply readOnly_ret].
Qed.

Lemma readOnly_getFileContentFromPath (path : string) :
  readOnly (Explorer.getFileContentFromPath path).
Proof.
  apply readOnly_bind; [apply readOnly_readProp|].
  intros [i|]; apply readOnly_ret.
Qed.

Lemma readOnly_getFolderContent (path : string) :
  readOnly (Explorer.getFolderContent path).
Proof.
  apply readOnly_bind; [apply readOnly_ownKeys|]. intros ks.
  apply readOnly_bind.
  - apply readOnly_forIn. intros k a.
    destruct (Js.includes k path); [|apply readOnly_ret].
    destruct (nth_error (Js.split k path) 1); [|apply readOnly_typeError].
    destruct (Js.split s "/"); [apply readOnly_typeError | apply readOnly_ret].
  - intros [a|[]]. apply readOnly_ret.
Qed.

Lemma readOnly_getCurrentFile : readOnly Explorer.getCurrentFile.
Proof.
  apply readOnly_bind; [apply readOnly_ownKeys|]. intros ks.
  apply readOnly_bind.
  - apply readOnly_forIn. intros k a.
    apply readOnly_bind; [apply readOnly_readProp|].
    intros [i|]; [|apply readOnly_typeError].
    destruct (truthyB (current i)); apply readOnly_ret.
  - intros [a|r]; apply readOnly_ret.
Qed.

Lemma readOnly_getTabs : readOnly Explorer.getTabs.
Proof.
  apply readOnly_bind; [apply readOnly_ownKeys|]. intros ks.
  apply readOnly_bind.
  - apply readOnly_forIn. intros k a.
    apply readOnly_bind; [apply readOnly_readProp|].
    intros [i|]; [|apply readOnly_typeError].
    destruct (truthyB (tabs i)); apply readOnly_ret.
  - intros [a|[]]. apply readOnly_ret.
Qed.

Lemma readOnly_getBuildFiles : readOnly Explorer.getBuildFiles.
Proof.
  apply readOnly_bind; [apply readOnly_ownKeys|]. intros ks.
  apply readOnly_bind.
  - apply readOnly_forIn. intros k a.
    apply readOnly_bind; [apply readOnly_readProp|].
    intros [i|]; [|apply readOnly_typeError].
    destruct (content i) as [c|]; [|apply readOnly_ret].
    destruct (truthyS (Some c)); apply readOnly_ret.
  - intros [a|[]]. apply readOnly_ret.
Qed.

(** C10: each of the five queries leaves the store exactly as it was, for
    every store and every argument, whether the query returns a result or
    raises. *)
Theorem queries_leave_store_unchanged (fs : Files) (path : string) :
  storeOf (Explorer.getFolderContent path fs) = fs /\
  storeOf (Explorer.getCurrentFile fs) = fs /\
  storeOf (Explorer.getTabs fs) = fs /\
  storeOf (Explorer.getBuildFiles fs) = fs /\
  storeOf (Explorer.getFileContentFromPath path fs) = fs.
Proof.
  repeat split.
  - apply readOnly_getFolderContent.
  - apply readOnly_getCurrentFile.
  - apply readOnly_getTabs.
  - apply readOnly_getBuildFiles.
  - apply readOnly_getFileContentFromPath.
Qed.

End Frame.

(** ** The loops over the store's own keys *)

Section Loops.

Lemma forIn_scan {A R : Type} (body : string -> A -> M (A + R))
    (step : string -> option ItemInfo -> A -> option (A + R)) (fs : Files) :
  (forall k a s, body k a s = lift (step k (getProp k s) a) s) ->
  NoDup (keys fs) ->
  forall acc, forIn (keys fs) body acc fs = lift (scan step fs acc) fs.
Proof.
  intros Hbody Hnd.
  assert (Hgen : forall l, incl l fs ->
            forall acc, forIn (keys l) body acc fs = lift (scan step l acc) fs).
  { induction l as [|[k v] rest IH]; intros Hincl acc; simpl.
    - reflexivity.
    - assert (Hin : In (k, v) fs) by (apply Hincl; now left).
      assert (Hhas : hasProp k fs = true).
      { apply hasProp_In. change k with (fst (k, v)). now apply in_map. }
      assert (Hget : getProp k fs = v).
      { unfold getProp. now rewrite (In_lookup k v fs Hnd Hin). }
      unfold bind at 1. unfold stillThere. rewrite Hhas.
      unfold bind at 1. rewrite Hbody, Hget. unfold lift at 1.
      destruct (step k v acc) as [[acc'|r]|].
      + apply IH. intros x Hx. apply Hincl. now right.
      + reflexivity.
      + reflexivity. }
  apply Hgen. apply incl_refl.
Qed.

Lemma getCurrentFile_eq (fs : Files) :
  NoDup (keys fs) ->
  Explorer.getCurrentFile fs = lift (currentOf fs) fs.
Proof.
  intros Hnd. unfold Explorer.getCurrentFile.
  unfold bind at 1. unfold ownKeys. unfold bind at 1.
  rewrite (forIn_scan _
    (fun k v (_ : unit) =>
       match v with
       | None => None
       | Some i =>
           if truthyB (current i)
           then Some (inr (mkFull k (content i) None None))
           else Some (inl tt)
       end) fs).
  - assert (H : forall l u,
      scan (fun k v (_ : unit) =>
              match v with
              | None => None
              | Some i =>
                  if truthyB (current i)
                  then Some (inr (mkFull k (content i) None None))
                  else Some (inl tt)
              end) l u =
      match currentOf l with
      | Some (Some f) => Some (inr f)
      | Some None => Some (inl tt)
      | None => None
      end).
    { induction l as [|[k [i|]] rest IH]; intros []; simpl; try reflexivity.
      destruct (truthyB (current i)); [reflexivity | apply IH]. }
    rewrite H. unfold lift.
    destruct (currentOf fs) as [[f|]|]; reflexivity.
  - intros k a s. unfold bind, readProp, lift.
    destruct (getProp k s) as [i|]; [|reflexivity].
    destruct (truthyB (current i)); reflexivity.
  - exact Hnd.
Qed.

Lemma getTabs_eq (fs : Files) :
  NoDup (keys fs) ->
  Explorer.getTabs fs =
  if allDefined fs then Returned (tabList fs) fs else Raised fs.
Proof.
  intros Hnd. unfold Explorer.getTabs.
  unfold bind at 1. unfold ownKeys. unfold bind at 1.
  rewrite (forIn_scan (R := Empty_set) _
    (fun k v acc =>
       match v with
       | None => None
       | Some i =>
           if truthyB (tabs i)
           then Some (inl (acc ++ [mkFull k (content i) (current i) None]))
           else Some (inl acc)
       end) fs).
  - assert (H : forall l acc,
      scan (R := Empty_set) (fun k v acc =>
              match v with
              | None => None
              | Some i =>
                  if truthyB (tabs i)
                  then Some (inl (acc ++ [mkFull k (content i) (current i) None]))
                  else Some (inl acc)
              end) l acc =
      if allDefined l then Some (inl (acc ++ tabList l)) else None).
    { induction l as [|[k [i|]] rest IH]; intros acc; simpl.
      - now rewrite app_nil_r.
      - destruct (truthyB (tabs i)); rewrite IH;
          destruct (allDefined rest); try reflexivity.
        now rewrite <- app_assoc.
      - reflexivity. }
    rewrite H. unfold lift. simpl.
    destruct (allDefined fs); reflexivity.
  - intros k a s. unfold bind, readProp, lift.
    destruct (getProp k s) as [i|]; [|reflexivity].
    destruct (truthyB (tabs i)); reflexivity.
  - exact Hnd.
Qed.

Lemma updateItem_eq (k : string) (f : ItemInfo -> ItemInfo) (fs : Files) :
  updateItem k f fs =
  match getProp k fs with
  | Some i => Returned tt (setProp k (Some (f i)) fs)
  | None => Raised fs
  end.
Proof.
  unfold updateItem, bind, readProp. now destruct (getProp k fs).
Qed.

End Loops.

(** ** Counting the current flags *)

Section Counting.

Lemma allDefined_setProp (k : string) (i : ItemInfo) (fs : Files) :
  allDefined fs = true -> allDefined (setProp k (Some i) fs) = true.
Proof.
  unfold allDefined.
  induction fs as [|[k0 v0] r IH]; simpl; [reflexivity|].
  intros H. apply andb_true_iff in H. destruct H as [H0 Hr].
  destruct (String.eqb k0 k); simpl.
  - exact Hr.
  - rewrite IH by assumption. now rewrite H0.
Qed.

Lemma allDefined_deleteProp (k : string) (fs : Files) :
  allDefined fs = true -> allDefined (deleteProp k fs) = true.
Proof.
  unfold allDefined, deleteProp. rewrite !forallb_forall.
  intros H x Hx. apply filter_In in Hx. now apply H.
Qed.

Lemma allDefined_lookup (k : string) (v : option ItemInfo) (fs : Files) :
  allDefined fs = true -> lookup k fs = Some v -> exists i, v = Some i.
Proof.
  unfold allDefined. rewrite forallb_forall. intros H Hl.
  apply lookup_In in Hl. specialize (H _ Hl). unfold isDefinedEntry in H.
  simpl in H. destruct v as [i|]; [now exists i | discriminate].
Qed.

Lemma allDefined_getProp_None (k : string) (fs : Files) :
  allDefined fs = true -> getProp k fs = None -> hasProp k fs = false.
Proof.
  intros Had Hg. unfold getProp in Hg.
  destruct (lookup k fs) as [v|] eqn:E.
  - destruct (allDefined_lookup k v fs Had E) as [i ->]. discriminate.
  - now apply lookup_None.
Qed.

Lemma getProp_Some_lookup (k : string) (i : ItemInfo) (fs : Files) :
  getProp k fs = Some i <-> lookup k fs = Some (Some i).
Proof.
  unfold getProp. destruct (lookup k fs) as [[j|]|]; split; intros H;
    try discriminate; congruence.
Qed.

Lemma getProp_Some_hasProp (k : string) (i : ItemInfo) (fs : Files) :
  getProp k fs = Some i -> hasProp k fs = true.
Proof.
  intros H. apply getProp_Some_lookup in H.
  destruct (hasProp k fs) eqn:E; [reflexivity|].
  apply lookup_None in E. congruence.
Qed.

Lemma wellFormed_setProp (k : string) (i : ItemInfo) (fs : Files) :
  wellFormed fs -> wellFormed (setProp k (Some i) fs).
Proof.
  intros [Hnd Had]. split;
    [now apply NoDup_setProp | now apply allDefined_setProp].
Qed.

Lemma wellFormed_deleteProp (k : string) (fs : Files) :
  wellFormed fs -> wellFormed (deleteProp k fs).
Proof.
  intros [Hnd Had]. split;
    [now apply NoDup_deleteProp | now apply allDefined_deleteProp].
Qed.

Lemma count_setProp_present (k : string) (v v' : option ItemInfo) (fs : Files) :
  lookup k fs = Some v ->
  countCurrent (setProp k v' fs) + b2n (isCurrentEntry (k, v)) =
  countCurrent fs + b2n (isCurrentEntry (k, v')).
Proof.
  unfold countCurrent.
  induction fs as [|[k0 v0] r IH]; simpl; [discriminate|].
  destruct (String.eqb k0 k) eqn:E.
  - apply String.eqb_eq in E. subst. intros [= ->]. cbn [filter].
    destruct (isCurrentEntry (k, v)), (isCurrentEntry (k, v'));
      cbn [length b2n]; lia.
  - intros H. specialize (IH H). cbn [filter].
    destruct (isCurrentEntry (k0, v0)); cbn [length]; lia.
Qed.

Lemma count_app (l1 l2 : Files) :
  countCurrent (l1 ++ l2) = countCurrent l1 + countCurrent l2.
Proof.
  unfold countCurrent. now rewrite filter_app, length_app.
Qed.

Lemma count_setProp_absent (k : string) (v : option ItemInfo) (fs : Files) :
  hasProp k fs = false ->
  countCurrent (setProp k v fs) = countCurrent fs + b2n (isCurrentEntry (k, v)).
Proof.
  intros H. rewrite setProp_absent by assumption. rewrite count_app.
  f_equal. unfold countCurrent. simpl. now destruct (isCurrentEntry (k, v)).
Qed.

Lemma deleteProp_cons (k k0 : string) (v0 : option ItemInfo) (r : Files) :
  deleteProp k ((k0, v0) :: r) =
  if String.eqb k0 k then deleteProp k r else (k0, v0) :: deleteProp k r.
Proof.
  unfold deleteProp. cbn [filter fst]. now destruct (String.eqb k0 k).
Qed.

Lemma count_cons (kv : string * option ItemInfo) (r : Files) :
  countCurrent (kv :: r) = b2n (isCurrentEntry kv) + countCurrent r.
Proof.
  unfold countCurrent. cbn [filter]. now destruct (isCurrentEntry kv).
Qed.

Lemma count_deleteProp_le (k : string) (fs : Files) :
  countCurrent (deleteProp k fs) <= countCurrent fs.
Proof.
  induction fs as [|[k0 v0] r IH]; [apply Nat.le_refl|].
  rewrite deleteProp_cons, count_cons.
  destruct (String.eqb k0 k); [|rewrite count_cons]; lia.
Qed.

Lemma count_deleteProp_present (k : string) (v : option ItemInfo) (fs : Files) :
  lookup k fs = Some v ->
  countCurrent (deleteProp k fs) + b2n (isCurrentEntry (k, v)) <=
  countCurrent fs.
Proof.
  induction fs as [|[k0 v0] r IH]; cbn [lookup]; [discriminate|].
  rewrite deleteProp_cons, count_cons.
  destruct (String.eqb k0 k) eqn:E.
  - apply String.eqb_eq in E. subst. intros [= ->].
    pose proof (count_deleteProp_le k r). lia.
  - intros H. specialize (IH H). rewrite count_cons. lia.
Qed.

Lemma currentOf_defined (fs : Files) :
  allDefined fs = true -> exists r, currentOf fs = Some r.
Proof.
  unfold allDefined.
  induction fs as [|[k [i|]] r IH]; simpl; intros H.
  - now exists None.
  - destruct (truthyB (current i)); [eexists; reflexivity | now apply IH].
  - discriminate.
Qed.

Lemma currentOf_Some (fs : Files) (f : FullFile) :
  currentOf fs = Some (Some f) ->
  exists i, In (f_path f, Some i) fs /\ truthyB (current i) = true.
Proof.
  induction fs as [|[k [i|]] r IH]; simpl; try discriminate.
  destruct (truthyB (current i)) eqn:E.
  - intros [= <-]. simpl. exists i. split; [now left | assumption].
  - intros H. destruct (IH H) as [j [Hin Hj]]. exists j. split; [now right | assumption].
Qed.

Lemma currentOf_None (fs : Files) :
  currentOf fs = Some None -> countCurrent fs = 0.
Proof.
  unfold countCurrent.
  induction fs as [|[k [i|]] r IH]; simpl; try discriminate; [reflexivity|].
  unfold isCurrentEntry at 1. simpl.
  destruct (truthyB (current i)); [discriminate | assumption].
Qed.

Lemma currentOf_app (fs0 l : Files) (f : FullFile) :
  currentOf (fs0 ++ l) = Some (Some f) ->
  ~ In (f_path f) (keys fs0) ->
  countCurrent fs0 = 0.
Proof.
  unfold countCurrent.
  induction fs0 as [|[k [i|]] r IH]; simpl; try discriminate; [reflexivity|].
  unfold isCurrentEntry at 1. simpl.
  destruct (truthyB (current i)).
  - intros [= <-]. simpl. intros H. exfalso. apply H. now left.
  - intros H Hn. apply IH; [assumption|]. intros Hin. apply Hn. now right.
Qed.

Lemma wellFormed_clearCurrent (s : Files) :
  wellFormed s -> wellFormed (clearCurrent s).
Proof.
  intros Hwf. unfold clearCurrent.
  destruct (currentOf s) as [[f|]|]; try assumption.
  destruct (getProp (f_path f) s); [now apply wellFormed_setProp | assumption].
Qed.

Lemma keys_clearCurrent (s : Files) : keys (clearCurrent s) = keys s.
Proof.
  unfold clearCurrent.
  destruct (currentOf s) as [[f|]|]; try reflexivity.
  destruct (getProp (f_path f) s) eqn:E; [|reflexivity].
  apply keys_setProp_present. now apply getProp_Some_hasProp in E.
Qed.

Lemma count_clearCurrent (s : Files) :
  wellFormed s -> countCurrent (clearCurrent s) = pred (countCurrent s).
Proof.
  intros [Hnd Had]. unfold clearCurrent.
  destruct (currentOf s) as [[f|]|] eqn:E.
  - destruct (currentOf_Some s f E) as [i [Hin Hcur]].
    apply In_lookup in Hin; [|assumption].
    assert (Hg : getProp (f_path f) s = Some i) by now apply getProp_Some_lookup.
    rewrite Hg.
    pose proof (count_setProp_present (f_path f) (Some i)
                  (Some (withCurrent false i)) s Hin) as Hc.
    unfold isCurrentEntry in Hc. simpl in Hc. rewrite Hcur in Hc.
    simpl in Hc. lia.
  - now rewrite (currentOf_None s E).
  - destruct (currentOf_defined s Had) as [r Hr]. congruence.
Qed.

End Counting.

(** ** The current-file transition *)

Section CurrentFile.

Lemma changeCurrentFile_eq (p : string) (s : Files) :
  wellFormed s ->
  Explorer.changeCurrentFile p s =
  match getProp p (clearCurrent s) with
  | None => Raised (clearCurrent s)
  | Some i1 =>
      let s2 := setProp p (Some (withCurrent true i1)) (clearCurrent s) in
      Returned tt
        (if Explorer.indexHits (length (tabList s2)) p then s2
         else setProp p (Some (withTabs true (withCurrent true i1))) s2)
  end.
Proof.
  intros Hwf. pose proof (wellFormed_clearCurrent s Hwf) as Hwf1.
  destruct Hwf as [Hnd Had].
  assert (Hstep : forall (k : M unit),
    bind (A := unit)
      (fun s0 => match currentOf s with
                 | Some (Some f) => updateItem (f_path f) (withCurrent false) s0
                 | _ => ret tt s0
                 end) (fun _ => k) s = k (clearCurrent s)).
  { intros k. unfold bind, clearCurrent.
    destruct (currentOf s) as [[f|]|] eqn:E; try reflexivity.
    rewrite updateItem_eq.
    destruct (currentOf_Some s f E) as [i [Hin Hcur]].
    apply In_lookup in Hin; [|assumption].
    apply getProp_Some_lookup in Hin. now rewrite Hin. }
  unfold Explorer.changeCurrentFile.
  unfold bind at 1. rewrite getCurrentFile_eq by assumption.
  destruct (currentOf_defined s Had) as [r Hr].
  rewrite Hr in *. unfold lift.
  transitivity
    (bind (A := unit)
       (fun s0 => match Some r with
                  | Some (Some f) => updateItem (f_path f) (withCurrent false) s0
                  | _ => ret tt s0
                  end)
       (fun _ =>
          updateItem p (withCurrent true) ;;;
          tabsNow <- Explorer.getTabs ;;
          (if Explorer.indexHits (length tabsNow) p then ret tt
           else updateItem p (withTabs true))) s).
  { unfold bind at 1 5. destruct r as [f|]; reflexivity. }
  rewrite Hstep. set (s1 := clearCurrent s) in *.
  unfold bind at 1. rewrite updateItem_eq.
  destruct (getProp p s1) as [i1|] eqn:Ep; [|reflexivity].
  cbv zeta. set (s2 := setProp p (Some (withCurrent true i1)) s1).
  assert (Hwf2 : wellFormed s2) by now apply wellFormed_setProp.
  destruct Hwf2 as [Hnd2 Had2].
  unfold bind at 1. rewrite getTabs_eq by assumption. rewrite Had2.
  destruct (Explorer.indexHits (length (tabList s2)) p); [reflexivity|].
  rewrite updateItem_eq. unfold s2 at 1. rewrite getProp_setProp.
  now rewrite String.eqb_refl.
Qed.

Lemma changeCurrentFileToTheLastTab_eq (s : Files) :
  NoDup (keys s) ->
  Explorer.changeCurrentFileToTheLastTab s =
  if allDefined s
  then match List.rev (tabList s) with
       | [] => Returned tt s
       | lastTab :: _ => Explorer.changeCurrentFile (f_path lastTab) s
       end
  else Raised s.
Proof.
  intros Hnd. unfold Explorer.changeCurrentFileToTheLastTab.
  unfold bind. rewrite getTabs_eq by assumption.
  destruct (allDefined s); [|reflexivity].
  destruct (List.rev (tabList s)); reflexivity.
Qed.

(** The store after [files[p].current = true] and the tab update, from a
    well-formed store [s1] in which [p] holds [i1]. *)
Lemma setCurrent_count (p : string) (i1 : ItemInfo) (s1 : Files) (b : bool) :
  wellFormed s1 ->
  getProp p s1 = Some i1 ->
  let s2 := setProp p (Some (withCurrent true i1)) s1 in
  let s3 := if b then s2
            else setProp p (Some (withTabs true (withCurrent true i1))) s2 in
  wellFormed s3 /\
  countCurrent s3 + b2n (truthyB (current i1)) = countCurrent s1 + 1.
Proof.
  intros Hwf Hg s2 s3.
  assert (Hwf2 : wellFormed s2) by now apply wellFormed_setProp.
  apply getProp_Some_lookup in Hg.
  pose proof (count_setProp_present p (Some i1) (Some (withCurrent true i1))
                s1 Hg) as Hc.
  unfold isCurrentEntry in Hc. cbn [snd withCurrent current truthyB b2n] in Hc.
  fold s2 in Hc.
  destruct b; subst s3.
  - split; [assumption | lia].
  - split; [now apply wellFormed_setProp|].
    assert (Hl2 : lookup p s2 = Some (Some (withCurrent true i1))).
    { unfold s2. rewrite lookup_setProp. now rewrite String.eqb_refl. }
    pose proof (count_setProp_present p (Some (withCurrent true i1))
                  (Some (withTabs true (withCurrent true i1))) s2 Hl2) as Hc2.
    unfold isCurrentEntry in Hc2.
    cbn [snd withCurrent withTabs current truthyB b2n] in Hc2. lia.
Qed.

Lemma changeCurrentFile_oneCurrent (p : string) :
  preserves oneCurrent (Explorer.changeCurrentFile p).
Proof.
  intros s [Hwf Hc]. rewrite changeCurrentFile_eq by assumption.
  pose proof (wellFormed_clearCurrent s Hwf) as Hwf1.
  pose proof (count_clearCurrent s Hwf) as Hc1.
  destruct (getProp p (clearCurrent s)) as [i1|] eqn:Ep.
  - cbv zeta. cbn [storeOf].
    destruct (setCurrent_count p i1 (clearCurrent s)
                (Explorer.indexHits
                   (length (tabList (setProp p (Some (withCurrent true i1))
                                       (clearCurrent s)))) p) Hwf1 Ep)
      as [Hwf3 Hc3].
    split; [exact Hwf3 | lia].
  - cbn [storeOf]. split; [assumption | lia].
Qed.

Lemma changeCurrentFileToTheLastTab_oneCurrent :
  preserves oneCurrent Explorer.changeCurrentFileToTheLastTab.
Proof.
  intros s Hinv. pose proof Hinv as [[Hnd Had] Hc].
  rewrite changeCurrentFileToTheLastTab_eq by assumption.
  destruct (allDefined s); [|assumption].
  destruct (List.rev (tabList s)); [assumption|].
  now apply changeCurrentFile_oneCurrent.
Qed.

(** [changeCurrentFile] on the file that [newItem] has just appended. *)
Lemma changeCurrentFile_appended (p : string) (i0 : ItemInfo) (fs0 : Files) :
  oneCurrent fs0 ->
  hasProp p fs0 = false ->
  truthyB (current i0) = true ->
  oneCurrent (storeOf (Explorer.changeCurrentFile p (fs0 ++ [(p, Some i0)]))).
Proof.
  intros [Hwf0 Hc0] Hnew Hcur0.
  set (s := fs0 ++ [(p, Some i0)]).
  assert (Hs : s = setProp p (Some i0) fs0)
    by (symmetry; now apply setProp_absent).
  assert (Hwf : wellFormed s) by (rewrite Hs; now apply wellFormed_setProp).
  assert (Hcs : countCurrent s = countCurrent fs0 + 1).
  { unfold s. rewrite count_app. f_equal. unfold countCurrent, isCurrentEntry.
    cbn [filter snd]. now rewrite Hcur0. }
  rewrite changeCurrentFile_eq by assumption.
  pose proof (wellFormed_clearCurrent s Hwf) as Hwf1.
  pose proof (count_clearCurrent s Hwf) as Hc1.
  assert (Hps : getProp p s = Some i0).
  { rewrite Hs, getProp_setProp. now rewrite String.eqb_refl. }
  assert (Hp1 : exists i1, getProp p (clearCurrent s) = Some i1 /\
            (truthyB (current i1) = true \/ countCurrent fs0 = 0)).
  { unfold clearCurrent.
    destruct (currentOf s) as [[f|]|] eqn:E.
    - destruct (getProp (f_path f) s) as [i|] eqn:Ef.
      + rewrite getProp_setProp.
        destruct (String.eqb (f_path f) p) eqn:Efp.
        * apply String.eqb_eq in Efp. eexists. split; [reflexivity|]. right.
          apply (currentOf_app fs0 [(p, Some i0)] f E).
          rewrite Efp. now apply hasProp_false.
        * exists i0. split; [assumption | now left].
      + exists i0. split; [assumption | now left].
    - exists i0. split; [assumption | now left].
    - exists i0. split; [assumption | now left]. }
  destruct Hp1 as [i1 [Ep Hi1]]. rewrite Ep. cbv zeta. cbn [storeOf].
  destruct (setCurrent_count p i1 (clearCurrent s)
              (Explorer.indexHits
                 (length (tabList (setProp p (Some (withCurrent true i1))
                                     (clearCurrent s)))) p) Hwf1 Ep)
    as [Hwf3 Hc3].
  split; [exact Hwf3|].
  destruct Hi1 as [Hi1|Hi1].
  - rewrite Hi1 in Hc3. cbn [b2n] in Hc3. lia.
  - lia.
Qed.

End CurrentFile.

(** ** Every mutation keeps the invariant of the current flag *)

Section OneCurrent.

Lemma preserves_ret {A : Type} (P : Files -> Prop) (a : A) :
  preserves P (ret a).
Proof. intros s H. exact H. Qed.

Lemma preserves_typeError {A : Type} (P : Files -> Prop) :
  preserves P (@typeError A).
Proof. intros s H. exact H. Qed.

Lemma preserves_readOnly {A : Type} (P : Files -> Prop) (m : M A) :
  readOnly m -> preserves P m.
Proof. intros Hm s H. now rewrite Hm. Qed.

Lemma preserves_bind {A B : Type} (P : Files -> Prop) (m : M A)
    (f : A -> M B) :
  preserves P m -> (forall a, preserves P (f a)) -> preserves P (bind m f).
Proof.
  intros Hm Hf s H. unfold bind. specialize (Hm s H).
  destruct (m s) as [a s'|s']; cbn [storeOf] in *.
  - now apply Hf.
  - exact Hm.
Qed.

Lemma preserves_forIn {A R : Type} (P : Files -> Prop) (ks : list string)
    (body : string -> A -> M (A + R)) :
  (forall k a s, P s -> hasProp k s = true -> P (storeOf (body k a s))) ->
  forall acc, preserves P (forIn ks body acc).
Proof.
  intros Hbody. induction ks as [|k rest IH]; intros acc s H; cbn [forIn].
  - exact H.
  - unfold bind at 1. unfold stillThere.
    destruct (hasProp k s) eqn:E; [|now apply IH].
    unfold bind. specialize (Hbody k acc s H E).
    destruct (body k acc s) as [[a|r] s'|s']; cbn [storeOf] in *.
    + now apply IH.
    + exact Hbody.
    + exact Hbody.
Qed.

Lemma setProp_notCurrent_oneCurrent (k : string) (i : ItemInfo) (s : Files) :
  truthyB (current i) = false ->
  oneCurrent s -> oneCurrent (setProp k (Some i) s).
Proof.
  intros Hi [Hwf Hc]. split; [now apply wellFormed_setProp|].
  destruct (lookup k s) as [v|] eqn:E.
  - pose proof (count_setProp_present k v (Some i) s E) as H.
    unfold isCurrentEntry at 2 in H. cbn [snd] in H. rewrite Hi in H.
    cbn [b2n] in H. lia.
  - apply lookup_None in E. rewrite count_setProp_absent by assumption.
    unfold isCurrentEntry. cbn [snd]. rewrite Hi. cbn [b2n]. lia.
Qed.

Lemma setProp_sameCurrent_oneCurrent (k : string) (i i' : ItemInfo) (s : Files) :
  getProp k s = Some i ->
  current i' = current i ->
  oneCurrent s -> oneCurrent (setProp k (Some i') s).
Proof.
  intros Hg Hi [Hwf Hc]. split; [now apply wellFormed_setProp|].
  apply getProp_Some_lookup in Hg.
  pose proof (count_setProp_present k (Some i) (Some i') s Hg) as H.
  unfold isCurrentEntry in H. cbn [snd] in H. rewrite Hi in H. lia.
Qed.

Lemma deleteProp_oneCurrent (k : string) (s : Files) :
  oneCurrent s -> oneCurrent (deleteProp k s).
Proof.
  intros [Hwf Hc]. split; [now apply wellFormed_deleteProp|].
  pose proof (count_deleteProp_le k s). lia.
Qed.

Lemma wellFormed_getProp (k : string) (s : Files) :
  wellFormed s -> hasProp k s = true -> exists i, getProp k s = Some i.
Proof.
  intros [Hnd Had] Hk. destruct (getProp k s) as [i|] eqn:E.
  - now exists i.
  - apply allDefined_getProp_None in E; [congruence | assumption].
Qed.

(** An entry moved to a new key, as both branches of [renameItem] do. *)
Lemma move_oneCurrent (path newPath : string) (s : Files) :
  oneCurrent s ->
  hasProp path s = true ->
  getProp newPath s = None ->
  oneCurrent (setProp newPath (getProp path s) (deleteProp path s)).
Proof.
  intros [Hwf Hc] Hp Hn.
  destruct (wellFormed_getProp path s Hwf Hp) as [i Hi]. rewrite Hi.
  split; [apply wellFormed_setProp; now apply wellFormed_deleteProp|].
  assert (Hnew : hasProp newPath (deleteProp path s) = false).
  { apply hasProp_false. intros Hin. apply keys_deleteProp in Hin.
    destruct Hin as [_ Hin]. apply hasProp_In in Hin.
    destruct Hwf as [_ Had].
    pose proof (allDefined_getProp_None newPath s Had Hn). congruence. }
  rewrite count_setProp_absent by assumption.
  apply getProp_Some_lookup in Hi.
  pose proof (count_deleteProp_present path (Some i) s Hi) as H.
  unfold isCurrentEntry in *. cbn [snd] in *. lia.
Qed.

Lemma saveFile_oneCurrent (p c : string) :
  preserves oneCurrent (Explorer.saveFile p c).
Proof.
  intros s H. unfold Explorer.saveFile, bind, readProp.
  destruct (getProp p s) as [i|] eqn:E; [|exact H].
  rewrite updateItem_eq, E. cbn [storeOf].
  now apply (setProp_sameCurrent_oneCurrent p i).
Qed.

Lemma removeFromTabs_oneCurrent (p : string) :
  preserves oneCurrent (Explorer.removeFromTabs p).
Proof.
  apply preserves_bind.
  - intros s H. rewrite updateItem_eq.
    destruct (getProp p s) as [i|] eqn:E; [|exact H]. cbn [storeOf].
    now apply (setProp_sameCurrent_oneCurrent p i).
  - intros _. apply changeCurrentFileToTheLastTab_oneCurrent.
Qed.

Lemma newItem_oneCurrent (p : string) :
  preserves oneCurrent (Explorer.newItem p).
Proof.
  intros s H. unfold Explorer.newItem.
  destruct (PgExplorer.getItemNameFromPath p) as [name|]; [|exact H].
  destruct (negb (PgExplorer.isItemNameValid name)); [exact H|].
  unfold bind at 1. unfold readProp.
  destruct (getProp p s) as [i|] eqn:E; [exact H|].
  assert (Hnew : hasProp p s = false).
  { destruct H as [[_ Had] _]. now apply allDefined_getProp_None. }
  destruct (PgExplorer.getItemTypeFromPath p).
  - unfold bind, writeProp, ret. cbn [storeOf].
    now apply setProp_notCurrent_oneCurrent.
  - unfold bind at 1. unfold writeProp.
    rewrite setProp_absent by assumption.
    pose proof (changeCurrentFile_appended p
                  (mkItem (Some "") (Some true) (Some true)) s H Hnew
                  eq_refl) as Hc.
    unfold bind.
    destruct (Explorer.changeCurrentFile p
                (s ++ [(p, Some (mkItem (Some "") (Some true) (Some true)))]));
      exact Hc.
Qed.

End OneCurrent.

Section OneCurrentStructural.

Lemma deleteItem_oneCurrent (p : string) :
  preserves oneCurrent (Explorer.deleteItem p).
Proof.
  unfold Explorer.deleteItem.
  apply preserves_bind; [apply preserves_readOnly, readOnly_readProp|].
  intros v. cbv zeta.
  apply preserves_bind; [apply preserves_readOnly, readOnly_ownKeys|].
  intros ks. apply preserves_bind.
  - apply preserves_forIn. intros k a s H _.
    destruct (Js.startsWith k p); [|exact H].
    unfold bind, removeProp, ret. cbn [storeOf].
    now apply deleteProp_oneCurrent.
  - intros _. apply preserves_bind.
    + intros s H. unfold writeProp. cbn [storeOf].
      now apply setProp_notCurrent_oneCurrent.
    + intros _.
      apply preserves_bind; [apply preserves_readOnly, readOnly_ownKeys|].
      intros ks'. apply preserves_bind.
      * destruct (Nat.eqb (length ks') 1); [|apply preserves_ret].
        intros s H. unfold writeProp. cbn [storeOf].
        now apply setProp_notCurrent_oneCurrent.
      * intros _.
        destruct (match v with
                  | Some i => truthyB (current i)
                  | None => false
                  end);
          [apply changeCurrentFileToTheLastTab_oneCurrent | apply preserves_ret].
Qed.

Lemma renameItem_oneCurrent (p n : string) (s : Files) :
  oneCurrent s ->
  sourceExists (RenameItem p n) s = true ->
  oneCurrent (storeOf (Explorer.renameItem p n s)).
Proof.
  intros H Hsrc. unfold Explorer.renameItem.
  destruct (negb (PgExplorer.isItemNameValid n)); [exact H|].
  cbn [sourceExists] in Hsrc.
  destruct (PgExplorer.getItemTypeFromPath p).
  - clear Hsrc. revert s H.
    apply preserves_bind; [apply preserves_readOnly, readOnly_ownKeys|].
    intros ks. apply preserves_bind.
    + apply preserves_forIn. intros k a s H Hk. cbv zeta.
      unfold bind at 1. unfold readProp at 1.
      destruct (getProp _ s) eqn:E; [exact H|].
      unfold bind, readProp, removeProp, writeProp, ret. cbn [storeOf].
      now apply move_oneCurrent.
    + intros [a|e]; apply preserves_ret.
  - cbv zeta. unfold bind at 1. unfold readProp at 1.
    destruct (getProp _ s) eqn:E; [exact H|].
    unfold bind, readProp, removeProp, writeProp, ret. cbn [storeOf].
    now apply move_oneCurrent.
Qed.

Lemma apply_oneCurrent (m : Mutation) (s : Files) :
  oneCurrent s -> sourceExists m s = true -> oneCurrent (apply m s).
Proof.
  intros H Hsrc. destruct m; cbn [apply].
  - now apply newItem_oneCurrent.
  - now apply deleteItem_oneCurrent.
  - now apply renameItem_oneCurrent.
  - now apply saveFile_oneCurrent.
  - now apply changeCurrentFile_oneCurrent.
  - now apply removeFromTabs_oneCurrent.
Qed.

Lemma applyAll_oneCurrent (ms : list Mutation) (s : Files) :
  oneCurrent s -> sourcesExist ms s = true -> oneCurrent (applyAll ms s).
Proof.
  revert s. induction ms as [|m rest IH]; intros s H Hsrc; cbn in *.
  - exact H.
  - apply andb_true_iff in Hsrc. destruct Hsrc as [Hm Hrest].
    apply IH; [now apply apply_oneCurrent | assumption].
Qed.

End OneCurrentStructural.

(** ** Uniqueness of the current file *)

Section CurrentUnique.

(** C3, as amended: a store without duplicate keys and without
    [undefined] values in which at most one entry is current keeps at
    most one current entry under every sequence of mutations whose paths
    contain the separator and in which each rename of a file names a key
    of the store at that moment; this holds whether the calls return or
    raise. *)
Theorem current_unique_after_mutations (ms : list Mutation) (fs : Files) :
  NoDup (keys fs) ->
  allDefined fs = true ->
  countCurrent fs <= 1 ->
  forallb pathArg ms = true ->
  sourcesExist ms fs = true ->
  countCurrent (applyAll ms fs) <= 1.
Proof.
  intros Hnd Had Hc _ Hsrc.
  assert (H : oneCurrent fs) by (repeat split; assumption).
  now destruct (applyAll_oneCurrent ms fs H Hsrc).
Qed.

(** The theorem on a session that creates, renames, saves, closes and
    deletes. *)
Lemma current_unique_after_mutations_witness :
  let fs := [("/src/lib.rs", fileItem "x" true true)] in
  let ms := [NewItem "/src/a.rs"; RenameItem "/src/a.rs" "b.rs";
             SaveFile "/src/b.rs" "fn main() {}";
             ChangeCurrentFile "/src/lib.rs"; RemoveFromTabs "/src/b.rs";
             RenameItem "/src/" "lib"; DeleteItem "/lib/"] in
  NoDup (keys fs) /\ allDefined fs = true /\ countCurrent fs <= 1 /\
  forallb pathArg ms = true /\
  sourcesExist ms fs = true /\ countCurrent (applyAll ms fs) <= 1.
Proof.
  intros fs ms.
  assert (Hnd : NoDup (keys fs)).
  { repeat constructor. intros []. }
  assert (Had : allDefined fs = true) by reflexivity.
  assert (Hc : countCurrent fs <= 1) by (vm_compute; lia).
  assert (Hpaths : forallb pathArg ms = true) by (vm_compute; reflexivity).
  assert (Hsrc : sourcesExist ms fs = true) by (vm_compute; reflexivity).
  split; [exact Hnd|]. split; [exact Had|]. split; [exact Hc|].
  split; [exact Hpaths|]. split; [exact Hsrc|].
  exact (current_unique_after_mutations ms fs Hnd Had Hc Hpaths Hsrc).
Defined.

(** C3, as stated, fails: a rename of a file that is not in the store
    leaves a key holding [undefined]; after the current file is renamed
    behind it, [newItem] on that key puts the new file before the current
    one, [getCurrentFile] finds the new file itself, and two entries end
    up current.  Every path of the calls contains the separator. *)
Lemma current_unique_counterexample :
  let fs := [("/a.rs", fileItem "x" true true)] in
  let ms := [RenameItem "/zz.rs" "q.rs"; RenameItem "/a.rs" "c.rs";
             NewItem "/q.rs"] in
  countCurrent fs <= 1 /\
  forallb pathArg ms = true /\
  applyAll ms fs =
    [("/q.rs", fileItem "" true true); ("/c.rs", fileItem "x" true true)] /\
  ~ countCurrent (applyAll ms fs) <= 1.
Proof.
  split; [vm_compute; lia|]. split; [vm_compute; reflexivity|].
  split; [vm_compute; reflexivity|].
  vm_compute. lia.
Qed.

End CurrentUnique.

(** ** Renaming *)

Section Rename.

(** C1: at the example of the claim the folder branch of [renameItem]
    does not produce [/b/], [/b/x.rs], [/b/sub/y.rs]: rebuilding a path
    writes a separator after every item, the last one included, so the
    keys become [/b//], [/b/x.rs/] and [/b/sub/y.rs/].  The items
    themselves are carried over unchanged.  The same holds of every
    rebuilt key: it ends with the separator, so it denotes a folder. *)
Theorem renameItem_folder_appends_separator (d x y : option ItemInfo) :
  Explorer.renameItem "/a/" "b"
    [("/a/", d); ("/a/x.rs", x); ("/a/sub/y.rs", y)] =
  Returned None [("/b//", d); ("/b/x.rs/", x); ("/b/sub/y.rs/", y)] /\
  forall (oldName : option string) (newName path : string),
    PgExplorer.getItemTypeFromPath
      (Explorer.rebuildPath oldName newName (Js.split path "/")) = IsFolder.
Proof.
  split; [reflexivity|]. intros oldName newName path.
  unfold PgExplorer.getItemTypeFromPath.
  rewrite rebuildPath_endsWith; [reflexivity | apply split_slash_nonempty].
Qed.

(** C2: the folder branch of [renameItem] does not leave the store
    untouched when it reports [AlreadyExists].  In scenario C, with
    explicit entries for both folders, the entries of [/a/] have already
    been moved to [/b//] and [/b/m.rs/] when the loop reaches [/b/] and
    finds its rebuilt key [/b//] taken: the error is returned and
    [/a/m.rs] is gone.  When [/a/] has no entry of its own, no error is
    reported at all and every entry is re-keyed. *)
Theorem renameItem_folder_not_atomic (d e : ItemInfo) (m n : option ItemInfo) :
  Explorer.renameItem "/a/" "b"
    [("/a/", Some d); ("/a/m.rs", m); ("/b/", Some e); ("/b/n.rs", n)] =
  Returned (Some AlreadyExists)
    [("/b/", Some e); ("/b/n.rs", n); ("/b//", Some d); ("/b/m.rs/", m)]
  /\
  Explorer.renameItem "/a/" "b"
    [("/a/m.rs", m); ("/b/", Some e); ("/b/n.rs", n)] =
  Returned None
    [("/b/m.rs/", m); ("/b//", Some e); ("/b/n.rs/", n)].
Proof. split; reflexivity. Qed.

(** The parts of C2 that hold: an invalid name is rejected before the
    store is read, and the file branch checks for a collision before it
    moves anything. *)
Lemma renameItem_invalid_unchanged (p n : string) (fs : Files) :
  PgExplorer.isItemNameValid n = false ->
  Explorer.renameItem p n fs = Returned (Some InvalidName) fs.
Proof.
  intros H. unfold Explorer.renameItem. now rewrite H.
Qed.

Lemma renameItem_file_error_unchanged (p n : string) (fs fs' : Files)
    (e : ItemError) :
  PgExplorer.getItemTypeFromPath p = IsFile ->
  Explorer.renameItem p n fs = Returned (Some e) fs' ->
  fs' = fs.
Proof.
  intros Hfile. unfold Explorer.renameItem. rewrite Hfile.
  destruct (negb (PgExplorer.isItemNameValid n)).
  - unfold ret. now intros [= _ <-].
  - cbv zeta. unfold bind at 1. unfold readProp at 1.
    destruct (getProp _ fs).
    + unfold ret. now intros [= _ <-].
    + unfold bind, readProp, removeProp, writeProp, ret. discriminate.
Qed.

End Rename.

(** ** Closing the last tab *)

Section LastTab.

(** C4, as stated, fails: closing the only open tab while it is the
    current file leaves that file current with its tab flag cleared.
    [changeCurrentFileToTheLastTab] returns at once when no tab is left,
    so the current flag is neither moved nor cleared. *)
Lemma removeFromTabs_sole_tab_counterexample :
  let fs := [("/src/", folderItem); ("/src/lib.rs", fileItem "x" true true)] in
  countCurrent fs <= 1 /\
  currentInTabs fs = true /\
  Explorer.removeFromTabs "/src/lib.rs" fs =
    Returned tt
      [("/src/", folderItem); ("/src/lib.rs", fileItem "x" true false)] /\
  currentInTabs (applyAll [RemoveFromTabs "/src/lib.rs"] fs) = false.
Proof.
  split; [vm_compute; lia|]. repeat split.
Qed.

End LastTab.

(** ** Deleting *)

Section Delete.

(** C5: [deleteItem] removes every key of which the path is a prefix as a
    string, not only the item and its descendants: deleting the file
    [/foo] also removes the unrelated file [/foobar]. *)
Theorem deleteItem_removes_string_prefixes (c g : string) (h : option ItemInfo) :
  Explorer.deleteItem "/foo"
    [("/foo", fileItem c false false); ("/foobar", fileItem g false true);
     ("/src/lib.rs", h)] =
  Returned tt [("/src/lib.rs", h); ("/", folderItem)].
Proof. reflexivity. Qed.

Lemma forIn_skip {A R : Type} (ks : list string)
    (body : string -> A -> M (A + R)) (acc : A) (s : Files) :
  (forall k a, In k ks -> body k a s = Returned (inl a) s) ->
  forIn ks body acc s = Returned (inl acc) s.
Proof.
  induction ks as [|k rest IH]; intros Hbody; cbn [forIn].
  - reflexivity.
  - unfold bind at 1. unfold stillThere.
    assert (Hrest : forIn rest body acc s = Returned (inl acc) s).
    { apply IH. intros k' a Hin. apply Hbody. now right. }
    destruct (hasProp k s); [|exact Hrest].
    unfold bind. rewrite Hbody by now left. exact Hrest.
Qed.

(** C6, as amended: when no key of the store has the path as a prefix,
    [deleteItem] removes nothing and returns normally, but it still sets
    the entry of the parent folder to an empty folder and, when that is
    then the only key, adds the [src/] folder under it; every other entry
    is as before. *)
Theorem deleteItem_absent (p : string) (fs : Files) :
  (forall k, In k (keys fs) -> Js.startsWith k p = false) ->
  Explorer.deleteItem p fs =
  Returned tt
    (let parentPath := PgExplorer.getParentPathFromPath p in
     let s := setProp parentPath (Some emptyItem) fs in
     if Nat.eqb (length (keys s)) 1
     then setProp (parentPath ++ "src/")%string (Some emptyItem) s
     else s).
Proof.
  intros Hno.
  assert (Hp : getProp p fs = None).
  { unfold getProp. destruct (lookup p fs) as [v|] eqn:E; [|reflexivity].
    apply lookup_In in E. apply (in_map fst) in E. cbn [fst] in E.
    specialize (Hno p E). unfold Js.startsWith in Hno.
    now rewrite prefix_refl in Hno. }
  unfold Explorer.deleteItem. unfold bind at 1. unfold readProp at 1.
  rewrite Hp. cbv zeta. unfold bind at 1. unfold ownKeys at 1.
  unfold bind at 1. rewrite forIn_skip.
  - unfold bind, writeProp, ownKeys, ret.
    now destruct (Nat.eqb _ 1).
  - intros k [] Hin. rewrite (Hno k Hin). reflexivity.
Qed.

(** Deleting a file that is not there, next to its siblings: here the
    parent folder has an empty entry already and the store is unchanged. *)
Lemma deleteItem_absent_witness :
  let fs := [("/src/", folderItem); ("/src/lib.rs", fileItem "x" true true)] in
  (forall k, In k (keys fs) -> Js.startsWith k "/src/main.rs" = false) /\
  Explorer.deleteItem "/src/main.rs" fs =
  Returned tt
    [("/src/", folderItem); ("/src/lib.rs", fileItem "x" true true)].
Proof.
  intros fs.
  assert (Hno : forall k, In k (keys fs) ->
                  Js.startsWith k "/src/main.rs" = false).
  { intros k [<-|[<-|[]]]; reflexivity. }
  split; [exact Hno|].
  exact (deleteItem_absent "/src/main.rs" fs Hno).
Defined.

(** C6, as stated, fails: deleting a path that is neither a key nor a
    prefix of one adds the entry of its parent folder. *)
Lemma deleteItem_absent_counterexample :
  let fs := [("/src/lib.rs", fileItem "x" true true)] in
  hasProp "/zzz.rs" fs = false /\
  (forall k, In k (keys fs) -> Js.startsWith k "/zzz.rs" = false) /\
  Explorer.deleteItem "/zzz.rs" fs =
    Returned tt [("/src/lib.rs", fileItem "x" true true); ("/", folderItem)] /\
  storeOf (Explorer.deleteItem "/zzz.rs" fs) <> fs.
Proof.
  repeat split.
  - intros k [<-|[]]. reflexivity.
  - discriminate.
Qed.

End Delete.

(** ** Saving *)

Section Save.

Lemma saveFile_eq (p c : string) (fs : Files) :
  Explorer.saveFile p c fs =
  Returned tt
    (match getProp p fs with
     | Some i => setProp p (Some (withContent c i)) fs
     | None => fs
     end).
Proof.
  unfold Explorer.saveFile, bind, readProp.
  destruct (getProp p fs) as [i|] eqn:E; [|reflexivity].
  rewrite updateItem_eq. now rewrite E.
Qed.

(** C7, as amended: for a path that contains the separator, [saveFile]
    sets the content of the entry at the path whenever the path is a key
    holding an item, a folder as well as a file; otherwise the store is
    unchanged; it never adds a key.  (A name without separator may be
    that of a property of [Object.prototype], which [files[path]] finds
    without a key.) *)
Theorem saveFile_sets_content_of_existing_item (p c : string) (fs : Files) :
  isPath p = true ->
  Explorer.saveFile p c fs =
  Returned tt
    (match getProp p fs with
     | Some i => setProp p (Some (withContent c i)) fs
     | None => fs
     end) /\
  keys (storeOf (Explorer.saveFile p c fs)) = keys fs.
Proof.
  intros _.
  split; [apply saveFile_eq|]. rewrite saveFile_eq. cbn [storeOf].
  destruct (getProp p fs) as [i|] eqn:E; [|reflexivity].
  apply keys_setProp_present. now apply getProp_Some_hasProp in E.
Qed.

(** Saving the source file of a program, and saving to a path that is
    not there. *)
Lemma saveFile_sets_content_of_existing_item_witness :
  let fs := [("/src/", folderItem); ("/src/lib.rs", fileItem "x" true true)] in
  isPath "/src/lib.rs" = true /\
  isPath "/src/gone.rs" = true /\
  (Explorer.saveFile "/src/lib.rs" "y" fs =
     Returned tt
       [("/src/", folderItem); ("/src/lib.rs", fileItem "y" true true)] /\
   keys (storeOf (Explorer.saveFile "/src/lib.rs" "y" fs)) = keys fs) /\
  (Explorer.saveFile "/src/gone.rs" "y" fs = Returned tt fs /\
   keys (storeOf (Explorer.saveFile "/src/gone.rs" "y" fs)) = keys fs).
Proof.
  intros fs. split; [reflexivity|]. split; [reflexivity|]. split.
  - exact (saveFile_sets_content_of_existing_item "/src/lib.rs" "y" fs eq_refl).
  - exact (saveFile_sets_content_of_existing_item "/src/gone.rs" "y" fs eq_refl).
Defined.

(** C7, as stated, fails: saving to a folder path that is a key gives the
    folder entry a content. *)
Lemma saveFile_folder_counterexample :
  let fs := [("/src/", folderItem)] in
  PgExplorer.getItemTypeFromPath "/src/" = IsFolder /\
  Explorer.saveFile "/src/" "x" fs =
    Returned tt [("/src/", Some (mkItem (Some "x") None None))] /\
  storeOf (Explorer.saveFile "/src/" "x" fs) <> fs.
Proof.
  repeat split. discriminate.
Qed.

End Save.

(** ** The store is never left empty by a deletion *)

Section NonEmpty.

Lemma keysKept_readOnly {A : Type} (m : M A) : readOnly m -> keysKept m.
Proof. intros H s. now rewrite H. Qed.

Lemma keysKept_ret {A : Type} (a : A) : keysKept (ret a).
Proof. intros s. reflexivity. Qed.

Lemma keysKept_bind {A B : Type} (m : M A) (f : A -> M B) :
  keysKept m -> (forall a, keysKept (f a)) -> keysKept (bind m f).
Proof.
  intros Hm Hf s. unfold bind. specialize (Hm s).
  destruct (m s) as [a s'|s']; cbn [storeOf] in *.
  - now rewrite Hf.
  - exact Hm.
Qed.

Lemma keysKept_updateItem (k : string) (f : ItemInfo -> ItemInfo) :
  keysKept (updateItem k f).
Proof.
  intros s. rewrite updateItem_eq.
  destruct (getProp k s) as [i|] eqn:E; [|reflexivity]. cbn [storeOf].
  apply keys_setProp_present. now apply getProp_Some_hasProp in E.
Qed.

Lemma keysKept_changeCurrentFile (p : string) :
  keysKept (Explorer.changeCurrentFile p).
Proof.
  unfold Explorer.changeCurrentFile.
  apply keysKept_bind; [apply keysKept_readOnly, readOnly_getCurrentFile|].
  intros cur. apply keysKept_bind.
  - destruct cur; [apply keysKept_updateItem | apply keysKept_ret].
  - intros _. apply keysKept_bind; [apply keysKept_updateItem|].
    intros _. apply keysKept_bind; [apply keysKept_readOnly, readOnly_getTabs|].
    intros t. destruct (Explorer.indexHits (length t) p);
      [apply keysKept_ret | apply keysKept_updateItem].
Qed.

Lemma keysKept_changeCurrentFileToTheLastTab :
  keysKept Explorer.changeCurrentFileToTheLastTab.
Proof.
  unfold Explorer.changeCurrentFileToTheLastTab.
  apply keysKept_bind; [apply keysKept_readOnly, readOnly_getTabs|].
  intros t. destruct (List.rev t);
    [apply keysKept_ret | apply keysKept_changeCurrentFile].
Qed.

Lemma filter_twice {A : Type} (f g : A -> bool) (l : list A) :
  filter f (filter g l) = filter (fun x => g x && f x) l.
Proof.
  induction l as [|x r IH]; cbn [filter]; [reflexivity|].
  destruct (g x); cbn [filter andb]; [|exact IH].
  destruct (f x); now rewrite IH.
Qed.

(** The loop of [deleteItem] removes the keys that have the path as a
    prefix, as strings, and no other. *)
Lemma forIn_delete_eq (p : string) (ks : list string) (s : Files) :
  forIn (R := Empty_set) ks
    (fun path (_ : unit) =>
       if Js.startsWith path p
       then removeProp path ;;; ret (inl tt)
       else ret (inl tt)) tt s =
  Returned (inl tt)
    (filter (fun kv => negb (Js.startsWith (fst kv) p &&
                             existsb (String.eqb (fst kv)) ks)) s).
Proof.
  revert s. induction ks as [|k rest IH]; intros s; cbn [forIn].
  - unfold ret. f_equal. symmetry.
    rewrite (filter_ext _ (fun _ => true)).
    + induction s as [|kv r IHs]; cbn; [reflexivity | now rewrite IHs].
    + intros kv. cbn [existsb]. now rewrite andb_false_r.
  - unfold bind at 1. unfold stillThere.
    destruct (hasProp k s) eqn:Ek.
    + unfold bind at 1. destruct (Js.startsWith k p) eqn:Esw.
      * unfold bind at 1. unfold removeProp, ret. rewrite IH. f_equal.
        unfold deleteProp. rewrite filter_twice. apply filter_ext.
        intros [k0 v0]. cbn [fst existsb].
        destruct (String.eqb k0 k) eqn:E0; cbn [negb andb orb].
        -- apply String.eqb_eq in E0. subst. now rewrite Esw.
        -- reflexivity.
      * unfold ret at 1. rewrite IH. f_equal. apply filter_ext.
        intros [k0 v0]. cbn [fst existsb].
        destruct (String.eqb k0 k) eqn:E0; cbn [orb]; [|reflexivity].
        apply String.eqb_eq in E0. subst. now rewrite Esw.
    + rewrite IH. f_equal. apply filter_ext_in.
      intros [k0 v0] Hin. cbn [fst existsb].
      destruct (String.eqb k0 k) eqn:E0; cbn [orb]; [|reflexivity].
      apply String.eqb_eq in E0. subst. apply hasProp_false in Ek.
      exfalso. apply Ek. change k with (fst (k, v0)). now apply in_map.
Qed.

(** The shape of a deletion: the loop removes the keys with the path as a
    prefix, the parent folder is set, the [src/] folder is added when the
    parent is the only key, and the current file is then moved if the
    deleted path was current. *)
Lemma deleteItem_shape (p : string) (fs : Files) :
  exists s1,
    s1 = filter (fun kv => negb (Js.startsWith (fst kv) p)) fs /\
    Explorer.deleteItem p fs =
    (if match getProp p fs with
        | Some i => truthyB (current i)
        | None => false
        end
     then Explorer.changeCurrentFileToTheLastTab
     else ret tt)
      (let parentPath := PgExplorer.getParentPathFromPath p in
       let s2 := setProp parentPath (Some emptyItem) s1 in
       if Nat.eqb (length (keys s2)) 1
       then setProp (parentPath ++ "src/")%string (Some emptyItem) s2
       else s2).
Proof.
  eexists. split; [reflexivity|].
  unfold Explorer.deleteItem.
  unfold bind at 1. unfold readProp at 1. cbv zeta.
  unfold bind at 1. unfold ownKeys at 1. unfold bind at 1.
  rewrite forIn_delete_eq.
  rewrite (filter_ext_in _ (fun kv => negb (Js.startsWith (fst kv) p))).
  - unfold bind, writeProp, ownKeys, ret. now destruct (Nat.eqb _ 1).
  - intros [k v] Hin. cbn [fst].
    assert (H : existsb (String.eqb k) (keys fs) = true).
    { apply existsb_exists. exists k. split; [|apply String.eqb_refl].
      change k with (fst (k, v)). now apply in_map. }
    rewrite H. now rewrite andb_true_r.
Qed.

(** What a loop that only reads establishes about its local variables. *)
Lemma forIn_reading {A R : Type} (I : A -> Prop) (Q : R -> Prop)
    (ks : list string) (body : string -> A -> M (A + R)) (s : Files) :
  (forall k a, I a ->
     match body k a s with
     | Returned (inl a') s' => s' = s /\ I a'
     | Returned (inr r) s' => s' = s /\ Q r
     | Raised s' => s' = s
     end) ->
  forall acc, I acc ->
    match forIn ks body acc s with
    | Returned (inl a') s' => s' = s /\ I a'
    | Returned (inr r) s' => s' = s /\ Q r
    | Raised s' => s' = s
    end.
Proof.
  intros Hbody. induction ks as [|k rest IH]; intros acc Hacc; cbn [forIn].
  - now split.
  - unfold bind at 1. unfold stillThere.
    destruct (hasProp k s); [|now apply IH].
    unfold bind. specialize (Hbody k acc Hacc).
    destruct (body k acc s) as [[a'|r] s'|s'].
    + destruct Hbody as [-> Ha']. now apply IH.
    + exact Hbody.
    + exact Hbody.
Qed.

Lemma getCurrentFile_path (s s' : Files) (f : FullFile) :
  Explorer.getCurrentFile s = Returned (Some f) s' ->
  exists i, getProp (f_path f) s = Some i /\ truthyB (current i) = true.
Proof.
  unfold Explorer.getCurrentFile. unfold bind at 1. unfold ownKeys at 1.
  unfold bind.
  pose proof (forIn_reading (A := unit) (fun _ => True)
    (fun f => exists i, getProp (f_path f) s = Some i /\
                        truthyB (current i) = true)
    (keys s)
    (fun path (_ : unit) =>
       fileInfo <- readProp path ;;
       match fileInfo with
       | None => typeError
       | Some i =>
           if truthyB (current i)
           then ret (inr (mkFull path (content i) None None))
           else ret (inl tt)
       end) s) as H.
  match type of H with ?P -> _ => assert (Hb : P) end.
  { intros k a _. unfold bind, readProp.
    destruct (getProp k s) as [i|] eqn:E; [|reflexivity].
    destruct (truthyB (current i)) eqn:Ec; cbn; split; trivial.
    now exists i. }
  specialize (H Hb tt I).
  destruct (forIn _ _ _ s) as [[a|r] s0|s0]; cbn; try discriminate.
  intros [= <- _]. now destruct H.
Qed.

Lemma getTabs_paths (s s' : Files) (t : list FullFile) :
  Explorer.getTabs s = Returned t s' ->
  forall l, In l t ->
    exists i, getProp (f_path l) s = Some i /\ truthyB (tabs i) = true.
Proof.
  unfold Explorer.getTabs. unfold bind at 1. unfold ownKeys at 1.
  unfold bind.
  pose proof (forIn_reading (R := Empty_set)
    (fun acc => forall l, In l acc ->
       exists i, getProp (f_path l) s = Some i /\ truthyB (tabs i) = true)
    (fun _ => True)
    (keys s)
    (fun path tabsAcc =>
       fileInfo <- readProp path ;;
       match fileInfo with
       | None => typeError
       | Some i =>
           if truthyB (tabs i)
           then ret (inl (tabsAcc ++ [mkFull path (content i) (current i) None]))
           else ret (inl tabsAcc)
       end) s) as H.
  match type of H with ?P -> _ => assert (Hb : P) end.
  { intros k a Ha. unfold bind, readProp.
    destruct (getProp k s) as [i|] eqn:E; [|reflexivity].
    destruct (truthyB (tabs i)) eqn:Et; cbn; split; trivial.
    intros l Hl. apply in_app_iff in Hl. destruct Hl as [Hl|[<-|[]]].
    - now apply Ha.
    - now exists i. }
  specialize (H Hb [] (fun l (F : In l []) => match F with end)).
  destruct (forIn _ _ _ s) as [[a|[]] s0|s0]; cbn; try discriminate.
  intros [= <- _]. now destruct H.
Qed.

Lemma updateItem_keeps_other (k q : string) (f : ItemInfo -> ItemInfo)
    (v : option (option ItemInfo)) :
  k <> q -> preserves (fun s => lookup k s = v) (updateItem q f).
Proof.
  intros Hne s H. rewrite updateItem_eq.
  destruct (getProp q s); [|exact H]. cbn [storeOf].
  rewrite lookup_setProp. apply not_eq_sym in Hne.
  apply String.eqb_neq in Hne. now rewrite Hne.
Qed.

Lemma empty_not_path (k q : string) (i : ItemInfo) (s : Files) :
  lookup k s = Some (Some emptyItem) ->
  getProp q s = Some i ->
  truthyB (current i) = true \/ truthyB (tabs i) = true ->
  k <> q.
Proof.
  intros Hk Hq Hi ->. apply getProp_Some_lookup in Hq.
  rewrite Hk in Hq. injection Hq as <-. cbn in Hi. now destruct Hi.
Qed.

Lemma changeCurrentFile_keeps_empty (k p : string) :
  k <> p ->
  preserves (fun s => lookup k s = Some (Some emptyItem))
    (Explorer.changeCurrentFile p).
Proof.
  intros Hne s H. unfold Explorer.changeCurrentFile. unfold bind at 1.
  pose proof (readOnly_getCurrentFile s) as Hro.
  destruct (Explorer.getCurrentFile s) as [cur s'|s'] eqn:E;
    cbn [storeOf] in Hro; subst s'; [|exact H].
  revert s H E.
  assert (Hrest : preserves (fun s => lookup k s = Some (Some emptyItem))
            (updateItem p (withCurrent true) ;;;
             tabsNow <- Explorer.getTabs ;;
             (if Explorer.indexHits (length tabsNow) p then ret tt
              else updateItem p (withTabs true)))).
  { apply preserves_bind; [now apply updateItem_keeps_other|].
    intros _. apply preserves_bind;
      [apply preserves_readOnly, readOnly_getTabs|].
    intros t. destruct (Explorer.indexHits (length t) p);
      [apply preserves_ret | now apply updateItem_keeps_other]. }
  intros s H E. destruct cur as [f|].
  - destruct (getCurrentFile_path s s f E) as [i [Hf Hi]].
    assert (Hkf : k <> f_path f)
      by (apply (empty_not_path k (f_path f) i s); auto).
    apply (preserves_bind (fun s => lookup k s = Some (Some emptyItem))
             (updateItem (f_path f) (withCurrent false)));
      [now apply updateItem_keeps_other | intros _; exact Hrest | exact H].
  - apply (preserves_bind (fun s => lookup k s = Some (Some emptyItem))
             (ret tt)); [apply preserves_ret | intros _; exact Hrest | exact H].
Qed.

Lemma changeCurrentFileToTheLastTab_keeps_empty (k : string) :
  preserves (fun s => lookup k s = Some (Some emptyItem))
    Explorer.changeCurrentFileToTheLastTab.
Proof.
  intros s H. unfold Explorer.changeCurrentFileToTheLastTab. unfold bind.
  pose proof (readOnly_getTabs s) as Hro.
  destruct (Explorer.getTabs s) as [t s'|s'] eqn:E;
    cbn [storeOf] in Hro; subst s'; [|exact H].
  destruct (List.rev t) as [|l rest] eqn:Erev; [exact H|].
  assert (Hin : In l t) by (apply in_rev; rewrite Erev; now left).
  destruct (getTabs_paths s s t E l Hin) as [i [Hl Hi]].
  apply changeCurrentFile_keeps_empty; [|exact H].
  apply (empty_not_path k (f_path l) i s); auto.
Qed.

(** C8: after [deleteItem], for every store and every path, the store is
    not empty: the parent folder of the path is a key, it denotes a
    folder and holds an empty folder item, and the store has two entries
    at least, since the [src/] folder is added whenever the parent folder
    would be the only key. *)
Theorem deleteItem_leaves_folder (p : string) (fs : Files) :
  let fs' := storeOf (Explorer.deleteItem p fs) in
  let parentPath := PgExplorer.getParentPathFromPath p in
  fs' <> [] /\
  PgExplorer.getItemTypeFromPath parentPath = IsFolder /\
  lookup parentPath fs' = Some (Some emptyItem) /\
  2 <= length fs'.
Proof.
  intros fs' parentPath.
  assert (Hkeys : lookup parentPath fs' = Some (Some emptyItem) /\
                  2 <= length (keys fs')).
  { subst fs'. destruct (deleteItem_shape p fs) as [s1 [_ ->]].
    fold parentPath. cbv zeta.
    set (s2 := setProp parentPath (Some emptyItem) s1).
    assert (H2 : lookup parentPath s2 = Some (Some emptyItem)).
    { unfold s2. rewrite lookup_setProp. now rewrite String.eqb_refl. }
    set (tail := if match getProp p fs with
                    | Some i => truthyB (current i)
                    | None => false
                    end
                 then Explorer.changeCurrentFileToTheLastTab
                 else ret tt).
    assert (Htail : keysKept tail).
    { subst tail. destruct (match getProp p fs with
                            | Some i => truthyB (current i)
                            | None => false
                            end);
        [apply keysKept_changeCurrentFileToTheLastTab | apply keysKept_ret]. }
    assert (Hkeep : preserves
              (fun s => lookup parentPath s = Some (Some emptyItem)) tail).
    { subst tail. destruct (match getProp p fs with
                            | Some i => truthyB (current i)
                            | None => false
                            end);
        [apply changeCurrentFileToTheLastTab_keeps_empty | apply preserves_ret]. }
    rewrite Htail.
    assert (Hsrc : parentPath <> (parentPath ++ "src/")%string).
    { intros H. symmetry in H. revert H. now apply append_nonempty_neq. }
    destruct (Nat.eqb (length (keys s2)) 1) eqn:E.
    - split.
      + apply Hkeep. rewrite lookup_setProp.
        apply not_eq_sym in Hsrc. apply String.eqb_neq in Hsrc.
        now rewrite Hsrc.
      + apply Nat.eqb_eq in E.
        assert (Hin : In parentPath (keys s2))
          by (apply keys_setProp_incl; now left).
        destruct (keys s2) as [|k0 [|k1 r]] eqn:Ek; try discriminate.
        destruct Hin as [->|[]].
        assert (Habs : hasProp (parentPath ++ "src/")%string s2 = false).
        { apply hasProp_false. rewrite Ek. intros [H|[]]. now apply Hsrc. }
        rewrite setProp_absent by assumption.
        unfold keys. rewrite map_app. fold (keys s2). rewrite Ek. cbn. lia.
    - split; [now apply Hkeep|].
      apply Nat.eqb_neq in E.
      assert (Hin : In parentPath (keys s2))
        by (apply keys_setProp_incl; now left).
      destruct (keys s2) as [|k0 [|k1 r]]; cbn in *; try lia; contradiction. }
  destruct Hkeys as [Hl Hlen].
  unfold keys in Hlen. rewrite length_map in Hlen.
  repeat split.
  - intros Hnil. rewrite Hnil in Hlen. cbn in Hlen. lia.
  - apply parentPath_isFolder.
  - exact Hl.
  - exact Hlen.
Qed.

End NonEmpty.

(** ** Closing a tab twice *)

Section TabClose.

Lemma tabList_cons (kv : string * option ItemInfo) (r : Files) :
  tabList (kv :: r) =
  match snd kv with
  | Some i =>
      if truthyB (tabs i)
      then [mkFull (fst kv) (content i) (current i) None]
      else []
  | None => []
  end ++ tabList r.
Proof. reflexivity. Qed.

Lemma tabList_In (l : FullFile) (s : Files) :
  In l (tabList s) ->
  exists i, In (f_path l, Some i) s /\ truthyB (tabs i) = true.
Proof.
  induction s as [|[k v] r IH]; [intros []|].
  rewrite tabList_cons. cbn [fst snd]. rewrite in_app_iff. intros [H|H].
  - destruct v as [i|]; [|destruct H].
    destruct (truthyB (tabs i)) eqn:E; [|destruct H].
    destruct H as [<-|[]]. exists i. split; [now left | assumption].
  - destruct (IH H) as [i [Hin Hi]]. exists i. split; [now right | assumption].
Qed.

Lemma tabPaths_setProp (k : string) (i i' : ItemInfo) (s : Files) :
  lookup k s = Some (Some i) ->
  truthyB (tabs i') = truthyB (tabs i) ->
  map f_path (tabList (setProp k (Some i') s)) = map f_path (tabList s).
Proof.
  intros Hl Ht. induction s as [|[k0 v0] r IH]; [discriminate|].
  cbn [lookup setProp] in *. destruct (String.eqb k0 k) eqn:E.
  - apply String.eqb_eq in E. subst. injection Hl as ->.
    rewrite !tabList_cons. cbn [fst snd]. rewrite Ht.
    rewrite !map_app. f_equal. now destruct (truthyB (tabs i)).
  - rewrite !tabList_cons. rewrite !map_app. f_equal. now apply IH.
Qed.

Lemma truthyB_true (o : option bool) : truthyB o = true -> o = Some true.
Proof. destruct o as [[|]|]; cbn; congruence. Qed.

Lemma count_lookup_le (k : string) (v : option ItemInfo) (s : Files) :
  lookup k s = Some v -> b2n (isCurrentEntry (k, v)) <= countCurrent s.
Proof.
  intros H. pose proof (count_deleteProp_present k v s H). lia.
Qed.

Lemma count_two_le (k1 k2 : string) (v1 v2 : option ItemInfo) (s : Files) :
  k1 <> k2 ->
  lookup k1 s = Some v1 ->
  lookup k2 s = Some v2 ->
  b2n (isCurrentEntry (k1, v1)) + b2n (isCurrentEntry (k2, v2)) <=
  countCurrent s.
Proof.
  intros Hne H1 H2.
  pose proof (count_deleteProp_present k1 v1 s H1) as Hc1.
  assert (H2' : lookup k2 (deleteProp k1 s) = Some v2).
  { rewrite lookup_deleteProp.
    apply String.eqb_neq in Hne. now rewrite Hne. }
  pose proof (count_lookup_le k2 v2 _ H2'). lia.
Qed.

Lemma currentOf_unique (k : string) (i : ItemInfo) (s : Files) :
  wellFormed s ->
  countCurrent s <= 1 ->
  lookup k s = Some (Some i) ->
  truthyB (current i) = true ->
  exists f, currentOf s = Some (Some f) /\ f_path f = k.
Proof.
  intros [Hnd Had] Hc Hl Hi.
  pose proof (count_lookup_le k (Some i) s Hl) as Hk.
  unfold isCurrentEntry in Hk. cbn [snd] in Hk. rewrite Hi in Hk.
  cbn [b2n] in Hk.
  destruct (currentOf_defined s Had) as [[f|] Hr].
  - exists f. split; [assumption|].
    destruct (currentOf_Some s f Hr) as [j [Hin Hj]].
    apply In_lookup in Hin; [|assumption].
    destruct (string_dec (f_path f) k) as [|Hne]; [assumption|].
    pose proof (count_two_le (f_path f) k (Some j) (Some i) s Hne Hin Hl) as H2.
    unfold isCurrentEntry in H2. cbn [snd] in H2. rewrite Hi, Hj in H2.
    cbn [b2n] in H2. lia.
  - apply currentOf_None in Hr. lia.
Qed.

Lemma clearCurrent_lookup (q : string) (iq : ItemInfo) (s : Files) :
  NoDup (keys s) ->
  lookup q s = Some (Some iq) ->
  exists iq', lookup q (clearCurrent s) = Some (Some iq') /\
              tabs iq' = tabs iq /\ content iq' = content iq.
Proof.
  intros Hnd Hq. unfold clearCurrent.
  destruct (currentOf s) as [[f|]|] eqn:E; try (now exists iq).
  destruct (getProp (f_path f) s) as [i|] eqn:Ef; [|now exists iq].
  rewrite lookup_setProp. destruct (String.eqb (f_path f) q) eqn:Eq.
  - apply String.eqb_eq in Eq. subst q.
    apply getProp_Some_lookup in Ef. rewrite Ef in Hq. injection Hq as ->.
    eexists. split; [reflexivity|]. split; reflexivity.
  - now exists iq.
Qed.

Lemma tabPaths_clearCurrent (s : Files) :
  map f_path (tabList (clearCurrent s)) = map f_path (tabList s).
Proof.
  unfold clearCurrent.
  destruct (currentOf s) as [[f|]|]; try reflexivity.
  destruct (getProp (f_path f) s) as [i|] eqn:Ef; [|reflexivity].
  apply getProp_Some_lookup in Ef.
  now apply (tabPaths_setProp _ i).
Qed.

(** Making current an entry that is an open tab. *)
Lemma changeCurrentFile_on_tab (k : string) (i : ItemInfo) (s : Files) :
  wellFormed s ->
  lookup k s = Some (Some i) ->
  truthyB (tabs i) = true ->
  exists R iR,
    Explorer.changeCurrentFile k s = Returned tt R /\
    lookup k R = Some (Some iR) /\
    current iR = Some true /\ tabs iR = Some true /\
    map f_path (tabList R) = map f_path (tabList s) /\
    (forall q iq, q <> k -> lookup q s = Some (Some iq) ->
       exists iq', lookup q R = Some (Some iq') /\ tabs iq' = tabs iq).
Proof.
  intros Hwf Hl Ht. pose proof Hwf as [Hnd Had].
  rewrite changeCurrentFile_eq by assumption.
  destruct (clearCurrent_lookup k i s Hnd Hl) as [i1 [Hl1 [Ht1 _]]].
  assert (Hg1 : getProp k (clearCurrent s) = Some i1)
    by now apply getProp_Some_lookup.
  rewrite Hg1. cbv zeta.
  set (s2 := setProp k (Some (withCurrent true i1)) (clearCurrent s)).
  assert (Hi1 : tabs i1 = Some true).
  { rewrite Ht1. now apply truthyB_true. }
  assert (Hsame : withTabs true (withCurrent true i1) = withCurrent true i1).
  { unfold withTabs, withCurrent. cbn [content current tabs]. now rewrite Hi1. }
  assert (Hres : (if Explorer.indexHits (length (tabList s2)) k then s2
                  else setProp k (Some (withTabs true (withCurrent true i1))) s2)
                 = s2).
  { destruct (Explorer.indexHits (length (tabList s2)) k); [reflexivity|].
    rewrite Hsame. apply setProp_same. unfold s2. rewrite lookup_setProp.
    now rewrite String.eqb_refl. }
  rewrite Hres. exists s2, (withCurrent true i1).
  split; [reflexivity|]. split.
  { unfold s2. rewrite lookup_setProp. now rewrite String.eqb_refl. }
  split; [reflexivity|]. split; [exact Hi1|]. split.
  - unfold s2. rewrite (tabPaths_setProp k i1) by
      (try assumption; cbn [withCurrent tabs]; reflexivity).
    apply tabPaths_clearCurrent.
  - intros q iq Hne Hq.
    destruct (clearCurrent_lookup q iq s Hnd Hq) as [iq' [Hq' [Htq _]]].
    exists iq'. split; [|assumption].
    unfold s2. rewrite lookup_setProp.
    apply not_eq_sym in Hne. apply String.eqb_neq in Hne. now rewrite Hne.
Qed.

(** Making current the entry that already is the only current one and an
    open tab changes nothing. *)
Lemma changeCurrentFile_fixpoint (k : string) (i : ItemInfo) (R : Files) :
  wellFormed R ->
  countCurrent R <= 1 ->
  lookup k R = Some (Some i) ->
  current i = Some true ->
  tabs i = Some true ->
  Explorer.changeCurrentFile k R = Returned tt R.
Proof.
  intros Hwf Hc Hl Hcur Htab.
  assert (Hi : truthyB (current i) = true) by now rewrite Hcur.
  destruct (currentOf_unique k i R Hwf Hc Hl Hi) as [f [Hf Hfk]].
  rewrite changeCurrentFile_eq by assumption.
  assert (Hg : getProp k R = Some i) by now apply getProp_Some_lookup.
  assert (Hclear : clearCurrent R = setProp k (Some (withCurrent false i)) R).
  { unfold clearCurrent. now rewrite Hf, Hfk, Hg. }
  rewrite Hclear, getProp_setProp, String.eqb_refl. cbv zeta.
  rewrite setProp_setProp.
  assert (Hback : withCurrent true (withCurrent false i) = i).
  { destruct i as [c cu tb]. cbn in *. now subst. }
  assert (Htb : withTabs true i = i).
  { destruct i as [c cu tb]. cbn in *. now subst. }
  rewrite Hback, Htb. rewrite (setProp_same k (Some i) R Hl).
  destruct (Explorer.indexHits (length (tabList R)) k); [reflexivity|].
  now rewrite (setProp_same k (Some i) R Hl).
Qed.

Lemma removeFromTabs_eq (p : string) (s : Files) :
  Explorer.removeFromTabs p s =
  match getProp p s with
  | Some ip =>
      Explorer.changeCurrentFileToTheLastTab
        (setProp p (Some (withTabs false ip)) s)
  | None => Raised s
  end.
Proof.
  unfold Explorer.removeFromTabs, bind. rewrite updateItem_eq.
  now destruct (getProp p s).
Qed.

End TabClose.

Section TabCloseTwice.

Lemma rev_head_path (s R : Files) (l : FullFile) (rest : list FullFile) :
  map f_path (tabList R) = map f_path (tabList s) ->
  List.rev (tabList s) = l :: rest ->
  exists l' rest', List.rev (tabList R) = l' :: rest' /\ f_path l' = f_path l.
Proof.
  intros Hmap Hrev.
  assert (H : map f_path (List.rev (tabList R)) =
              map f_path (List.rev (tabList s)))
    by now rewrite !map_rev, Hmap.
  rewrite Hrev in H. cbn [map] in H.
  destruct (List.rev (tabList R)) as [|l' rest']; [discriminate|].
  cbn [map] in H. injection H as H _. now exists l', rest'.
Qed.

(** A store on which [removeFromTabs p] has nothing left to do. *)
Lemma removeFromTabs_stable (p : string) (ip : ItemInfo) (R : Files) :
  NoDup (keys R) ->
  lookup p R = Some (Some ip) ->
  tabs ip = Some false ->
  (allDefined R = true ->
   forall l rest, List.rev (tabList R) = l :: rest ->
     countCurrent R <= 1 /\
     exists i, lookup (f_path l) R = Some (Some i) /\
               current i = Some true /\ tabs i = Some true) ->
  storeOf (Explorer.removeFromTabs p R) = R.
Proof.
  intros Hnd Hl Htab Hlast.
  rewrite removeFromTabs_eq.
  assert (Hg : getProp p R = Some ip) by now apply getProp_Some_lookup.
  rewrite Hg.
  assert (Hip : withTabs false ip = ip).
  { destruct ip as [c cu tb]. cbn in *. now subst. }
  rewrite Hip, (setProp_same p (Some ip) R Hl).
  rewrite changeCurrentFileToTheLastTab_eq by assumption.
  destruct (allDefined R) eqn:Had; [|reflexivity].
  destruct (List.rev (tabList R)) as [|l rest] eqn:Erev; [reflexivity|].
  destruct (Hlast eq_refl l rest eq_refl) as [Hc [i [Hli [Hcur Ht]]]].
  rewrite (changeCurrentFile_fixpoint (f_path l) i R); try assumption;
    [reflexivity | now split].
Qed.

(** C9, as amended: in a store without duplicate keys in which at most
    one entry is current, closing the tab of a path twice leaves exactly
    the store that closing it once leaves. *)
Theorem removeFromTabs_twice (p : string) (fs : Files) :
  NoDup (keys fs) ->
  countCurrent fs <= 1 ->
  storeOf (Explorer.removeFromTabs p (storeOf (Explorer.removeFromTabs p fs))) =
  storeOf (Explorer.removeFromTabs p fs).
Proof.
  intros Hnd Hc.
  rewrite (removeFromTabs_eq p fs).
  destruct (getProp p fs) as [ip|] eqn:Ep.
  2:{ cbn [storeOf]. rewrite removeFromTabs_eq, Ep. reflexivity. }
  set (s1 := setProp p (Some (withTabs false ip)) fs).
  assert (Hnd1 : NoDup (keys s1)) by now apply NoDup_setProp.
  assert (Hp1 : lookup p s1 = Some (Some (withTabs false ip))).
  { unfold s1. rewrite lookup_setProp. now rewrite String.eqb_refl. }
  assert (Hc1 : countCurrent s1 <= 1).
  { apply getProp_Some_lookup in Ep.
    pose proof (count_setProp_present p (Some ip)
                  (Some (withTabs false ip)) fs Ep) as H.
    unfold isCurrentEntry in H. cbn [snd withTabs current] in H.
    fold s1 in H. lia. }
  rewrite changeCurrentFileToTheLastTab_eq by assumption.
  destruct (allDefined s1) eqn:Had1.
  2:{ cbn [storeOf].
      apply (removeFromTabs_stable p (withTabs false ip)); try assumption;
        [reflexivity | congruence]. }
  destruct (List.rev (tabList s1)) as [|l rest] eqn:Erev.
  { cbn [storeOf].
    apply (removeFromTabs_stable p (withTabs false ip)); try assumption;
      [reflexivity | intros _ l rest H; congruence]. }
  assert (Hwf1 : wellFormed s1) by now split.
  assert (Hin : In l (tabList s1)).
  { apply in_rev. rewrite Erev. now left. }
  destruct (tabList_In l s1 Hin) as [i [Hli Hti]].
  apply In_lookup in Hli; [|assumption].
  assert (Hne : p <> f_path l).
  { intros Heq. rewrite <- Heq in Hli. rewrite Hp1 in Hli.
    injection Hli as <-. cbn in Hti. discriminate. }
  pose proof (changeCurrentFile_oneCurrent (f_path l) s1 (conj Hwf1 Hc1))
    as [HwfR HcR].
  destruct (changeCurrentFile_on_tab (f_path l) i s1 Hwf1 Hli Hti)
    as [R [iR [HR [HlR [HcurR [HtabR [Hpaths Hothers]]]]]]].
  rewrite HR in *. cbn [storeOf] in *.
  destruct (Hothers p (withTabs false ip) Hne Hp1) as [ip' [Hp' Htp']].
  apply (removeFromTabs_stable p ip'); try assumption.
  - now destruct HwfR.
  - intros _ l' rest' Erev'. split; [assumption|].
    destruct (rev_head_path s1 R l rest Hpaths Erev) as [l2 [rest2 [E2 Hpath]]].
    rewrite Erev' in E2. injection E2 as <- _.
    rewrite Hpath. now exists iR.
Qed.

(** Closing the tab of the current file twice, with another tab open. *)
Lemma removeFromTabs_twice_witness :
  let fs := [("/a.rs", fileItem "a" true true);
             ("/b.rs", fileItem "b" false true);
             ("/c.rs", fileItem "c" false false)] in
  NoDup (keys fs) /\ countCurrent fs <= 1 /\
  storeOf (Explorer.removeFromTabs "/a.rs"
             (storeOf (Explorer.removeFromTabs "/a.rs" fs))) =
  storeOf (Explorer.removeFromTabs "/a.rs" fs).
Proof.
  intros fs.
  assert (Hnd : NoDup (keys fs)).
  { repeat constructor; cbn; intuition discriminate. }
  assert (Hc : countCurrent fs <= 1) by (vm_compute; lia).
  split; [exact Hnd|]. split; [exact Hc|].
  exact (removeFromTabs_twice "/a.rs" fs Hnd Hc).
Defined.

(** C9, as stated, fails in a store with two current entries: each call
    clears the first current entry it finds, so the second call clears
    another one. *)
Lemma removeFromTabs_twice_counterexample :
  let fs := [("/c.rs", fileItem "c" true true);
             ("/l.rs", fileItem "l" true true);
             ("/q.rs", fileItem "q" false true)] in
  hasProp "/c.rs" fs = true /\
  storeOf (Explorer.removeFromTabs "/c.rs" fs) =
    [("/c.rs", fileItem "c" false false);
     ("/l.rs", fileItem "l" true true);
     ("/q.rs", fileItem "q" true true)] /\
  storeOf (Explorer.removeFromTabs "/c.rs"
             (storeOf (Explorer.removeFromTabs "/c.rs" fs))) =
    [("/c.rs", fileItem "c" false false);
     ("/l.rs", fileItem "l" false true);
     ("/q.rs", fileItem "q" true true)] /\
  storeOf (Explorer.removeFromTabs "/c.rs"
             (storeOf (Explorer.removeFromTabs "/c.rs" fs))) <>
  storeOf (Explorer.removeFromTabs "/c.rs" fs).
Proof.
  repeat split. discriminate.
Qed.

End TabCloseTwice.

(** ** The current file is an open tab *)

Section CurrentIsTab.

Lemma currentInTabs_cons (kv : string * option ItemInfo) (r : Files) :
  currentInTabs (kv :: r) = entryOk (snd kv) && currentInTabs r.
Proof.
  unfold currentInTabs. cbn [forallb]. f_equal.
  unfold isCurrentEntry, isTabEntry, entryOk. now destruct (snd kv).
Qed.

Lemma currentInTabs_setProp (k : string) (v : option ItemInfo) (s : Files) :
  currentInTabs s = true -> entryOk v = true ->
  currentInTabs (setProp k v s) = true.
Proof.
  intros Hs Hv. induction s as [|[k0 v0] r IH]; cbn [setProp].
  - rewrite currentInTabs_cons. cbn [snd]. now rewrite Hv.
  - rewrite currentInTabs_cons in Hs. apply andb_true_iff in Hs.
    destruct Hs as [H0 Hr]. destruct (String.eqb k0 k).
    + rewrite currentInTabs_cons. cbn [snd]. now rewrite Hv, Hr.
    + rewrite currentInTabs_cons. cbn [snd] in *. now rewrite H0, IH.
Qed.

Lemma currentInTabs_deleteProp (k : string) (s : Files) :
  currentInTabs s = true -> currentInTabs (deleteProp k s) = true.
Proof.
  unfold currentInTabs, deleteProp. rewrite !forallb_forall.
  intros H x Hx. apply filter_In in Hx. now apply H.
Qed.

Lemma currentInTabs_lookup (k : string) (v : option ItemInfo) (s : Files) :
  currentInTabs s = true -> lookup k s = Some v -> entryOk v = true.
Proof.
  intros Hs Hl. apply lookup_In in Hl.
  induction s as [|kv r IH]; [destruct Hl|].
  rewrite currentInTabs_cons in Hs. apply andb_true_iff in Hs.
  destruct Hs as [H0 Hr]. destruct Hl as [->|Hl]; [exact H0 | now apply IH].
Qed.

Lemma count_zero_currentInTabs (s : Files) :
  countCurrent s = 0 -> currentInTabs s = true.
Proof.
  induction s as [|[k v] r IH]; [reflexivity|].
  rewrite count_cons, currentInTabs_cons. cbn [snd].
  unfold isCurrentEntry. cbn [snd]. intros H.
  rewrite IH by lia. destruct v as [i|]; [|reflexivity].
  cbn [entryOk]. destruct (truthyB (current i)); [cbn in H; lia | reflexivity].
Qed.

Lemma currentInTabs_clearCurrent (s : Files) :
  currentInTabs s = true -> currentInTabs (clearCurrent s) = true.
Proof.
  intros H. unfold clearCurrent.
  destruct (currentOf s) as [[f|]|]; try assumption.
  destruct (getProp (f_path f) s); [|assumption].
  now apply currentInTabs_setProp.
Qed.

Lemma indexKey_not_absolute (i : nat) (r : string) :
  Js.indexKey i <> String "/" r.
Proof.
  unfold Js.indexKey. destruct (Nat.to_uint i); cbn; discriminate.
Qed.

Lemma indexHits_absolute (n : nat) (p : string) :
  Js.startsWith p "/" = true -> Explorer.indexHits n p = false.
Proof.
  intros Hp. unfold Explorer.indexHits.
  destruct (existsb _ (seq 0 n)) eqn:E; [|reflexivity].
  apply existsb_exists in E. destruct E as [i [_ Hi]].
  apply String.eqb_eq in Hi. subst p.
  destruct (Js.indexKey i) as [|a r] eqn:Ek; [discriminate|].
  unfold Js.startsWith in Hp. cbn [String.prefix] in Hp.
  destruct (ascii_dec "/" a) as [<-|]; [|discriminate].
  now destruct (indexKey_not_absolute i r).
Qed.

(** The new current file ends up an open tab when its path is absolute
    or its tab was open already. *)
Lemma changeCurrentFile_currentInTabs (p : string) (s : Files) :
  wellFormed s ->
  currentInTabs (clearCurrent s) = true ->
  Js.startsWith p "/" = true \/
    (exists i, getProp p s = Some i /\ truthyB (tabs i) = true) ->
  currentInTabs (storeOf (Explorer.changeCurrentFile p s)) = true.
Proof.
  intros Hwf Hclear Hcond. rewrite changeCurrentFile_eq by assumption.
  destruct (getProp p (clearCurrent s)) as [i1|] eqn:Ep; [|exact Hclear].
  cbv zeta. cbn [storeOf].
  destruct (Explorer.indexHits _ p) eqn:Ehit.
  - apply currentInTabs_setProp; [assumption|].
    destruct Hcond as [Habs|[i [Hi Ht]]].
    + now rewrite indexHits_absolute in Ehit.
    + apply getProp_Some_lookup in Hi. destruct Hwf as [Hnd _].
      destruct (clearCurrent_lookup p i s Hnd Hi) as [i' [Hi' [Ht' _]]].
      apply getProp_Some_lookup in Hi'. rewrite Ep in Hi'.
      injection Hi' as <-. cbn [entryOk withCurrent current tabs].
      rewrite Ht', Ht. apply orb_true_r.
  - rewrite setProp_setProp. apply currentInTabs_setProp; [assumption|].
    reflexivity.
Qed.

Lemma changeCurrentFile_currentIsTab (p : string) (s : Files) :
  oneCurrent s ->
  Js.startsWith p "/" = true \/
    (exists i, getProp p s = Some i /\ truthyB (tabs i) = true) ->
  currentIsTab (storeOf (Explorer.changeCurrentFile p s)).
Proof.
  intros Hone Hcond. split; [now apply changeCurrentFile_oneCurrent|].
  destruct Hone as [Hwf Hc].
  apply changeCurrentFile_currentInTabs; try assumption.
  apply count_zero_currentInTabs. rewrite count_clearCurrent by assumption.
  lia.
Qed.

Lemma changeCurrentFileToTheLastTab_currentIsTab (s : Files) :
  oneCurrent s ->
  tabList s <> [] \/ currentInTabs s = true ->
  currentIsTab (storeOf (Explorer.changeCurrentFileToTheLastTab s)).
Proof.
  intros Hone Hcase. pose proof Hone as [[Hnd Had] Hc].
  rewrite changeCurrentFileToTheLastTab_eq by assumption. rewrite Had.
  destruct (List.rev (tabList s)) as [|l rest] eqn:Erev.
  - cbn [storeOf]. split; [assumption|].
    destruct Hcase as [Hne|H]; [|assumption].
    exfalso. apply Hne. apply (f_equal (@List.rev FullFile)) in Erev.
    now rewrite rev_involutive in Erev.
  - assert (Hin : In l (tabList s)) by (apply in_rev; rewrite Erev; now left).
    destruct (tabList_In l s Hin) as [i [Hli Hti]].
    apply In_lookup in Hli; [|assumption].
    apply changeCurrentFile_currentIsTab; [assumption|].
    right. exists i. split; [now apply getProp_Some_lookup | assumption].
Qed.

Lemma preserves_changeCurrentFileToTheLastTab :
  preserves currentIsTab Explorer.changeCurrentFileToTheLastTab.
Proof.
  intros s [Hone Htab].
  apply changeCurrentFileToTheLastTab_currentIsTab; [assumption | now right].
Qed.

Lemma setProp_currentIsTab (k : string) (i : ItemInfo) (s : Files) :
  truthyB (current i) = false ->
  currentIsTab s -> currentIsTab (setProp k (Some i) s).
Proof.
  intros Hi [Hone Htab]. split.
  - now apply setProp_notCurrent_oneCurrent.
  - apply currentInTabs_setProp; [assumption|]. cbn [entryOk]. now rewrite Hi.
Qed.

Lemma deleteProp_currentIsTab (k : string) (s : Files) :
  currentIsTab s -> currentIsTab (deleteProp k s).
Proof.
  intros [Hone Htab]. split;
    [now apply deleteProp_oneCurrent | now apply currentInTabs_deleteProp].
Qed.

Lemma move_currentIsTab (path newPath : string) (s : Files) :
  currentIsTab s ->
  hasProp path s = true ->
  getProp newPath s = None ->
  currentIsTab (setProp newPath (getProp path s) (deleteProp path s)).
Proof.
  intros [Hone Htab] Hp Hn. split; [now apply move_oneCurrent|].
  apply currentInTabs_setProp; [now apply currentInTabs_deleteProp|].
  unfold getProp. destruct (lookup path s) as [v|] eqn:E; [|reflexivity].
  destruct v as [i|]; [|reflexivity].
  now apply (currentInTabs_lookup path (Some i) s).
Qed.

End CurrentIsTab.

Section CurrentIsTabMutations.

Lemma newItem_currentIsTab (p : string) :
  preserves currentIsTab (Explorer.newItem p).
Proof.
  intros s H. pose proof H as [Hone Htab].
  split; [now apply newItem_oneCurrent|].
  unfold Explorer.newItem.
  destruct (PgExplorer.getItemNameFromPath p) as [name|]; [|exact Htab].
  destruct (negb (PgExplorer.isItemNameValid name)); [exact Htab|].
  unfold bind at 1. unfold readProp.
  destruct (getProp p s) as [i|] eqn:E; [exact Htab|].
  destruct (PgExplorer.getItemTypeFromPath p).
  - unfold bind, writeProp, ret. cbn [storeOf].
    now apply currentInTabs_setProp.
  - unfold bind at 1. unfold writeProp.
    set (new := mkItem (Some "") (Some true) (Some true)).
    set (s' := setProp p (Some new) s).
    assert (Hwf' : wellFormed s').
    { destruct Hone as [Hwf _]. now apply wellFormed_setProp. }
    assert (Htab' : currentInTabs s' = true)
      by now apply currentInTabs_setProp.
    assert (Hc : currentInTabs
                   (storeOf (Explorer.changeCurrentFile p s')) = true).
    { apply changeCurrentFile_currentInTabs; try assumption.
      - now apply currentInTabs_clearCurrent.
      - right. exists new. split; [|reflexivity].
        unfold s'. rewrite getProp_setProp. now rewrite String.eqb_refl. }
    unfold bind. now destruct (Explorer.changeCurrentFile p s').
Qed.

Lemma saveFile_currentIsTab (p c : string) :
  preserves currentIsTab (Explorer.saveFile p c).
Proof.
  intros s H. pose proof H as [Hone Htab].
  split; [now apply saveFile_oneCurrent|].
  rewrite saveFile_eq. cbn [storeOf]. destruct (getProp p s) as [i|] eqn:E; [|exact Htab].
  apply currentInTabs_setProp; [assumption|].
  apply getProp_Some_lookup in E.
  exact (currentInTabs_lookup p (Some i) s Htab E).
Qed.

Lemma deleteItem_currentIsTab (p : string) :
  preserves currentIsTab (Explorer.deleteItem p).
Proof.
  unfold Explorer.deleteItem.
  apply preserves_bind; [apply preserves_readOnly, readOnly_readProp|].
  intros v. cbv zeta.
  apply preserves_bind; [apply preserves_readOnly, readOnly_ownKeys|].
  intros ks. apply preserves_bind.
  - apply preserves_forIn. intros k a s H _.
    destruct (Js.startsWith k p); [|exact H].
    unfold bind, removeProp, ret. cbn [storeOf].
    now apply deleteProp_currentIsTab.
  - intros _. apply preserves_bind.
    + intros s H. unfold writeProp. cbn [storeOf].
      now apply setProp_currentIsTab.
    + intros _.
      apply preserves_bind; [apply preserves_readOnly, readOnly_ownKeys|].
      intros ks'. apply preserves_bind.
      * destruct (Nat.eqb (length ks') 1); [|apply preserves_ret].
        intros s H. unfold writeProp. cbn [storeOf].
        now apply setProp_currentIsTab.
      * intros _.
        destruct (match v with
                  | Some i => truthyB (current i)
                  | None => false
                  end);
          [apply preserves_changeCurrentFileToTheLastTab | apply preserves_ret].
Qed.

Lemma renameItem_currentIsTab (p n : string) (s : Files) :
  currentIsTab s ->
  sourceExists (RenameItem p n) s = true ->
  currentIsTab (storeOf (Explorer.renameItem p n s)).
Proof.
  intros H Hsrc. unfold Explorer.renameItem.
  destruct (negb (PgExplorer.isItemNameValid n)); [exact H|].
  cbn [sourceExists] in Hsrc.
  destruct (PgExplorer.getItemTypeFromPath p).
  - clear Hsrc. revert s H.
    apply preserves_bind; [apply preserves_readOnly, readOnly_ownKeys|].
    intros ks. apply preserves_bind.
    + apply preserves_forIn. intros k a s H Hk. cbv zeta.
      unfold bind at 1. unfold readProp at 1.
      destruct (getProp _ s) eqn:E; [exact H|].
      unfold bind, readProp, removeProp, writeProp, ret. cbn [storeOf].
      now apply move_currentIsTab.
    + intros [a|e]; apply preserves_ret.
  - cbv zeta. unfold bind at 1. unfold readProp at 1.
    destruct (getProp _ s) eqn:E; [exact H|].
    unfold bind, readProp, removeProp, writeProp, ret. cbn [storeOf].
    now apply move_currentIsTab.
Qed.

Lemma tabList_nonempty (k : string) (i : ItemInfo) (s : Files) :
  In (k, Some i) s -> truthyB (tabs i) = true -> tabList s <> [].
Proof.
  intros Hin Ht Hnil.
  assert (H : In (mkFull k (content i) (current i) None) (tabList s)).
  { unfold tabList. apply in_flat_map. exists (k, Some i).
    split; [assumption|]. cbn [fst snd]. rewrite Ht. now left. }
  rewrite Hnil in H. destruct H.
Qed.

Lemma removeFromTabs_currentIsTab (p : string) (s : Files) :
  currentIsTab s ->
  tabsGuard (RemoveFromTabs p) s = true ->
  currentIsTab (storeOf (Explorer.removeFromTabs p s)).
Proof.
  intros H Hguard. pose proof H as [Hone Htab].
  rewrite removeFromTabs_eq.
  destruct (getProp p s) as [ip|] eqn:Ep; [|exact H].
  set (s1 := setProp p (Some (withTabs false ip)) s).
  assert (Hone1 : oneCurrent s1).
  { apply (setProp_sameCurrent_oneCurrent p ip); auto. }
  apply changeCurrentFileToTheLastTab_currentIsTab; [assumption|].
  cbn [tabsGuard] in Hguard. apply orb_true_iff in Hguard.
  destruct Hguard as [Hnot|Hother].
  - right. apply currentInTabs_setProp; [assumption|].
    unfold isCurrentAt in Hnot. rewrite Ep in Hnot.
    cbn [entryOk withTabs current tabs]. now rewrite Hnot.
  - left. unfold otherTabOpen in Hother. apply existsb_exists in Hother.
    destruct Hother as [[k v] [Hin Hk]]. cbn [fst] in Hk.
    apply andb_true_iff in Hk. destruct Hk as [Hne Hv].
    apply negb_true_iff in Hne.
    unfold isTabEntry in Hv. cbn [snd] in Hv.
    destruct v as [i|]; [|discriminate].
    destruct Hone as [[Hnd _] _].
    apply In_lookup in Hin; [|assumption].
    apply (tabList_nonempty k i); [|assumption].
    apply lookup_In. unfold s1. rewrite lookup_setProp.
    rewrite String.eqb_sym. now rewrite Hne.
Qed.

Lemma apply_currentIsTab (m : Mutation) (s : Files) :
  currentIsTab s ->
  sourceExists m s = true ->
  tabsGuard m s = true ->
  currentIsTab (apply m s).
Proof.
  intros H Hsrc Hguard. destruct m; cbn [apply].
  - now apply newItem_currentIsTab.
  - now apply deleteItem_currentIsTab.
  - now apply renameItem_currentIsTab.
  - now apply saveFile_currentIsTab.
  - destruct H as [Hone _]. apply changeCurrentFile_currentIsTab;
      [assumption | now left].
  - now apply removeFromTabs_currentIsTab.
Qed.

Lemma applyAll_currentIsTab (ms : list Mutation) (s : Files) :
  currentIsTab s -> admissible ms s = true -> currentIsTab (applyAll ms s).
Proof.
  revert s. induction ms as [|m rest IH]; intros s H Hadm; cbn in *.
  - exact H.
  - apply andb_true_iff in Hadm. destruct Hadm as [Hm Hrest].
    apply andb_true_iff in Hm. destruct Hm as [Hsrc Hguard].
    apply IH; [now apply apply_currentIsTab | assumption].
Qed.

(** No tab is open once the tab flag of [p] is cleared while no other
    entry is an open tab. *)
Lemma tabList_sole_closed (p : string) (ip : ItemInfo) (s : Files) :
  NoDup (keys s) ->
  otherTabOpen p s = false ->
  tabList (setProp p (Some (withTabs false ip)) s) = [].
Proof.
  intros Hnd Hother.
  destruct (tabList (setProp p (Some (withTabs false ip)) s)) as [|l rest] eqn:E;
    [reflexivity|].
  exfalso.
  assert (Hin : In l (tabList (setProp p (Some (withTabs false ip)) s)))
    by (rewrite E; now left).
  destruct (tabList_In l _ Hin) as [i [Hl Ht]].
  apply In_lookup in Hl; [|now apply NoDup_setProp].
  rewrite lookup_setProp in Hl.
  destruct (String.eqb p (f_path l)) eqn:Ep.
  - injection Hl as <-. cbn in Ht. discriminate.
  - assert (Hex : otherTabOpen p s = true).
    { unfold otherTabOpen. apply existsb_exists.
      exists (f_path l, Some i). split; [now apply lookup_In|].
      cbn [fst]. rewrite String.eqb_sym, Ep. cbn [negb andb].
      unfold isTabEntry. cbn [snd]. exact Ht. }
    congruence.
Qed.

(** C4, as amended: from a store without duplicate keys and without
    [undefined] values in which at most one entry is current and the
    current entry is an open tab, the current entry is an open tab after
    every sequence of mutations whose paths contain the separator and in
    which each rename of a file names a key of the store, each path given
    to [changeCurrentFile] is absolute, and [removeFromTabs] is not
    applied to the current file while no other tab is open.  On the
    store reached, [removeFromTabs] on a path that holds an item while no
    other tab is open returns and changes nothing but the tab flag of
    that item: the current flag is left where it was, so that a current
    file closed in this way is current without being an open tab. *)
Theorem current_in_tabs_after_mutations (ms : list Mutation) (fs : Files) :
  NoDup (keys fs) ->
  allDefined fs = true ->
  countCurrent fs <= 1 ->
  currentInTabs fs = true ->
  forallb pathArg ms = true ->
  admissible ms fs = true ->
  let s := applyAll ms fs in
  currentInTabs s = true /\
  forall p ip,
    getProp p s = Some ip ->
    otherTabOpen p s = false ->
    Explorer.removeFromTabs p s =
      Returned tt (setProp p (Some (withTabs false ip)) s) /\
    (truthyB (current ip) = true ->
     currentInTabs (setProp p (Some (withTabs false ip)) s) = false).
Proof.
  intros Hnd Had Hc Htab _ Hadm s.
  assert (H : currentIsTab fs) by (repeat split; assumption).
  destruct (applyAll_currentIsTab ms fs H Hadm) as [[[Hnds Hads] _] Hs].
  fold s in Hnds, Hads, Hs. split; [exact Hs|].
  intros p ip Hg Hother. split.
  - rewrite removeFromTabs_eq, Hg.
    rewrite changeCurrentFileToTheLastTab_eq by now apply NoDup_setProp.
    rewrite allDefined_setProp by assumption.
    now rewrite (tabList_sole_closed p ip s Hnds Hother).
  - intros Hcur.
    destruct (currentInTabs (setProp p (Some (withTabs false ip)) s)) eqn:E;
      [|reflexivity].
    assert (Hl : lookup p (setProp p (Some (withTabs false ip)) s) =
                 Some (Some (withTabs false ip))).
    { rewrite lookup_setProp. now rewrite String.eqb_refl. }
    pose proof (currentInTabs_lookup _ _ _ E Hl) as Hok.
    unfold entryOk, withTabs in Hok. cbn [current tabs] in Hok.
    rewrite Hcur in Hok. discriminate.
Qed.

(** The theorem on a session in which the current file is closed while
    another tab is open, and a tab is closed that is gone already. *)
Lemma current_in_tabs_after_mutations_witness :
  let fs := [("/src/", folderItem); ("/src/lib.rs", fileItem "x" true true)] in
  let ms := [NewItem "/src/a.rs"; RemoveFromTabs "/src/a.rs";
             ChangeCurrentFile "/src/a.rs"; RenameItem "/src/a.rs" "b.rs";
             SaveFile "/src/b.rs" "fn main() {}"; DeleteItem "/src/b.rs";
             RemoveFromTabs "/src/a.rs"] in
  NoDup (keys fs) /\ allDefined fs = true /\ countCurrent fs <= 1 /\
  currentInTabs fs = true /\ forallb pathArg ms = true /\
  admissible ms fs = true /\
  currentInTabs (applyAll ms fs) = true /\
  forall p ip,
    getProp p (applyAll ms fs) = Some ip ->
    otherTabOpen p (applyAll ms fs) = false ->
    Explorer.removeFromTabs p (applyAll ms fs) =
      Returned tt (setProp p (Some (withTabs false ip)) (applyAll ms fs)) /\
    (truthyB (current ip) = true ->
     currentInTabs (setProp p (Some (withTabs false ip)) (applyAll ms fs)) =
     false).
Proof.
  intros fs ms.
  assert (Hnd : NoDup (keys fs)).
  { repeat constructor; cbn; intuition discriminate. }
  assert (Had : allDefined fs = true) by reflexivity.
  assert (Hc : countCurrent fs <= 1) by (vm_compute; lia).
  assert (Htab : currentInTabs fs = true) by reflexivity.
  assert (Hpaths : forallb pathArg ms = true) by (vm_compute; reflexivity).
  assert (Hadm : admissible ms fs = true) by (vm_compute; reflexivity).
  split; [exact Hnd|]. split; [exact Had|]. split; [exact Hc|].
  split; [exact Htab|]. split; [exact Hpaths|]. split; [exact Hadm|].
  exact (current_in_tabs_after_mutations ms fs Hnd Had Hc Htab Hpaths Hadm).
Defined.

End CurrentIsTabMutations.

(** * Further properties of the path algebra *)

Section SplitFacts.

Lemma prefix_empty (s : string) : String.prefix "" s = true.
Proof. now destruct s. Qed.

Lemma includes_char_cons (c d : ascii) (r : string) :
  Js.includes (String c r) (String d "") =
  Ascii.eqb c d || Js.includes r (String d "").
Proof.
  cbn [Js.includes String.prefix].
  destruct (ascii_dec d c) as [->|Hne].
  - now rewrite prefix_empty, Ascii.eqb_refl.
  - assert (H : Ascii.eqb c d = false).
    { apply Ascii.eqb_neq. intros ->. now apply Hne. }
    now rewrite H.
Qed.

Lemma includes_char_nil (d : ascii) :
  Js.includes "" (String d "") = false.
Proof. reflexivity. Qed.

Lemma includes_char_app (d : ascii) (a b : string) :
  Js.includes (a ++ b) (String d "") =
  Js.includes a (String d "") || Js.includes b (String d "").
Proof.
  induction a as [|c r IH]; cbn [append].
  - now rewrite includes_char_nil.
  - rewrite !includes_char_cons, IH. now rewrite orb_assoc.
Qed.

Lemma splitOn_char_cons (d c : ascii) (r : string) :
  Js.splitOn (String d "") 0 (String c r) =
  if Ascii.eqb c d then EmptyString :: Js.splitOn (String d "") 0 r
  else match Js.splitOn (String d "") 0 r with
       | h :: t => String c h :: t
       | [] => [String c EmptyString]
       end.
Proof.
  cbn [Js.splitOn String.prefix String.length Nat.sub].
  destruct (ascii_dec d c) as [->|Hne].
  - now rewrite prefix_empty, Ascii.eqb_refl.
  - assert (H : Ascii.eqb c d = false).
    { apply Ascii.eqb_neq. intros ->. now apply Hne. }
    now rewrite H.
Qed.

(** Splitting at a character distributes over an occurrence of it. *)
Lemma splitOn_char_app (d : ascii) (a b : string) :
  Js.splitOn (String d "") 0 (a ++ String d b) =
  Js.splitOn (String d "") 0 a ++ Js.splitOn (String d "") 0 b.
Proof.
  induction a as [|c r IH]; cbn [append].
  - rewrite splitOn_char_cons, Ascii.eqb_refl. reflexivity.
  - rewrite !splitOn_char_cons. destruct (Ascii.eqb c d).
    + now rewrite IH.
    + rewrite IH.
      pose proof (splitOn_nonempty (String d "") r 0) as Hne.
      destruct (Js.splitOn (String d "") 0 r); [now destruct Hne | reflexivity].
Qed.

Lemma splitOn_char_none (d : ascii) (s : string) :
  Js.includes s (String d "") = false ->
  Js.splitOn (String d "") 0 s = [s].
Proof.
  induction s as [|c r IH]; [reflexivity|].
  rewrite includes_char_cons, splitOn_char_cons. intros H.
  apply orb_false_iff in H. destruct H as [Hc Hr].
  rewrite Hc, (IH Hr). reflexivity.
Qed.

(** No piece contains the separator. *)
Lemma splitOn_char_pieces (d : ascii) (s : string) :
  Forall (fun x => Js.includes x (String d "") = false)
    (Js.splitOn (String d "") 0 s).
Proof.
  induction s as [|c r IH].
  - repeat constructor.
  - rewrite splitOn_char_cons. destruct (Ascii.eqb c d) eqn:E.
    + constructor; [reflexivity | exact IH].
    + destruct (Js.splitOn (String d "") 0 r) as [|h t].
      * repeat constructor. rewrite includes_char_cons, E. reflexivity.
      * inversion IH as [|? ? Hh Ht]; subst. constructor; [|exact Ht].
        rewrite includes_char_cons, E. exact Hh.
Qed.

Lemma split_char (s : string) (d : ascii) :
  Js.split s (String d "") = Js.splitOn (String d "") 0 s.
Proof. reflexivity. Qed.

Lemma endsWith_char_cons (c d : ascii) (r : string) :
  r <> EmptyString ->
  Js.endsWith (String c r) (String d "") = Js.endsWith r (String d "").
Proof.
  intros Hr. cbn [Js.endsWith String.eqb].
  destruct r as [|c' r']; [now destruct Hr|].
  destruct (Ascii.eqb c d); reflexivity.
Qed.

Lemma endsWith_app_char (a : string) (d : ascii) :
  Js.endsWith (a ++ String d "") (String d "") = true.
Proof. apply endsWith_app. cbn. now rewrite Ascii.eqb_refl. Qed.

(** A string that does not contain a character does not end with it. *)
Lemma endsWith_none (d : ascii) (s : string) :
  Js.includes s (String d "") = false ->
  Js.endsWith s (String d "") = false.
Proof.
  induction s as [|c r IH]; [reflexivity|].
  rewrite includes_char_cons. intros H.
  apply orb_false_iff in H. destruct H as [Hc Hr].
  cbn [Js.endsWith String.eqb]. rewrite Hc, (IH Hr). reflexivity.
Qed.

Lemma endsWith_app_none (d : ascii) (a s : string) :
  s <> EmptyString ->
  Js.includes s (String d "") = false ->
  Js.endsWith (a ++ s) (String d "") = false.
Proof.
  intros Hs Hn. induction a as [|c r IH]; cbn [append].
  - now apply endsWith_none.
  - rewrite endsWith_char_cons; [exact IH|].
    destruct r; cbn [append]; [exact Hs | discriminate].
Qed.

(** The pieces of a path that ends with the separator: those of the rest,
    then an empty one. *)
Lemma splitOn_endsWith (d : ascii) (s : string) :
  Js.endsWith s (String d "") = true ->
  exists items, Js.splitOn (String d "") 0 s = items ++ [EmptyString] /\
                items <> [].
Proof.
  induction s as [|c r IH]; [discriminate|].
  destruct r as [|c' r'].
  - cbn [Js.endsWith String.eqb]. rewrite orb_false_r.
    destruct (Ascii.eqb c d) eqn:E; [|discriminate]. intros _.
    rewrite splitOn_char_cons, E. exists [EmptyString]. split; [reflexivity|discriminate].
  - rewrite endsWith_char_cons by discriminate. intros H.
    destruct (IH H) as [items [Hit Hne]].
    rewrite splitOn_char_cons, Hit. destruct (Ascii.eqb c d).
    + exists (EmptyString :: items). split; [reflexivity | discriminate].
    + destruct items as [|h t]; [now destruct Hne|].
      exists (String c h :: t). split; [reflexivity | discriminate].
Qed.

End SplitFacts.

Section PathAlgebra.

Lemma append_assoc_str (a b c : string) :
  ((a ++ b) ++ c)%string = (a ++ (b ++ c))%string.
Proof. induction a as [|x r IH]; cbn [append]; [reflexivity | now rewrite IH]. Qed.

Lemma isSegment_spec (s : string) :
  isSegment s = true <-> s <> EmptyString /\ Js.includes s "/" = false.
Proof.
  unfold isSegment. rewrite andb_true_iff, !negb_true_iff, String.eqb_neq.
  reflexivity.
Qed.

Lemma joinItems_eq (items : list string) (bound : nat) (acc : string) :
  PgExplorer.joinItems items bound acc =
  (acc ++ segsText (filter (fun it => negb (String.eqb it "")) (firstn bound items)))%string.
Proof.
  revert bound acc. induction items as [|it rest IH]; intros [|b] acc;
    cbn [PgExplorer.joinItems firstn filter segsText];
    try (induction acc as [|x r IHa]; cbn [append]; [reflexivity | now rewrite <- IHa]).
  destruct (String.eqb it "") eqn:E; cbn [negb].
  - apply IH.
  - rewrite IH. cbn [segsText]. rewrite append_assoc_str.
    f_equal. now rewrite append_assoc_str.
Qed.

Lemma filter_segments (segs : list string) :
  Forall (fun x => isSegment x = true) segs ->
  filter (fun it => negb (String.eqb it "")) segs = segs.
Proof.
  induction 1 as [|x r Hx Hr IH]; cbn [filter]; [reflexivity|].
  apply isSegment_spec in Hx. destruct Hx as [Hne _].
  apply String.eqb_neq in Hne. rewrite Hne. cbn [negb]. now rewrite IH.
Qed.

Lemma in_firstn {A : Type} (x : A) (n : nat) (l : list A) :
  In x (firstn n l) -> In x l.
Proof.
  intros H. rewrite <- (firstn_skipn n l). apply in_or_app. now left.
Qed.

(** The parent path is a folder path in normal form: no empty segment. *)
Lemma parentPath_normal (p : string) :
  exists segs,
    PgExplorer.getParentPathFromPath p = folderPath segs /\
    Forall (fun x => isSegment x = true) segs.
Proof.
  assert (H : forall bound,
    exists segs,
      PgExplorer.joinItems (Js.split p "/") bound "/" = folderPath segs /\
      Forall (fun x => isSegment x = true) segs).
  { intros bound. eexists. split; [rewrite joinItems_eq; reflexivity|].
    apply Forall_forall. intros x Hx. apply filter_In in Hx.
    destruct Hx as [Hin Hne]. apply isSegment_spec. split.
    - apply negb_true_iff in Hne. now apply String.eqb_neq.
    - apply in_firstn in Hin.
      pose proof (splitOn_char_pieces "/" p) as Hp.
      rewrite Forall_forall in Hp. now apply Hp. }
  unfold PgExplorer.getParentPathFromPath.
  destruct (PgExplorer.getItemTypeFromPath p); apply H.
Qed.

Lemma split_segsText (segs : list string) (rest : string) :
  Forall (fun x => isSegment x = true) segs ->
  Js.splitOn "/" 0 (segsText segs ++ rest) = segs ++ Js.splitOn "/" 0 rest.
Proof.
  induction 1 as [|x r Hx Hr IH]; cbn [segsText append app]; [reflexivity|].
  apply isSegment_spec in Hx. destruct Hx as [_ Hx].
  rewrite append_assoc_str. cbn [append].
  rewrite splitOn_char_app, (splitOn_char_none "/" x Hx), IH. reflexivity.
Qed.

Lemma split_folderPath (segs : list string) (rest : string) :
  Forall (fun x => isSegment x = true) segs ->
  Js.split (folderPath segs ++ rest) "/" =
  EmptyString :: segs ++ Js.splitOn "/" 0 rest.
Proof.
  intros H. unfold folderPath. cbn [append]. rewrite split_char.
  rewrite splitOn_char_cons. cbn [Ascii.eqb Bool.eqb andb].
  now rewrite split_segsText.
Qed.

Lemma joinItems_segments (segs tail : list string) :
  Forall (fun x => isSegment x = true) segs ->
  PgExplorer.joinItems (EmptyString :: segs ++ tail) (S (length segs)) "/" =
  folderPath segs.
Proof.
  intros H. rewrite joinItems_eq. cbn [firstn filter String.eqb negb].
  rewrite firstn_app, Nat.sub_diag, firstn_all. cbn [firstn].
  rewrite app_nil_r, filter_segments by assumption. reflexivity.
Qed.

(** The path of a file in a folder in normal form. *)
Lemma file_in_folder (segs : list string) (name : string) :
  Forall (fun x => isSegment x = true) segs ->
  isSegment name = true ->
  let path := (folderPath segs ++ name)%string in
  PgExplorer.getItemTypeFromPath path = IsFile /\
  PgExplorer.getParentPathFromPath path = folderPath segs /\
  PgExplorer.getItemNameFromPath path = Some name.
Proof.
  intros Hsegs Hname path. apply isSegment_spec in Hname.
  destruct Hname as [Hne Hns].
  assert (Htype : PgExplorer.getItemTypeFromPath path = IsFile).
  { unfold PgExplorer.getItemTypeFromPath, path.
    now rewrite endsWith_app_none. }
  assert (Hsplit : Js.split path "/" = EmptyString :: segs ++ [name]).
  { unfold path. rewrite split_folderPath by assumption.
    now rewrite splitOn_char_none. }
  split; [exact Htype|]. split.
  - unfold PgExplorer.getParentPathFromPath. rewrite Htype, Hsplit.
    cbn [length]. rewrite length_app. cbn [length].
    replace (S (length segs + 1) - 1) with (S (length segs)) by lia.
    now apply joinItems_segments.
  - unfold PgExplorer.getItemNameFromPath, PgExplorer.at_.
    rewrite Htype, Hsplit. cbn [length]. rewrite length_app. cbn [length].
    replace (S (length segs + 1) - 1) with (S (length segs)) by lia.
    cbn [Nat.ltb Nat.leb nth_error].
    rewrite nth_error_app2 by lia. now rewrite Nat.sub_diag.
Qed.

(** The path of a folder in a folder in normal form. *)
Lemma folder_in_folder (segs : list string) (name : string) :
  Forall (fun x => isSegment x = true) segs ->
  isSegment name = true ->
  let path := (folderPath segs ++ (name ++ "/"))%string in
  PgExplorer.getItemTypeFromPath path = IsFolder /\
  PgExplorer.getParentPathFromPath path = folderPath segs /\
  PgExplorer.getItemNameFromPath path = Some name.
Proof.
  intros Hsegs Hname path. apply isSegment_spec in Hname.
  destruct Hname as [Hne Hns].
  assert (Htype : PgExplorer.getItemTypeFromPath path = IsFolder).
  { unfold PgExplorer.getItemTypeFromPath, path.
    rewrite endsWith_app; [reflexivity|]. apply endsWith_app_char. }
  assert (Hsplit : Js.split path "/" =
                   EmptyString :: segs ++ [name; EmptyString]).
  { unfold path. rewrite split_folderPath by assumption.
    rewrite splitOn_char_app, splitOn_char_none by assumption. reflexivity. }
  split; [exact Htype|]. split.
  - unfold PgExplorer.getParentPathFromPath. rewrite Htype, Hsplit.
    cbn [length]. rewrite length_app. cbn [length].
    replace (S (length segs + 2) - 2) with (S (length segs)) by lia.
    now apply joinItems_segments.
  - unfold PgExplorer.getItemNameFromPath, PgExplorer.at_.
    rewrite Htype, Hsplit. cbn [length]. rewrite length_app. cbn [length].
    replace (S (length segs + 2) - 2) with (S (length segs)) by lia.
    replace (Nat.ltb (S (length segs + 2)) 2) with false
      by (symmetry; apply Nat.ltb_ge; lia).
    cbn [nth_error].
    rewrite nth_error_app2 by lia. now rewrite Nat.sub_diag.
Qed.

End PathAlgebra.

Section PathAlgebraProperties.

Lemma allChars_excludes (ok : ascii -> bool) (d : ascii) (s : string) :
  ok d = false ->
  Js.allChars ok s = true ->
  Js.includes s (String d "") = false.
Proof.
  intros Hd. induction s as [|c r IH]; [reflexivity|].
  cbn [Js.allChars]. rewrite includes_char_cons. intros H.
  apply andb_true_iff in H. destruct H as [Hc Hr].
  rewrite (IH Hr), orb_false_r. apply Ascii.eqb_neq. intros ->. congruence.
Qed.

Lemma includes_two_none (d : ascii) (s : string) :
  Js.includes s (String d "") = false ->
  Js.includes s (String d (String d "")) = false.
Proof.
  induction s as [|c r IH]; [reflexivity|].
  rewrite includes_char_cons. intros H.
  apply orb_false_iff in H. destruct H as [Hc Hr].
  cbn [Js.includes String.prefix]. rewrite (IH Hr), orb_false_r.
  destruct (ascii_dec d c) as [->|]; [|reflexivity].
  now rewrite Ascii.eqb_refl in Hc.
Qed.

(** X1: for every name, the test for a doubled separator never decides
    [isItemNameValid]: the result is that of the pattern and of the test
    for two dots in a row, since the pattern already excludes the
    separator.  A name that is accepted is one path segment: it is not
    empty, it contains no separator, it does not start with a dot and it
    contains no two dots in a row. *)
Theorem valid_name_is_segment (name : string) :
  PgExplorer.isItemNameValid name =
    PgExplorer.nameRegex name && negb (Js.includes name "..") /\
  (PgExplorer.isItemNameValid name = true ->
   name <> EmptyString /\
   Js.includes name "/" = false /\
   Js.startsWith name "." = false /\
   Js.includes name ".." = false).
Proof.
  assert (Hsep : PgExplorer.nameRegex name = true ->
                 Js.includes name "/" = false).
  { unfold PgExplorer.nameRegex. destruct name as [|c r]; [discriminate|].
    intros Hre. apply andb_true_iff in Hre. destruct Hre as [_ Hall].
    now apply (allChars_excludes _ "/" _ eq_refl) in Hall. }
  assert (Heq : PgExplorer.isItemNameValid name =
                PgExplorer.nameRegex name && negb (Js.includes name "..")).
  { unfold PgExplorer.isItemNameValid.
    destruct (PgExplorer.nameRegex name) eqn:Hre; [|reflexivity].
    now rewrite (includes_two_none "/" name (Hsep eq_refl)). }
  split; [exact Heq|]. rewrite Heq. intros H.
  apply andb_true_iff in H. destruct H as [Hre Hdots].
  apply negb_true_iff in Hdots.
  split; [|split; [exact (Hsep Hre)|split; [|exact Hdots]]].
  - intros ->. discriminate.
  - unfold PgExplorer.nameRegex in Hre. destruct name as [|c r]; [discriminate|].
    apply andb_true_iff in Hre. destruct Hre as [Hc _].
    apply negb_true_iff in Hc. unfold Js.startsWith. cbn [String.prefix].
    destruct (ascii_dec "." c) as [<-|]; [discriminate | reflexivity].
Qed.

(** A name of a source file of a program, and a name with a doubled
    separator, which the pattern rejects. *)
Lemma valid_name_is_segment_witness :
  (PgExplorer.isItemNameValid "a//b" =
     PgExplorer.nameRegex "a//b" && negb (Js.includes "a//b" "..")) /\
  PgExplorer.isItemNameValid "lib.rs" = true /\
  "lib.rs" <> EmptyString /\
  Js.includes "lib.rs" "/" = false /\
  Js.startsWith "lib.rs" "." = false /\
  Js.includes "lib.rs" ".." = false.
Proof.
  split; [exact (proj1 (valid_name_is_segment "a//b"))|].
  split; [reflexivity|].
  exact (proj2 (valid_name_is_segment "lib.rs") eq_refl).
Defined.

(** X2: the parent path of any path is a folder path without empty
    segment; a file or a folder named by one segment and placed under it
    has that parent path, that item name and the matching item type. *)
Theorem item_under_parent_path (p name : string) :
  name <> EmptyString ->
  Js.includes name "/" = false ->
  let dir := PgExplorer.getParentPathFromPath p in
  (PgExplorer.getItemTypeFromPath (dir ++ name) = IsFile /\
   PgExplorer.getParentPathFromPath (dir ++ name) = dir /\
   PgExplorer.getItemNameFromPath (dir ++ name) = Some name) /\
  (PgExplorer.getItemTypeFromPath (dir ++ (name ++ "/")) = IsFolder /\
   PgExplorer.getParentPathFromPath (dir ++ (name ++ "/")) = dir /\
   PgExplorer.getItemNameFromPath (dir ++ (name ++ "/")) = Some name).
Proof.
  intros Hne Hns dir.
  destruct (parentPath_normal p) as [segs [Hdir Hsegs]].
  subst dir. rewrite Hdir.
  assert (Hname : isSegment name = true) by now apply isSegment_spec.
  split.
  - exact (file_in_folder segs name Hsegs Hname).
  - exact (folder_in_folder segs name Hsegs Hname).
Qed.

(** A new file next to [/src/lib.rs]. *)
Lemma item_under_parent_path_witness :
  "main.rs" <> EmptyString /\
  Js.includes "main.rs" "/" = false /\
  (PgExplorer.getItemTypeFromPath "/src/main.rs" = IsFile /\
   PgExplorer.getParentPathFromPath "/src/main.rs" = "/src/" /\
   PgExplorer.getItemNameFromPath "/src/main.rs" = Some "main.rs") /\
  (PgExplorer.getItemTypeFromPath "/src/main.rs/" = IsFolder /\
   PgExplorer.getParentPathFromPath "/src/main.rs/" = "/src/" /\
   PgExplorer.getItemNameFromPath "/src/main.rs/" = Some "main.rs").
Proof.
  assert (Hne : "main.rs" <> EmptyString) by discriminate.
  split; [exact Hne|]. split; [reflexivity|].
  exact (item_under_parent_path "/src/lib.rs" "main.rs" Hne eq_refl).
Defined.

(** X3: [getItemNameFromPath] always finds an item in the split path, for
    a folder path as well (the index of the last item but one is in
    range), and the name it returns contains no separator. *)
Theorem getItemNameFromPath_defined (p : string) :
  exists name,
    PgExplorer.getItemNameFromPath p = Some name /\
    Js.includes name "/" = false.
Proof.
  assert (Hpieces : forall i x, nth_error (Js.split p "/") i = Some x ->
                      Js.includes x "/" = false).
  { intros i x H. apply nth_error_In in H.
    pose proof (splitOn_char_pieces "/" p) as Hp.
    rewrite Forall_forall in Hp. now apply Hp. }
  unfold PgExplorer.getItemNameFromPath, PgExplorer.getItemTypeFromPath,
    PgExplorer.at_.
  destruct (Js.endsWith p "/") eqn:E.
  - destruct (splitOn_endsWith "/" p E) as [items [Hit Hne]].
    rewrite split_char in *. rewrite Hit in *. rewrite length_app. cbn [length].
    destruct items as [|h t]; [now destruct Hne|]. cbn [length].
    replace (Nat.ltb (S (length t) + 1) 2) with false
      by (symmetry; apply Nat.ltb_ge; lia).
    destruct (nth_error ((h :: t) ++ [EmptyString]) (S (length t) + 1 - 2))
      as [x|] eqn:Ex.
    + exists x. split; [reflexivity|]. exact (Hpieces _ x Ex).
    + apply nth_error_None in Ex. rewrite length_app in Ex. cbn [length] in Ex.
      lia.
  - pose proof (split_slash_nonempty p) as Hne.
    destruct (Js.split p "/") as [|h t] eqn:Es; [now destruct Hne|].
    cbn [length]. replace (Nat.ltb (S (length t)) 1) with false
      by (symmetry; apply Nat.ltb_ge; lia).
    destruct (nth_error (h :: t) (S (length t) - 1)) as [x|] eqn:Ex.
    + exists x. split; [reflexivity|]. exact (Hpieces _ x Ex).
    + apply nth_error_None in Ex. cbn [length] in Ex. lia.
Qed.

Lemma includes_double_app (a b : string) :
  Js.includes a "/" = false ->
  Js.includes (a ++ String "/" b) "//" =
  Js.startsWith b "/" || Js.includes b "//".
Proof.
  intros Ha. induction a as [|c r IH]; cbn [append].
  - cbn [Js.includes String.prefix]. unfold Js.startsWith.
    destruct (ascii_dec "/" "/") as [_|Hn]; [|now destruct Hn].
    reflexivity.
  - rewrite includes_char_cons in Ha. apply orb_false_iff in Ha.
    destruct Ha as [Hc Hr]. cbn [Js.includes String.prefix].
    destruct (ascii_dec "/" c) as [<-|]; [discriminate|].
    cbn [orb]. now apply IH.
Qed.

Lemma segment_head (x rest : string) :
  isSegment x = true -> Js.startsWith (x ++ rest) "/" = false.
Proof.
  intros H. apply isSegment_spec in H. destruct H as [Hne Hns].
  destruct x as [|c r]; [now destruct Hne|].
  rewrite includes_char_cons in Hns. apply orb_false_iff in Hns.
  destruct Hns as [Hc _]. unfold Js.startsWith. cbn [append String.prefix].
  destruct (ascii_dec "/" c) as [<-|]; [discriminate | reflexivity].
Qed.

Lemma segsText_clean (segs : list string) :
  Forall (fun x => isSegment x = true) segs ->
  Js.startsWith (segsText segs) "/" = false /\
  Js.includes (segsText segs) "//" = false.
Proof.
  induction 1 as [|x r Hx Hr IH]; [split; reflexivity|].
  destruct IH as [IH1 IH2]. cbn [segsText]. split.
  - now apply segment_head.
  - apply isSegment_spec in Hx. destruct Hx as [_ Hns].
    rewrite includes_double_app by assumption. now rewrite IH1, IH2.
Qed.

(** X4: the parent path that [getParentPathFromPath] builds is normal,
    whatever the path: it starts and ends with the separator and never
    contains a doubled separator, because empty items are skipped. *)
Theorem parent_path_is_normal (p : string) :
  let dir := PgExplorer.getParentPathFromPath p in
  Js.startsWith dir "/" = true /\
  Js.endsWith dir "/" = true /\
  Js.includes dir "//" = false.
Proof.
  intros dir. destruct (parentPath_normal p) as [segs [Hdir Hsegs]].
  subst dir. rewrite Hdir.
  destruct (segsText_clean segs Hsegs) as [H1 H2].
  split.
  { unfold Js.startsWith, folderPath. cbn [String.prefix].
    destruct (ascii_dec "/" "/") as [_|Hn]; [apply prefix_empty | now destruct Hn]. }
  split.
  - rewrite <- Hdir. pose proof (parentPath_isFolder p) as H.
    unfold PgExplorer.getItemTypeFromPath in H.
    now destruct (Js.endsWith (PgExplorer.getParentPathFromPath p) "/").
  - unfold folderPath.
    change (String "/" (segsText segs))
      with (EmptyString ++ String "/" (segsText segs))%string.
    rewrite includes_double_app by reflexivity. now rewrite H1, H2.
Qed.

End PathAlgebraProperties.

(** * Further properties of the queries *)

Section Queries.

Lemma tabList_In_item (l : FullFile) (s : Files) :
  In l (tabList s) ->
  exists i, In (f_path l, Some i) s /\ truthyB (tabs i) = true /\
            f_content l = content i /\ f_current l = current i.
Proof.
  induction s as [|[k v] r IH]; [intros []|].
  rewrite tabList_cons. cbn [fst snd]. rewrite in_app_iff. intros [H|H].
  - destruct v as [i|]; [|destruct H].
    destruct (truthyB (tabs i)) eqn:E; [|destruct H].
    destruct H as [<-|[]]. exists i. cbn. repeat split; auto.
  - destruct (IH H) as [i [Hin Hi]]. exists i. split; [now right | assumption].
Qed.

Lemma tabList_paths (s : Files) :
  map f_path (tabList s) = map fst (filter isTabEntry s).
Proof.
  induction s as [|[k v] r IH]; [reflexivity|].
  rewrite tabList_cons, map_app, IH. cbn [filter fst snd].
  unfold isTabEntry at 2. cbn [snd].
  destruct v as [i|]; [|reflexivity].
  now destruct (truthyB (tabs i)).
Qed.

(** X5: on a store without [undefined] value [getTabs] returns, in
    enumeration order, one record for each entry whose tab flag is set,
    with the path, content and current flag of that entry; as soon as one
    value is [undefined] it raises instead, whatever the flags. *)
Theorem getTabs_lists_open_tabs (fs : Files) :
  NoDup (keys fs) ->
  (allDefined fs = false -> Explorer.getTabs fs = Raised fs) /\
  (allDefined fs = true ->
   exists l,
     Explorer.getTabs fs = Returned l fs /\
     map f_path l = map fst (filter isTabEntry fs) /\
     forall f, In f l ->
       exists i, lookup (f_path f) fs = Some (Some i) /\
                 f_content f = content i /\ f_current f = current i).
Proof.
  intros Hnd. rewrite getTabs_eq by assumption. split; intros Had; rewrite Had.
  - reflexivity.
  - exists (tabList fs). split; [reflexivity|]. split; [apply tabList_paths|].
    intros f Hf. destruct (tabList_In_item f fs Hf) as [i [Hin [_ [Hc Hcur]]]].
    exists i. split; [now apply In_lookup | now split].
Qed.

(** Two tabs and a folder. *)
Lemma getTabs_lists_open_tabs_witness :
  let fs := [("/src/", folderItem); ("/src/lib.rs", fileItem "a" false true);
             ("/src/main.rs", fileItem "b" true true)] in
  NoDup (keys fs) /\
  (allDefined fs = false -> Explorer.getTabs fs = Raised fs) /\
  (allDefined fs = true ->
   exists l,
     Explorer.getTabs fs = Returned l fs /\
     map f_path l = map fst (filter isTabEntry fs) /\
     forall f, In f l ->
       exists i, lookup (f_path f) fs = Some (Some i) /\
                 f_content f = content i /\ f_current f = current i).
Proof.
  intros fs.
  assert (Hnd : NoDup (keys fs)).
  { repeat constructor; cbn; intuition discriminate. }
  split; [exact Hnd|]. exact (getTabs_lists_open_tabs fs Hnd).
Defined.

Lemma currentOf_first (fs : Files) (f : FullFile) :
  currentOf fs = Some (Some f) ->
  exists pre i post,
    fs = pre ++ (f_path f, Some i) :: post /\
    countCurrent pre = 0 /\ allDefined pre = true /\
    truthyB (current i) = true /\ f_content f = content i.
Proof.
  induction fs as [|[k [i|]] r IH]; cbn [currentOf]; try discriminate.
  destruct (truthyB (current i)) eqn:E.
  - intros [= <-]. exists [], i, r. cbn. repeat split; auto.
  - intros H. destruct (IH H) as [pre [j [post [Hfs [Hc [Had [Hj Hcont]]]]]]].
    exists ((k, Some i) :: pre), j, post. rewrite Hfs. split; [reflexivity|].
    split.
    { rewrite count_cons. unfold isCurrentEntry. cbn [snd]. rewrite E. exact Hc. }
    split; [cbn; exact Had|]. now split.
Qed.

(** X6: on a store without [undefined] value [getCurrentFile] returns
    the first entry, in enumeration order, whose current flag is set,
    with its path and content, and [null] exactly when no entry is
    current. *)
Theorem getCurrentFile_finds_first_current (fs : Files) :
  NoDup (keys fs) ->
  allDefined fs = true ->
  exists r,
    Explorer.getCurrentFile fs = Returned r fs /\
    match r with
    | None => countCurrent fs = 0
    | Some f =>
        exists pre i post,
          fs = pre ++ (f_path f, Some i) :: post /\
          countCurrent pre = 0 /\
          truthyB (current i) = true /\ f_content f = content i
    end.
Proof.
  intros Hnd Had. rewrite getCurrentFile_eq by assumption.
  destruct (currentOf_defined fs Had) as [r Hr]. rewrite Hr. unfold lift.
  exists r. split; [reflexivity|]. destruct r as [f|].
  - destruct (currentOf_first fs f Hr) as [pre [i [post [H1 [H2 [_ [H3 H4]]]]]]].
    exists pre, i, post. repeat split; assumption.
  - now apply currentOf_None.
Qed.

(** The current file behind a folder and a closed file. *)
Lemma getCurrentFile_finds_first_current_witness :
  let fs := [("/src/", folderItem); ("/src/lib.rs", fileItem "a" false true);
             ("/src/main.rs", fileItem "b" true true)] in
  NoDup (keys fs) /\ allDefined fs = true /\
  exists r,
    Explorer.getCurrentFile fs = Returned r fs /\
    match r with
    | None => countCurrent fs = 0
    | Some f =>
        exists pre i post,
          fs = pre ++ (f_path f, Some i) :: post /\
          countCurrent pre = 0 /\
          truthyB (current i) = true /\ f_content f = content i
    end.
Proof.
  intros fs.
  assert (Hnd : NoDup (keys fs)).
  { repeat constructor; cbn; intuition discriminate. }
  split; [exact Hnd|]. split; [reflexivity|].
  exact (getCurrentFile_finds_first_current fs Hnd eq_refl).
Defined.

Lemma getBuildFiles_eq (fs : Files) :
  NoDup (keys fs) ->
  Explorer.getBuildFiles fs =
  if allDefined fs then Returned (buildList fs) fs else Raised fs.
Proof.
  intros Hnd. unfold Explorer.getBuildFiles.
  unfold bind at 1. unfold ownKeys. unfold bind at 1.
  rewrite (forIn_scan (R := Empty_set) _
    (fun k v acc =>
       match v with
       | None => None
       | Some i =>
           match content i with
           | Some c =>
               if truthyS (Some c) then Some (inl (acc ++ [(k, c)]))
               else Some (inl acc)
           | None => Some (inl acc)
           end
       end) fs).
  - assert (H : forall l acc,
      scan (R := Empty_set) (fun k v acc =>
              match v with
              | None => None
              | Some i =>
                  match content i with
                  | Some c =>
                      if truthyS (Some c) then Some (inl (acc ++ [(k, c)]))
                      else Some (inl acc)
                  | None => Some (inl acc)
                  end
              end) l acc =
      if allDefined l then Some (inl (acc ++ buildList l)) else None).
    { induction l as [|[k [i|]] rest IH]; intros acc; cbn [scan].
      - cbn. now rewrite app_nil_r.
      - unfold buildList. cbn [flat_map fst snd allDefined forallb isDefinedEntry].
        fold (buildList rest). fold (allDefined rest).
        destruct (content i) as [c|]; [destruct (truthyS (Some c))|];
          rewrite IH; destruct (allDefined rest); cbn [andb app]; try reflexivity.
        now rewrite <- app_assoc.
      - reflexivity. }
    rewrite H. unfold lift. cbn [app].
    destruct (allDefined fs); reflexivity.
  - intros k a s. unfold bind, readProp, lift.
    destruct (getProp k s) as [i|]; [|reflexivity].
    destruct (content i) as [c|]; [|reflexivity].
    destruct (truthyS (Some c)); reflexivity.
  - exact Hnd.
Qed.

Lemma truthyS_spec (c : string) : truthyS (Some c) = true <-> c <> EmptyString.
Proof.
  destruct c; cbn; split; intros H; try discriminate; try reflexivity.
  now destruct H.
Qed.

Lemma buildList_In (p c : string) (fs : Files) :
  In (p, c) (buildList fs) <->
  exists i, In (p, Some i) fs /\ content i = Some c /\ c <> EmptyString.
Proof.
  unfold buildList. rewrite in_flat_map. split.
  - intros [[k v] [Hin H]]. cbn [fst snd] in H.
    destruct v as [i|]; [|destruct H].
    destruct (content i) as [c'|] eqn:Ec; [|destruct H].
    destruct (truthyS (Some c')) eqn:Et; [|destruct H].
    destruct H as [[= <- <-]|[]]. exists i. split; [assumption|].
    split; [assumption | now apply truthyS_spec].
  - intros [i [Hin [Hc Hne]]]. exists (p, Some i). split; [assumption|].
    cbn [fst snd]. rewrite Hc. apply truthyS_spec in Hne. rewrite Hne. now left.
Qed.

(** X7: on a store without [undefined] value [getBuildFiles] returns
    exactly the pairs of a path and its content for which the content is
    not empty: a pair is in the result if and only if
    [getFileContentFromPath] returns that non-empty content for the
    path.  Folders and empty files are left out. *)
Theorem getBuildFiles_lists_nonempty_files (fs : Files) :
  NoDup (keys fs) ->
  allDefined fs = true ->
  exists l,
    Explorer.getBuildFiles fs = Returned l fs /\
    forall p c,
      In (p, c) l <->
      (c <> EmptyString /\
       Explorer.getFileContentFromPath p fs = Returned (Some c) fs).
Proof.
  intros Hnd Had. rewrite getBuildFiles_eq by assumption. rewrite Had.
  exists (buildList fs). split; [reflexivity|]. intros p c.
  rewrite buildList_In. unfold Explorer.getFileContentFromPath, bind, readProp.
  split.
  - intros [i [Hin [Hc Hne]]]. split; [assumption|].
    apply In_lookup in Hin; [|assumption].
    apply getProp_Some_lookup in Hin. rewrite Hin. unfold ret. now rewrite Hc.
  - intros [Hne H]. destruct (getProp p fs) as [i|] eqn:E.
    + unfold ret in H. injection H as H. exists i.
      apply getProp_Some_lookup in E. apply lookup_In in E. now repeat split.
    + discriminate.
Qed.

(** A program file, an empty file and a folder. *)
Lemma getBuildFiles_lists_nonempty_files_witness :
  let fs := [("/src/", folderItem); ("/src/lib.rs", fileItem "mod a;" true true);
             ("/src/a.rs", fileItem "" false true)] in
  NoDup (keys fs) /\ allDefined fs = true /\
  exists l,
    Explorer.getBuildFiles fs = Returned l fs /\
    forall p c,
      In (p, c) l <->
      (c <> EmptyString /\
       Explorer.getFileContentFromPath p fs = Returned (Some c) fs).
Proof.
  intros fs.
  assert (Hnd : NoDup (keys fs)).
  { repeat constructor; cbn; intuition discriminate. }
  split; [exact Hnd|]. split; [reflexivity|].
  exact (getBuildFiles_lists_nonempty_files fs Hnd eq_refl).
Defined.

End Queries.

Section FolderContent.

Lemma existsb_eqb_In (x : string) (l : list string) :
  existsb (String.eqb x) l = true <-> In x l.
Proof.
  rewrite existsb_exists. split.
  - intros [y [Hin Heq]]. apply String.eqb_eq in Heq. now subst.
  - intros Hin. exists x. split; [assumption | apply String.eqb_refl].
Qed.

Lemma existsb_eqb_notIn (x : string) (l : list string) :
  existsb (String.eqb x) l = false <-> ~ In x l.
Proof.
  rewrite <- existsb_eqb_In. destruct (existsb (String.eqb x) l);
    split; intros H;
    [discriminate | exfalso; now apply H | intros H'; discriminate | reflexivity].
Qed.

Lemma NoDup_insert_files (x : string) (fl fo : list string) :
  NoDup (fl ++ fo) -> ~ In x fl -> ~ In x fo -> NoDup ((fl ++ [x]) ++ fo).
Proof.
  intros Hnd Hfl Hfo. rewrite <- app_assoc. cbn [app].
  apply (NoDup_Add (Add_app x fl fo)). split; [exact Hnd|].
  intros Hin. apply in_app_iff in Hin. now destruct Hin.
Qed.

Lemma NoDup_insert_folders (x : string) (fl fo : list string) :
  NoDup (fl ++ fo) -> ~ In x fl -> ~ In x fo -> NoDup (fl ++ fo ++ [x]).
Proof.
  intros Hnd Hfl Hfo. rewrite app_assoc.
  apply NoDup_app; [exact Hnd | repeat constructor; intros [] |].
  intros y Hy [<-|[]]. apply in_app_iff in Hy. now destruct Hy.
Qed.

Lemma pushItem_ok (item : string) (acc : Folder) :
  Js.includes item "/" = false ->
  listingOk acc -> listingOk (Explorer.pushItem item acc).
Proof.
  intros Hns Hok. unfold Explorer.pushItem.
  destruct (existsb (String.eqb item) (files acc)) eqn:Efl; [exact Hok|].
  destruct (existsb (String.eqb item) (folders acc)) eqn:Efo; [exact Hok|].
  destruct (String.eqb item "") eqn:Ee; [exact Hok|].
  cbn [negb andb].
  apply existsb_eqb_notIn in Efl. apply existsb_eqb_notIn in Efo.
  apply String.eqb_neq in Ee.
  destruct Hok as [Hnd [Hnames [Hfiles Hfolders]]].
  destruct (Js.includes item ".") eqn:Edot; unfold listingOk;
    cbn [files folders].
  - split; [now apply NoDup_insert_files|]. split; [|split].
    + intros x Hx. rewrite <- app_assoc in Hx. apply in_app_iff in Hx.
      destruct Hx as [Hx|[<-|Hx]]; [|now split|];
        apply Hnames; apply in_app_iff; auto.
    + intros x Hx. apply in_app_iff in Hx.
      destruct Hx as [Hx|[<-|[]]]; [now apply Hfiles | assumption].
    + exact Hfolders.
  - split; [now apply NoDup_insert_folders|]. split; [|split].
    + intros x Hx. rewrite app_assoc in Hx. apply in_app_iff in Hx.
      destruct Hx as [Hx|[<-|[]]]; [now apply Hnames | now split].
    + exact Hfiles.
    + intros x Hx. apply in_app_iff in Hx.
      destruct Hx as [Hx|[<-|[]]]; [now apply Hfolders | assumption].
Qed.

(** X8: whenever [getFolderContent] returns, for any store and any
    argument, its listing names every item once: no name is repeated or
    given both as a file and as a folder, no name is empty or contains
    the separator, every name under [files] contains a dot and no name
    under [folders] does. *)
Theorem getFolderContent_listing_ok (path : string) (fs fs' : Files)
    (r : Folder) :
  Explorer.getFolderContent path fs = Returned r fs' ->
  listingOk r.
Proof.
  unfold Explorer.getFolderContent. unfold bind at 1. unfold ownKeys at 1.
  unfold bind.
  pose proof (forIn_reading (R := Empty_set) listingOk (fun _ => True)
    (keys fs)
    (fun itemPath filesAndFolders =>
       if Js.includes itemPath path
       then match nth_error (Js.split itemPath path) 1 with
            | None => typeError
            | Some rest =>
                match Js.split rest "/" with
                | item :: _ => ret (inl (Explorer.pushItem item filesAndFolders))
                | [] => typeError
                end
            end
       else ret (inl filesAndFolders)) fs) as H.
  match type of H with ?P -> _ => assert (Hb : P) end.
  { intros k a Ha. destruct (Js.includes k path); [|now split].
    destruct (nth_error (Js.split k path) 1) as [rest|]; [|reflexivity].
    destruct (Js.split rest "/") as [|item t] eqn:Es; [reflexivity|].
    split; [reflexivity|]. apply pushItem_ok; [|exact Ha].
    pose proof (splitOn_char_pieces "/" rest) as Hp.
    rewrite split_char in Es. rewrite Es in Hp. now inversion Hp. }
  assert (H0 : listingOk (mkFolder [] [])).
  { unfold listingOk. cbn [files folders app].
    split; [constructor|]. split; [intros x []|]. split; intros x []. }
  specialize (H Hb _ H0).
  destruct (forIn _ _ _ fs) as [[a|[]] s0|s0]; cbn; try discriminate.
  intros [= <- _]. now destruct H.
Qed.

(** The listing of a source folder with a sub-folder. *)
Lemma getFolderContent_listing_ok_witness :
  let fs := [("/src/", folderItem); ("/src/lib.rs", fileItem "a" true true);
             ("/src/bin/a.rs", fileItem "b" false false);
             ("/src/bin/b.rs", fileItem "c" false false)] in
  Explorer.getFolderContent "/src/" fs =
    Returned (mkFolder ["bin"] ["lib.rs"]) fs /\
  listingOk (mkFolder ["bin"] ["lib.rs"]).
Proof.
  intros fs.
  assert (H : Explorer.getFolderContent "/src/" fs =
              Returned (mkFolder ["bin"] ["lib.rs"]) fs) by reflexivity.
  split; [exact H|].
  exact (getFolderContent_listing_ok "/src/" fs fs _ H).
Defined.

End FolderContent.

Section FolderChildren.

Lemma forIn_reading_visits {A R : Type} (J I : A -> Prop)
    (ks : list string) (body : string -> A -> M (A + R)) (s : Files)
    (k0 : string) :
  (forall k a, J a ->
     match body k a s with
     | Returned (inl a') s' =>
         s' = s /\ J a' /\ (I a -> I a') /\ (k = k0 -> I a')
     | Returned (inr _) s' => s' = s
     | Raised s' => s' = s
     end) ->
  hasProp k0 s = true ->
  forall acc, J acc -> I acc \/ In k0 ks ->
  forall a' s', forIn ks body acc s = Returned (inl a') s' -> I a'.
Proof.
  intros Hbody Hk0. induction ks as [|k rest IH]; intros acc HJ Hcase a' s';
    cbn [forIn].
  - unfold ret. intros [= <- _]. destruct Hcase as [H|[]]. exact H.
  - unfold bind at 1. unfold stillThere.
    destruct (hasProp k s) eqn:Ek.
    + unfold bind. specialize (Hbody k acc HJ).
      destruct (body k acc s) as [[a1|r] s1|s1]; try discriminate.
      destruct Hbody as [-> [HJ1 [Hkeep Hhere]]].
      apply IH; [exact HJ1|].
      destruct Hcase as [H|[->|H]]; [left; auto | left; auto | now right].
    + apply IH; [exact HJ|].
      destruct Hcase as [H|[->|H]]; [now left | congruence | now right].
Qed.

Lemma prefix_app_self (a b : string) : String.prefix a (a ++ b) = true.
Proof.
  induction a as [|c r IH]; cbn [append String.prefix]; [apply prefix_empty|].
  now destruct (ascii_dec c c).
Qed.

Lemma includes_app_self (a b : string) : Js.includes (a ++ b) a = true.
Proof.
  pose proof (prefix_app_self a b) as H.
  destruct (a ++ b)%string; cbn [Js.includes]; now rewrite H.
Qed.

Lemma splitOn_skip (sep a b : string) :
  Js.splitOn sep (String.length a) (a ++ b) = Js.splitOn sep 0 b.
Proof.
  induction a as [|c r IH]; cbn [append String.length]; [reflexivity|].
  cbn [Js.splitOn]. exact IH.
Qed.

(** The pieces of a text that starts with the separator. *)
Lemma splitOn_self (sep b : string) :
  sep <> EmptyString ->
  Js.splitOn sep 0 (sep ++ b) = EmptyString :: Js.splitOn sep 0 b.
Proof.
  intros Hne. destruct sep as [|c r]; [now destruct Hne|].
  cbn [append]. cbn [Js.splitOn].
  change (String c (r ++ b)) with (String c r ++ b)%string.
  rewrite prefix_app_self. cbn [String.length Nat.sub].
  rewrite Nat.sub_0_r. now rewrite splitOn_skip.
Qed.

(** A name without separator stays at the head of the first piece when
    the text is split at a path that starts with the separator. *)
Lemma splitOn_after_name (path name w : string) :
  Js.startsWith path "/" = true ->
  Js.includes name "/" = false ->
  Js.splitOn path 0 (name ++ w) =
  match Js.splitOn path 0 w with
  | h :: t => (name ++ h)%string :: t
  | [] => [name]
  end.
Proof.
  intros Hp Hn. induction name as [|c r IH]; cbn [append].
  - pose proof (splitOn_nonempty path w 0) as Hne.
    destruct (Js.splitOn path 0 w); [now destruct Hne | reflexivity].
  - rewrite includes_char_cons in Hn. apply orb_false_iff in Hn.
    destruct Hn as [Hc Hr]. specialize (IH Hr).
    cbn [Js.splitOn].
    assert (Hpre : String.prefix path (String c (r ++ w)) = false).
    { unfold Js.startsWith in Hp. destruct path as [|d path']; [discriminate|].
      cbn [String.prefix] in *. destruct (ascii_dec "/" d) as [<-|]; [|discriminate].
      destruct (ascii_dec "/" c) as [<-|]; [discriminate | reflexivity]. }
    rewrite Hpre, IH.
    destruct (Js.splitOn path 0 w); reflexivity.
Qed.

Lemma first_piece_of_tail (path w : string) :
  path <> EmptyString ->
  w = EmptyString \/ Js.startsWith w "/" = true ->
  exists h t,
    Js.splitOn path 0 w = h :: t /\
    (h = EmptyString \/ exists h', h = String "/" h').
Proof.
  intros Hne [->|Hw].
  - exists EmptyString, []. split; [reflexivity | now left].
  - destruct w as [|c r]; [discriminate|].
    unfold Js.startsWith in Hw. cbn [String.prefix] in Hw.
    destruct (ascii_dec "/" c) as [<-|]; [|discriminate].
    cbn [Js.splitOn]. destruct (String.prefix path (String "/" r)).
    + do 2 eexists. split; [reflexivity | now left].
    + destruct (Js.splitOn path 0 r) as [|h t];
        do 2 eexists; (split; [reflexivity | right; eexists; reflexivity]).
Qed.

Lemma pushItem_lists (name item : string) (acc : Folder) :
  listingOk acc ->
  name <> EmptyString ->
  (listed name acc -> listed name (Explorer.pushItem item acc)) /\
  (item = name -> listed name (Explorer.pushItem item acc)).
Proof.
  intros [_ [_ [Hfiles Hfolders]]] Hne. unfold Explorer.pushItem, listed.
  destruct (existsb (String.eqb item) (files acc)) eqn:Efl.
  { cbn [negb andb]. split; [auto|]. intros ->.
    apply existsb_eqb_In in Efl. now rewrite (Hfiles _ Efl). }
  destruct (existsb (String.eqb item) (folders acc)) eqn:Efo.
  { cbn [negb andb]. split; [auto|]. intros ->.
    apply existsb_eqb_In in Efo. now rewrite (Hfolders _ Efo). }
  destruct (String.eqb item "") eqn:Ee.
  { cbn [negb andb]. split; [auto|]. intros ->.
    apply String.eqb_eq in Ee. now destruct Hne. }
  cbn [negb andb]. destruct (Js.includes item ".") eqn:Ed; cbn [files folders].
  - split.
    + destruct (Js.includes name "."); [|auto]. intros H. apply in_app_iff. now left.
    + intros ->. rewrite Ed. apply in_app_iff. right. now left.
  - split.
    + destruct (Js.includes name "."); [auto|]. intros H. apply in_app_iff. now left.
    + intros ->. rewrite Ed. apply in_app_iff. right. now left.
Qed.

(** The listing of a folder shows the first segment of every key under
    the folder. *)
Lemma folderContent_lists (path name w : string)
    (fs fs' : Files) (r : Folder) :
  Js.startsWith path "/" = true ->
  name <> EmptyString ->
  Js.includes name "/" = false ->
  w = EmptyString \/ Js.startsWith w "/" = true ->
  hasProp (path ++ (name ++ w)) fs = true ->
  Explorer.getFolderContent path fs = Returned r fs' ->
  listed name r.
Proof.
  intros Hp Hne Hns Hw Hkey.
  assert (Hpne : path <> EmptyString) by (intros ->; discriminate).
  unfold Explorer.getFolderContent. unfold bind at 1. unfold ownKeys at 1.
  unfold bind.
  pose proof (forIn_reading_visits (R := Empty_set) listingOk (listed name)
    (keys fs)
    (fun itemPath filesAndFolders =>
       if Js.includes itemPath path
       then match nth_error (Js.split itemPath path) 1 with
            | None => typeError
            | Some rest =>
                match Js.split rest "/" with
                | item :: _ => ret (inl (Explorer.pushItem item filesAndFolders))
                | [] => typeError
                end
            end
       else ret (inl filesAndFolders)) fs (path ++ (name ++ w))%string) as H.
  match type of H with ?P -> _ => assert (Hb : P) end.
  { intros k a Ha. destruct (Js.includes k path) eqn:Einc.
    - destruct (nth_error (Js.split k path) 1) as [rest|] eqn:Er; [|reflexivity].
      destruct (Js.split rest "/") as [|item t] eqn:Es; [reflexivity|].
      cbn [ret]. split; [reflexivity|].
      assert (Hitem : Js.includes item "/" = false).
      { pose proof (splitOn_char_pieces "/" rest) as Hpc.
        rewrite split_char in Es. rewrite Es in Hpc. now inversion Hpc. }
      split; [now apply pushItem_ok|].
      destruct (pushItem_lists name item a Ha Hne) as [Hkeep Hnew].
      split; [exact Hkeep|]. intros ->. apply Hnew.
      (* the piece after the folder path starts with the name *)
      unfold Js.split in Er. destruct path as [|pc pr] eqn:Epath;
        [now destruct Hpne|]. rewrite <- Epath in *.
      rewrite splitOn_self in Er by assumption. cbn [nth_error] in Er.
      rewrite splitOn_after_name in Er by assumption.
      destruct (first_piece_of_tail path w Hpne Hw) as [h [t' [Hsp Hh]]].
      rewrite Hsp in Er. cbn [nth_error] in Er. injection Er as <-.
      rewrite split_char in Es.
      destruct Hh as [->|[h' ->]].
      + replace (name ++ "")%string with name in Es
          by (clear; induction name; cbn; congruence).
        rewrite splitOn_char_none in Es by assumption. now injection Es.
      + rewrite splitOn_char_app, splitOn_char_none in Es by assumption.
        now injection Es.
    - cbn [ret]. split; [reflexivity|]. split; [exact Ha|]. split; [auto|].
      intros ->. now rewrite includes_app_self in Einc. }
  assert (H0 : listingOk (mkFolder [] [])).
  { unfold listingOk. cbn [files folders app].
    split; [constructor|]. split; [intros x []|]. split; intros x []. }
  assert (Hin : In (path ++ (name ++ w))%string (keys fs))
    by now apply hasProp_In.
  specialize (H Hb Hkey _ H0 (or_intror Hin)).
  destruct (forIn _ _ _ fs) as [[a|[]] s0|s0] eqn:E; cbn; try discriminate.
  intros [= <- _]. exact (H a s0 eq_refl).
Qed.

(** X9: for a folder path that starts with the separator, every key of
    the store that lies under the folder is shown in its listing by its
    first segment: when [getFolderContent] returns, the first segment
    that follows the folder path in such a key is listed, among the
    files if it contains a dot and among the folders otherwise. *)
Theorem getFolderContent_lists_children (path name w : string)
    (fs fs' : Files) (r : Folder) :
  Js.startsWith path "/" = true ->
  name <> EmptyString ->
  Js.includes name "/" = false ->
  w = EmptyString \/ Js.startsWith w "/" = true ->
  hasProp (path ++ (name ++ w)) fs = true ->
  Explorer.getFolderContent path fs = Returned r fs' ->
  listed name r.
Proof.
  exact (folderContent_lists path name w fs fs' r).
Qed.

(** A file and a nested file under [/src/]. *)
Lemma getFolderContent_lists_children_witness :
  let fs := [("/src/lib.rs", fileItem "a" true true);
             ("/src/bin/a.rs", fileItem "b" false false)] in
  Js.startsWith "/src/" "/" = true /\
  "bin" <> EmptyString /\
  Js.includes "bin" "/" = false /\
  ("/a.rs" = EmptyString \/ Js.startsWith "/a.rs" "/" = true) /\
  hasProp "/src/bin/a.rs" fs = true /\
  Explorer.getFolderContent "/src/" fs =
    Returned (mkFolder ["bin"] ["lib.rs"]) fs /\
  listed "bin" (mkFolder ["bin"] ["lib.rs"]).
Proof.
  intros fs.
  assert (Hne : "bin" <> EmptyString) by discriminate.
  assert (Hw : "/a.rs" = EmptyString \/ Js.startsWith "/a.rs" "/" = true)
    by now right.
  assert (H : Explorer.getFolderContent "/src/" fs =
              Returned (mkFolder ["bin"] ["lib.rs"]) fs) by reflexivity.
  split; [reflexivity|]. split; [exact Hne|]. split; [reflexivity|].
  split; [exact Hw|]. split; [reflexivity|]. split; [exact H|].
  exact (getFolderContent_lists_children "/src/" "bin" "/a.rs" fs fs _
           eq_refl Hne eq_refl Hw eq_refl H).
Defined.

End FolderChildren.

(** * Further properties of the mutations *)

Section CurrentFileResult.

Lemma currentOf_shape (fs : Files) (f : FullFile) :
  currentOf fs = Some (Some f) ->
  exists i, In (f_path f, Some i) fs /\ truthyB (current i) = true /\
            f = mkFull (f_path f) (content i) None None.
Proof.
  induction fs as [|[k [i|]] r IH]; cbn [currentOf]; try discriminate.
  destruct (truthyB (current i)) eqn:E.
  - intros [= <-]. exists i. cbn. repeat split; auto.
  - intros H. destruct (IH H) as [j [Hin Hj]]. exists j. split; [now right | exact Hj].
Qed.

(** What [getCurrentFile] returns when one entry is current. *)
Lemma getCurrentFile_of_unique (k : string) (i : ItemInfo) (s : Files) :
  wellFormed s ->
  countCurrent s <= 1 ->
  lookup k s = Some (Some i) ->
  truthyB (current i) = true ->
  Explorer.getCurrentFile s = Returned (Some (mkFull k (content i) None None)) s.
Proof.
  intros Hwf Hc Hl Hi. pose proof Hwf as [Hnd _].
  rewrite getCurrentFile_eq by assumption.
  destruct (currentOf_unique k i s Hwf Hc Hl Hi) as [f [Hf Hk]].
  rewrite Hf. unfold lift.
  destruct (currentOf_shape s f Hf) as [j [Hin [_ Hshape]]].
  apply In_lookup in Hin; [|assumption]. rewrite Hk in Hin.
  rewrite Hl in Hin. injection Hin as <-. rewrite Hshape, Hk. reflexivity.
Qed.

Lemma getCurrentFile_of_none (s : Files) :
  wellFormed s ->
  countCurrent s = 0 ->
  Explorer.getCurrentFile s = Returned None s.
Proof.
  intros [Hnd Had] Hc. rewrite getCurrentFile_eq by assumption.
  destruct (currentOf_defined s Had) as [[f|] Hr]; rewrite Hr; [|reflexivity].
  destruct (currentOf_shape s f Hr) as [j [Hin [Hj _]]].
  apply In_lookup in Hin; [|assumption].
  pose proof (count_lookup_le _ _ _ Hin) as Hle.
  unfold isCurrentEntry in Hle. cbn [snd] in Hle. rewrite Hj in Hle.
  cbn [b2n] in Hle. lia.
Qed.

(** The store after [changeCurrentFile] on a key that holds an item, when
    the path is absolute or the tab is open already. *)
Lemma changeCurrentFile_result (k : string) (i : ItemInfo) (s : Files) :
  wellFormed s ->
  lookup k s = Some (Some i) ->
  Js.startsWith k "/" = true \/ truthyB (tabs i) = true ->
  exists R,
    Explorer.changeCurrentFile k s = Returned tt R /\
    wellFormed R /\
    keys R = keys s /\
    lookup k R = Some (Some (mkItem (content i) (Some true) (Some true))) /\
    (forall q iq, q <> k -> lookup q s = Some (Some iq) ->
       exists iq', lookup q R = Some (Some iq') /\
                   tabs iq' = tabs iq /\ content iq' = content iq).
Proof.
  intros Hwf Hl Hcond. pose proof Hwf as [Hnd Had].
  pose proof (keysKept_changeCurrentFile k s) as Hkeys.
  rewrite changeCurrentFile_eq in * by assumption.
  destruct (clearCurrent_lookup k i s Hnd Hl) as [i1 [Hl1 [Ht1 Hc1]]].
  assert (Hg1 : getProp k (clearCurrent s) = Some i1)
    by now apply getProp_Some_lookup.
  rewrite Hg1 in *. cbv zeta in *. cbn [storeOf] in Hkeys.
  set (s2 := setProp k (Some (withCurrent true i1)) (clearCurrent s)) in *.
  set (new := mkItem (content i) (Some true) (Some true)).
  assert (Hfinal : (if Explorer.indexHits (length (tabList s2)) k then s2
                    else setProp k (Some (withTabs true (withCurrent true i1))) s2)
                   = setProp k (Some new) (clearCurrent s)).
  { destruct (Explorer.indexHits (length (tabList s2)) k) eqn:Ehit.
    - destruct Hcond as [Habs|Ht].
      + now rewrite indexHits_absolute in Ehit.
      + unfold s2, new. do 2 f_equal. unfold withCurrent.
        rewrite Hc1, Ht1. now rewrite (truthyB_true _ Ht).
    - unfold s2. rewrite setProp_setProp. unfold new, withTabs, withCurrent.
      cbn [content current tabs]. now rewrite Hc1. }
  rewrite Hfinal in *. exists (setProp k (Some new) (clearCurrent s)).
  split; [reflexivity|]. split.
  { apply wellFormed_setProp. now apply wellFormed_clearCurrent. }
  split; [exact Hkeys|]. split.
  { rewrite lookup_setProp. now rewrite String.eqb_refl. }
  intros q iq Hne Hq.
  destruct (clearCurrent_lookup q iq s Hnd Hq) as [iq' [Hq' [Htq Hcq]]].
  exists iq'. split; [|now split].
  rewrite lookup_setProp. apply not_eq_sym in Hne.
  apply String.eqb_neq in Hne. now rewrite Hne.
Qed.

Lemma count_current_entry (k : string) (i : ItemInfo) (s : Files) :
  lookup k s = Some (Some i) ->
  truthyB (current i) = true ->
  1 <= countCurrent s.
Proof.
  intros Hl Hi. pose proof (count_lookup_le k (Some i) s Hl) as H.
  unfold isCurrentEntry in H. cbn [snd] in H. now rewrite Hi in H.
Qed.

(** The open tabs, read off the keys. *)
Lemma tabPaths_keys (s : Files) :
  NoDup (keys s) ->
  map f_path (tabList s) = filter (fun q => isTabAt q s) (keys s).
Proof.
  intros Hnd. rewrite tabList_paths.
  assert (H : forall l, incl l s ->
            map fst (filter isTabEntry l) =
            filter (fun q => isTabAt q s) (map fst l)).
  { induction l as [|[k v] r IH]; intros Hincl; [reflexivity|].
    cbn [filter map fst].
    assert (Hl : lookup k s = Some v)
      by (apply In_lookup; [assumption | apply Hincl; now left]).
    assert (Hsame : isTabAt k s = isTabEntry (k, v)).
    { unfold isTabAt, isTabEntry, getProp. rewrite Hl. reflexivity. }
    rewrite Hsame. rewrite <- IH by (intros x Hx; apply Hincl; now right).
    now destruct (isTabEntry (k, v)). }
  apply H. apply incl_refl.
Qed.

End CurrentFileResult.

Section NewItemAndCurrent.

(** X10: when [newItem], called with a path that contains the separator,
    reports an error nothing has been written: the store is exactly as
    before, [InvalidName] means that the item name of the path is not
    valid, and [AlreadyExists] means that the path holds an item. *)
Theorem newItem_error_leaves_store (p : string) (fs fs' : Files)
    (e : ItemError) :
  isPath p = true ->
  Explorer.newItem p fs = Returned (Some e) fs' ->
  fs' = fs /\
  match e with
  | InvalidName =>
      exists name, PgExplorer.getItemNameFromPath p = Some name /\
                   PgExplorer.isItemNameValid name = false
  | AlreadyExists =>
      exists i, getProp p fs = Some i
  end.
Proof.
  intros _. unfold Explorer.newItem.
  destruct (PgExplorer.getItemNameFromPath p) as [name|]; [|discriminate].
  destruct (PgExplorer.isItemNameValid name) eqn:Ev; cbn [negb].
  - unfold bind at 1. unfold readProp.
    destruct (getProp p fs) as [i|] eqn:Eg.
    + unfold ret. intros [= <- <-]. split; [reflexivity | now exists i].
    + destruct (PgExplorer.getItemTypeFromPath p).
      * unfold bind, writeProp, ret. discriminate.
      * unfold bind at 1. unfold writeProp. unfold bind.
        destruct (Explorer.changeCurrentFile p _); discriminate.
  - unfold ret. intros [= <- <-]. split; [reflexivity | now exists name].
Qed.

(** Creating a file that is there already. *)
Lemma newItem_error_leaves_store_witness :
  let fs := [("/src/lib.rs", fileItem "x" true true)] in
  isPath "/src/lib.rs" = true /\
  Explorer.newItem "/src/lib.rs" fs = Returned (Some AlreadyExists) fs /\
  fs = fs /\ exists i, getProp "/src/lib.rs" fs = Some i.
Proof.
  intros fs.
  assert (H : Explorer.newItem "/src/lib.rs" fs =
              Returned (Some AlreadyExists) fs) by reflexivity.
  split; [reflexivity|]. split; [exact H|].
  exact (newItem_error_leaves_store "/src/lib.rs" fs fs AlreadyExists
           eq_refl H).
Defined.

(** X11: creating a file under a valid name at a free path that contains
    the separator, in a store without [undefined] value and with at most
    one current file, appends
    one entry with empty content that is an open tab and the only
    current file: [getCurrentFile] then returns the new path with empty
    content; every other entry keeps its content and its tab flag. *)
Theorem newItem_file_becomes_current (p name : string) (fs : Files) :
  NoDup (keys fs) ->
  allDefined fs = true ->
  countCurrent fs <= 1 ->
  isPath p = true ->
  PgExplorer.getItemTypeFromPath p = IsFile ->
  PgExplorer.getItemNameFromPath p = Some name ->
  PgExplorer.isItemNameValid name = true ->
  getProp p fs = None ->
  exists fs',
    Explorer.newItem p fs = Returned None fs' /\
    keys fs' = keys fs ++ [p] /\
    lookup p fs' = Some (Some (mkItem (Some "") (Some true) (Some true))) /\
    countCurrent fs' = 1 /\
    Explorer.getCurrentFile fs' =
      Returned (Some (mkFull p (Some "") None None)) fs' /\
    (forall q iq, q <> p -> lookup q fs = Some (Some iq) ->
       exists iq', lookup q fs' = Some (Some iq') /\
                   tabs iq' = tabs iq /\ content iq' = content iq).
Proof.
  intros Hnd Had Hc _ Htype Hname Hvalid Hfree.
  assert (Hone : oneCurrent fs) by (repeat split; assumption).
  assert (Hnew : hasProp p fs = false) by now apply allDefined_getProp_None.
  set (new := mkItem (Some "") (Some true) (Some true)).
  set (s := setProp p (Some new) fs).
  assert (Hs : s = fs ++ [(p, Some new)]) by now apply setProp_absent.
  assert (Hwf : wellFormed s) by (apply wellFormed_setProp; now split).
  assert (Hl : lookup p s = Some (Some new)).
  { unfold s. rewrite lookup_setProp. now rewrite String.eqb_refl. }
  destruct (changeCurrentFile_result p new s Hwf Hl (or_intror eq_refl))
    as [R [HR [HwfR [Hkeys [HlR Hothers]]]]].
  pose proof (changeCurrentFile_appended p new fs Hone Hnew eq_refl) as HoneR.
  rewrite <- Hs, HR in HoneR. cbn [storeOf] in HoneR.
  destruct HoneR as [_ HcR].
  exists R. split.
  { unfold Explorer.newItem. rewrite Hname, Hvalid, Htype. cbn [negb].
    unfold bind at 1. unfold readProp. rewrite Hfree.
    unfold bind at 1. unfold writeProp. fold new. fold s.
    unfold bind. now rewrite HR. }
  split.
  { rewrite Hkeys, Hs. unfold keys. now rewrite map_app. }
  split; [exact HlR|].
  assert (Hge : 1 <= countCurrent R)
    by (apply (count_current_entry p _ R HlR); reflexivity).
  split; [lia|]. split.
  - apply (getCurrentFile_of_unique p _ R HwfR HcR HlR). reflexivity.
  - intros q iq Hne Hq. apply Hothers; [assumption|].
    unfold s. rewrite lookup_setProp. apply not_eq_sym in Hne.
    apply String.eqb_neq in Hne. now rewrite Hne.
Qed.

(** Scenario: [main.rs] is created next to the current [lib.rs]. *)
Lemma newItem_file_becomes_current_witness :
  let fs := [("/src/", folderItem); ("/src/lib.rs", fileItem "x" true true)] in
  NoDup (keys fs) /\ allDefined fs = true /\ countCurrent fs <= 1 /\
  isPath "/src/main.rs" = true /\
  PgExplorer.getItemTypeFromPath "/src/main.rs" = IsFile /\
  PgExplorer.getItemNameFromPath "/src/main.rs" = Some "main.rs" /\
  PgExplorer.isItemNameValid "main.rs" = true /\
  getProp "/src/main.rs" fs = None /\
  exists fs',
    Explorer.newItem "/src/main.rs" fs = Returned None fs' /\
    keys fs' = keys fs ++ ["/src/main.rs"] /\
    lookup "/src/main.rs" fs' =
      Some (Some (mkItem (Some "") (Some true) (Some true))) /\
    countCurrent fs' = 1 /\
    Explorer.getCurrentFile fs' =
      Returned (Some (mkFull "/src/main.rs" (Some "") None None)) fs' /\
    (forall q iq, q <> "/src/main.rs" -> lookup q fs = Some (Some iq) ->
       exists iq', lookup q fs' = Some (Some iq') /\
                   tabs iq' = tabs iq /\ content iq' = content iq).
Proof.
  intros fs.
  assert (Hnd : NoDup (keys fs)).
  { repeat constructor; cbn; intuition discriminate. }
  assert (Hc : countCurrent fs <= 1) by (vm_compute; lia).
  split; [exact Hnd|]. split; [reflexivity|]. split; [exact Hc|].
  split; [reflexivity|].
  split; [reflexivity|]. split; [reflexivity|]. split; [reflexivity|].
  split; [reflexivity|].
  exact (newItem_file_becomes_current "/src/main.rs" "main.rs" fs
           Hnd eq_refl Hc eq_refl eq_refl eq_refl eq_refl eq_refl).
Defined.

(** X12: [changeCurrentFile] on an absolute path that holds an item, in a
    store without [undefined] value and with at most one current file,
    makes that entry the only current file and an open tab, keeps its
    content and adds no key: [getCurrentFile] then returns the path with
    that content; every other entry keeps its content and its tab flag. *)
Theorem changeCurrentFile_makes_current (p : string) (i : ItemInfo)
    (fs : Files) :
  NoDup (keys fs) ->
  allDefined fs = true ->
  countCurrent fs <= 1 ->
  Js.startsWith p "/" = true ->
  getProp p fs = Some i ->
  exists fs',
    Explorer.changeCurrentFile p fs = Returned tt fs' /\
    keys fs' = keys fs /\
    getProp p fs' = Some (mkItem (content i) (Some true) (Some true)) /\
    countCurrent fs' = 1 /\
    Explorer.getCurrentFile fs' =
      Returned (Some (mkFull p (content i) None None)) fs' /\
    (forall q iq, q <> p -> lookup q fs = Some (Some iq) ->
       exists iq', lookup q fs' = Some (Some iq') /\
                   tabs iq' = tabs iq /\ content iq' = content iq).
Proof.
  intros Hnd Had Hc Habs Hg.
  assert (Hwf : wellFormed fs) by now split.
  apply getProp_Some_lookup in Hg.
  destruct (changeCurrentFile_result p i fs Hwf Hg (or_introl Habs))
    as [R [HR [HwfR [Hkeys [HlR Hothers]]]]].
  pose proof (changeCurrentFile_oneCurrent p fs (conj Hwf Hc)) as HoneR.
  rewrite HR in HoneR. cbn [storeOf] in HoneR. destruct HoneR as [_ HcR].
  exists R. split; [exact HR|]. split; [exact Hkeys|]. split.
  { now apply getProp_Some_lookup. }
  assert (Hge : 1 <= countCurrent R)
    by (apply (count_current_entry p _ R HlR); reflexivity).
  split; [lia|]. split; [|exact Hothers].
  apply (getCurrentFile_of_unique p _ R HwfR HcR HlR). reflexivity.
Qed.

(** Switching from [lib.rs] to a file whose tab is closed. *)
Lemma changeCurrentFile_makes_current_witness :
  let fs := [("/src/lib.rs", fileItem "x" true true);
             ("/src/main.rs", fileItem "y" false false)] in
  NoDup (keys fs) /\ allDefined fs = true /\ countCurrent fs <= 1 /\
  Js.startsWith "/src/main.rs" "/" = true /\
  getProp "/src/main.rs" fs = Some (mkItem (Some "y") (Some false) (Some false)) /\
  exists fs',
    Explorer.changeCurrentFile "/src/main.rs" fs = Returned tt fs' /\
    keys fs' = keys fs /\
    getProp "/src/main.rs" fs' =
      Some (mkItem (Some "y") (Some true) (Some true)) /\
    countCurrent fs' = 1 /\
    Explorer.getCurrentFile fs' =
      Returned (Some (mkFull "/src/main.rs" (Some "y") None None)) fs' /\
    (forall q iq, q <> "/src/main.rs" -> lookup q fs = Some (Some iq) ->
       exists iq', lookup q fs' = Some (Some iq') /\
                   tabs iq' = tabs iq /\ content iq' = content iq).
Proof.
  intros fs.
  assert (Hnd : NoDup (keys fs)).
  { repeat constructor; cbn; intuition discriminate. }
  assert (Hc : countCurrent fs <= 1) by (vm_compute; lia).
  split; [exact Hnd|]. split; [reflexivity|]. split; [exact Hc|].
  split; [reflexivity|]. split; [reflexivity|].
  exact (changeCurrentFile_makes_current "/src/main.rs" _ fs
           Hnd eq_refl Hc eq_refl eq_refl).
Defined.

(** X13: on a path that contains the separator and holds no item both
    bookkeeping calls raise a [TypeError]: [removeFromTabs] leaves the
    store as it was, but
    [changeCurrentFile] has by then cleared the current flag, so that no
    file is current afterwards and [getCurrentFile] returns [null]. *)
Theorem missing_path_raises (p : string) (fs : Files) :
  NoDup (keys fs) ->
  allDefined fs = true ->
  countCurrent fs <= 1 ->
  isPath p = true ->
  getProp p fs = None ->
  Explorer.removeFromTabs p fs = Raised fs /\
  exists fs',
    Explorer.changeCurrentFile p fs = Raised fs' /\
    keys fs' = keys fs /\
    countCurrent fs' = 0 /\
    Explorer.getCurrentFile fs' = Returned None fs'.
Proof.
  intros Hnd Had Hc _ Hg.
  assert (Hwf : wellFormed fs) by now split.
  split; [rewrite removeFromTabs_eq; now rewrite Hg|].
  exists (clearCurrent fs).
  assert (Hg1 : getProp p (clearCurrent fs) = None).
  { destruct (getProp p (clearCurrent fs)) as [i1|] eqn:E; [|reflexivity].
    apply getProp_Some_hasProp in E. apply hasProp_In in E.
    rewrite keys_clearCurrent in E. apply hasProp_In in E.
    pose proof (allDefined_getProp_None p fs Had Hg). congruence. }
  assert (Hc1 : countCurrent (clearCurrent fs) = 0)
    by (rewrite count_clearCurrent by assumption; lia).
  split; [rewrite changeCurrentFile_eq by assumption; now rewrite Hg1|].
  split; [apply keys_clearCurrent|]. split; [exact Hc1|].
  apply getCurrentFile_of_none; [now apply wellFormed_clearCurrent | exact Hc1].
Qed.

(** A click on a file that was deleted meanwhile. *)
Lemma missing_path_raises_witness :
  let fs := [("/src/lib.rs", fileItem "x" true true)] in
  NoDup (keys fs) /\ allDefined fs = true /\ countCurrent fs <= 1 /\
  isPath "/src/gone.rs" = true /\
  getProp "/src/gone.rs" fs = None /\
  Explorer.removeFromTabs "/src/gone.rs" fs = Raised fs /\
  exists fs',
    Explorer.changeCurrentFile "/src/gone.rs" fs = Raised fs' /\
    keys fs' = keys fs /\
    countCurrent fs' = 0 /\
    Explorer.getCurrentFile fs' = Returned None fs'.
Proof.
  intros fs.
  assert (Hnd : NoDup (keys fs)).
  { repeat constructor; cbn; intuition discriminate. }
  assert (Hc : countCurrent fs <= 1) by (vm_compute; lia).
  split; [exact Hnd|]. split; [reflexivity|]. split; [exact Hc|].
  split; [reflexivity|]. split; [reflexivity|].
  exact (missing_path_raises "/src/gone.rs" fs Hnd eq_refl Hc eq_refl eq_refl).
Defined.

End NewItemAndCurrent.

Section CloseTab.

Lemma isTabAt_setProp (q k : string) (v : option ItemInfo) (s : Files) :
  isTabAt q (setProp k v s) =
  if String.eqb k q
  then match v with Some i => truthyB (tabs i) | None => false end
  else isTabAt q s.
Proof.
  unfold isTabAt. rewrite getProp_setProp. now destruct (String.eqb k q).
Qed.

(** The open tabs after the tab flag of [p] is cleared. *)
Lemma tabPaths_closed (p : string) (ip : ItemInfo) (fs : Files) :
  NoDup (keys fs) ->
  getProp p fs = Some ip ->
  map f_path (tabList (setProp p (Some (withTabs false ip)) fs)) =
  filter (fun q => negb (String.eqb q p)) (map fst (filter isTabEntry fs)).
Proof.
  intros Hnd Hg.
  rewrite tabPaths_keys by now apply NoDup_setProp.
  rewrite keys_setProp_present by now apply getProp_Some_hasProp in Hg.
  rewrite <- tabList_paths, tabPaths_keys by assumption.
  rewrite filter_twice. apply filter_ext. intros q.
  rewrite isTabAt_setProp, (String.eqb_sym p q).
  destruct (String.eqb q p); cbn [negb andb withTabs tabs truthyB];
    [now rewrite andb_false_r | now rewrite andb_true_r].
Qed.

(** X14: closing the tab of a path that holds an item while another tab
    is open, in a store without [undefined] value and with at most one
    current file: afterwards [getTabs] returns the tabs that were open
    before, in their order and without the closed path, and the last of
    them is the only current file, which [getCurrentFile] returns. *)
Theorem removeFromTabs_moves_to_last_tab (p : string) (ip : ItemInfo)
    (fs : Files) :
  NoDup (keys fs) ->
  allDefined fs = true ->
  countCurrent fs <= 1 ->
  getProp p fs = Some ip ->
  otherTabOpen p fs = true ->
  exists fs' t l,
    Explorer.removeFromTabs p fs = Returned tt fs' /\
    Explorer.getTabs fs' = Returned (t ++ [l]) fs' /\
    map f_path (t ++ [l]) =
      filter (fun q => negb (String.eqb q p))
        (map fst (filter isTabEntry fs)) /\
    f_current l = Some true /\
    Explorer.getCurrentFile fs' =
      Returned (Some (mkFull (f_path l) (f_content l) None None)) fs' /\
    countCurrent fs' = 1.
Proof.
  intros Hnd Had Hc Hg Hother.
  set (s1 := setProp p (Some (withTabs false ip)) fs).
  assert (Hwf1 : wellFormed s1) by (apply wellFormed_setProp; now split).
  assert (Hone1 : oneCurrent s1).
  { apply (setProp_sameCurrent_oneCurrent p ip); auto. repeat split; assumption. }
  pose proof Hwf1 as [Hnd1 Had1].
  assert (Hne1 : tabList s1 <> []).
  { unfold otherTabOpen in Hother. apply existsb_exists in Hother.
    destruct Hother as [[k v] [Hin Hk]]. cbn [fst] in Hk.
    apply andb_true_iff in Hk. destruct Hk as [Hne Hv].
    apply negb_true_iff in Hne.
    unfold isTabEntry in Hv. cbn [snd] in Hv.
    destruct v as [i|]; [|discriminate].
    apply In_lookup in Hin; [|assumption].
    apply (tabList_nonempty k i); [|assumption].
    apply lookup_In. unfold s1. rewrite lookup_setProp.
    rewrite String.eqb_sym. now rewrite Hne. }
  destruct (List.rev (tabList s1)) as [|l0 rest0] eqn:Erev.
  { exfalso. apply Hne1. apply (f_equal (@List.rev FullFile)) in Erev.
    now rewrite rev_involutive in Erev. }
  assert (Hin0 : In l0 (tabList s1)) by (apply in_rev; rewrite Erev; now left).
  destruct (tabList_In l0 s1 Hin0) as [i0 [Hl0 Ht0]].
  apply In_lookup in Hl0; [|assumption].
  destruct (changeCurrentFile_result (f_path l0) i0 s1 Hwf1 Hl0 (or_intror Ht0))
    as [R [HR [HwfR [Hkeys [HlR Hothers]]]]].
  pose proof (changeCurrentFile_oneCurrent (f_path l0) s1 Hone1) as HoneR.
  rewrite HR in HoneR. cbn [storeOf] in HoneR. destruct HoneR as [_ HcR].
  pose proof HwfR as [HndR HadR].
  assert (Hpaths : map f_path (tabList R) = map f_path (tabList s1)).
  { rewrite !tabPaths_keys by assumption. rewrite Hkeys.
    apply filter_ext_in. intros q Hq.
    destruct (String.eqb q (f_path l0)) eqn:Eq.
    - apply String.eqb_eq in Eq. subst q. unfold isTabAt, getProp.
      rewrite HlR, Hl0. cbn. now rewrite Ht0.
    - apply String.eqb_neq in Eq. apply hasProp_In in Hq.
      destruct (wellFormed_getProp q s1 Hwf1 Hq) as [iq Hiq].
      apply getProp_Some_lookup in Hiq.
      destruct (Hothers q iq Eq Hiq) as [iq' [Hq' [Htq _]]].
      unfold isTabAt, getProp. now rewrite Hq', Hiq, Htq. }
  destruct (rev_head_path s1 R l0 rest0 Hpaths Erev) as [l [rest [ErevR Hpath]]].
  assert (HtabsR : tabList R = List.rev rest ++ [l]).
  { apply (f_equal (@List.rev FullFile)) in ErevR.
    rewrite rev_involutive in ErevR. exact ErevR. }
  assert (HinR : In l (tabList R)) by (apply in_rev; rewrite ErevR; now left).
  destruct (tabList_In_item l R HinR) as [i [Hli [_ [Hcont Hcur]]]].
  apply In_lookup in Hli; [|assumption].
  rewrite Hpath, HlR in Hli. injection Hli as <-.
  cbn [content current] in Hcont, Hcur.
  exists R, (List.rev rest), l. split.
  { rewrite removeFromTabs_eq, Hg. fold s1.
    rewrite changeCurrentFileToTheLastTab_eq by assumption.
    now rewrite Had1, Erev. }
  split.
  { rewrite getTabs_eq by assumption. now rewrite HadR, HtabsR. }
  split.
  { rewrite <- HtabsR, Hpaths. now apply tabPaths_closed. }
  split; [exact Hcur|]. split.
  - rewrite Hpath, Hcont.
    apply (getCurrentFile_of_unique (f_path l0) _ R HwfR HcR HlR). reflexivity.
  - assert (Hge : 1 <= countCurrent R)
      by (apply (count_current_entry (f_path l0) _ R HlR); reflexivity).
    lia.
Qed.

(** Scenario: tabs [a.rs] (current) and [b.rs]; the tab of [a.rs] is
    closed. *)
Lemma removeFromTabs_moves_to_last_tab_witness :
  let fs := [("/a.rs", fileItem "a" true true);
             ("/b.rs", fileItem "b" false true)] in
  NoDup (keys fs) /\ allDefined fs = true /\ countCurrent fs <= 1 /\
  getProp "/a.rs" fs = Some (mkItem (Some "a") (Some true) (Some true)) /\
  otherTabOpen "/a.rs" fs = true /\
  exists fs' t l,
    Explorer.removeFromTabs "/a.rs" fs = Returned tt fs' /\
    Explorer.getTabs fs' = Returned (t ++ [l]) fs' /\
    map f_path (t ++ [l]) = ["/b.rs"] /\
    f_current l = Some true /\
    Explorer.getCurrentFile fs' =
      Returned (Some (mkFull (f_path l) (f_content l) None None)) fs' /\
    countCurrent fs' = 1.
Proof.
  intros fs.
  assert (Hnd : NoDup (keys fs)).
  { repeat constructor; cbn; intuition discriminate. }
  assert (Hc : countCurrent fs <= 1) by (vm_compute; lia).
  split; [exact Hnd|]. split; [reflexivity|]. split; [exact Hc|].
  split; [reflexivity|]. split; [reflexivity|].
  exact (removeFromTabs_moves_to_last_tab "/a.rs" _ fs
           Hnd eq_refl Hc eq_refl eq_refl).
Defined.

End CloseTab.

(** ** Saving and renaming a file *)

Section SaveAndRenameFile.

Lemma valid_isSegment (name : string) :
  PgExplorer.isItemNameValid name = true -> isSegment name = true.
Proof.
  unfold PgExplorer.isItemNameValid. intros H.
  apply andb_true_iff in H. destruct H as [H _].
  apply andb_true_iff in H. destruct H as [Hre _].
  apply isSegment_spec.
  unfold PgExplorer.nameRegex in Hre. destruct name as [|c r]; [discriminate|].
  split; [discriminate|].
  apply andb_true_iff in Hre. destruct Hre as [_ Hall].
  now apply (allChars_excludes _ "/" _ eq_refl) in Hall.
Qed.

Lemma getFileContentFromPath_eq (q : string) (fs : Files) :
  Explorer.getFileContentFromPath q fs =
  Returned (match getProp q fs with Some i => content i | None => None end) fs.
Proof.
  unfold Explorer.getFileContentFromPath, bind, readProp, ret.
  now destruct (getProp q fs).
Qed.

(** X15: saving a content at a path that holds an item and reading it
    back: [getFileContentFromPath] returns the saved content, the
    content of every other path is as before, the keys and the tab and
    current flags of the item are kept, and a second save replaces the
    first. *)
Theorem saveFile_then_read (p c : string) (i : ItemInfo) (fs : Files) :
  getProp p fs = Some i ->
  exists fs',
    Explorer.saveFile p c fs = Returned tt fs' /\
    Explorer.getFileContentFromPath p fs' = Returned (Some c) fs' /\
    (forall q r, q <> p ->
       Explorer.getFileContentFromPath q fs = Returned r fs ->
       Explorer.getFileContentFromPath q fs' = Returned r fs') /\
    keys fs' = keys fs /\
    getProp p fs' = Some (mkItem (Some c) (current i) (tabs i)) /\
    forall c', Explorer.saveFile p c' fs' = Explorer.saveFile p c' fs.
Proof.
  intros Hg. exists (setProp p (Some (withContent c i)) fs).
  assert (Hnew : getProp p (setProp p (Some (withContent c i)) fs) =
                 Some (withContent c i)).
  { rewrite getProp_setProp. now rewrite String.eqb_refl. }
  split; [rewrite saveFile_eq; now rewrite Hg|]. split.
  { rewrite getFileContentFromPath_eq. now rewrite Hnew. }
  split.
  { intros q r Hne. rewrite !getFileContentFromPath_eq, getProp_setProp.
    apply not_eq_sym in Hne. apply String.eqb_neq in Hne. rewrite Hne.
    now intros [= ->]. }
  split; [apply keys_setProp_present; now apply getProp_Some_hasProp in Hg|].
  split; [exact Hnew|].
  intros c'. rewrite !saveFile_eq, Hnew, Hg. now rewrite setProp_setProp.
Qed.

(** Saving the source file of a program. *)
Lemma saveFile_then_read_witness :
  let fs := [("/src/", folderItem); ("/src/lib.rs", fileItem "x" true true)] in
  getProp "/src/lib.rs" fs = Some (mkItem (Some "x") (Some true) (Some true)) /\
  exists fs',
    Explorer.saveFile "/src/lib.rs" "y" fs = Returned tt fs' /\
    Explorer.getFileContentFromPath "/src/lib.rs" fs' = Returned (Some "y") fs' /\
    (forall q r, q <> "/src/lib.rs" ->
       Explorer.getFileContentFromPath q fs = Returned r fs ->
       Explorer.getFileContentFromPath q fs' = Returned r fs') /\
    keys fs' = keys fs /\
    getProp "/src/lib.rs" fs' = Some (mkItem (Some "y") (Some true) (Some true)) /\
    forall c', Explorer.saveFile "/src/lib.rs" c' fs' =
               Explorer.saveFile "/src/lib.rs" c' fs.
Proof.
  intros fs. split; [reflexivity|].
  exact (saveFile_then_read "/src/lib.rs" "y" _ fs eq_refl).
Defined.

(** X16: renaming a file to a valid name that is free in its folder, in a
    store without [undefined] value: no error is returned; the item,
    with its content and its flags, is removed from the old path and
    added under the new name as the last key; the new path is a file path
    with the same parent folder; every other path is as before. *)
Theorem renameItem_file_moves (p n : string) (i : ItemInfo) (fs : Files) :
  NoDup (keys fs) ->
  allDefined fs = true ->
  PgExplorer.isItemNameValid n = true ->
  PgExplorer.getItemTypeFromPath p = IsFile ->
  getProp p fs = Some i ->
  getProp (PgExplorer.getParentPathFromPath p ++ n) fs = None ->
  let newPath := (PgExplorer.getParentPathFromPath p ++ n)%string in
  let fs' := deleteProp p fs ++ [(newPath, Some i)] in
  Explorer.renameItem p n fs = Returned None fs' /\
  PgExplorer.getItemTypeFromPath newPath = IsFile /\
  PgExplorer.getParentPathFromPath newPath =
    PgExplorer.getParentPathFromPath p /\
  PgExplorer.getItemNameFromPath newPath = Some n /\
  NoDup (keys fs') /\
  getProp p fs' = None /\
  getProp newPath fs' = Some i /\
  forall q, q <> p -> q <> newPath -> getProp q fs' = getProp q fs.
Proof.
  intros Hnd Had Hvalid Hfile Hg Hfree newPath fs'.
  change (getProp newPath fs = None) in Hfree.
  assert (Hne : newPath <> p).
  { intros E. rewrite E in Hfree. congruence. }
  assert (Habs : hasProp newPath (deleteProp p fs) = false).
  { apply hasProp_false. intros Hin. apply keys_deleteProp in Hin.
    destruct Hin as [_ Hin]. apply hasProp_In in Hin.
    pose proof (allDefined_getProp_None newPath fs Had Hfree). congruence. }
  assert (Hshape : fs' = setProp newPath (Some i) (deleteProp p fs)).
  { unfold fs'. now rewrite setProp_absent. }
  split.
  { unfold Explorer.renameItem. rewrite Hvalid, Hfile. cbn [negb].
    cbv zeta. fold newPath. unfold bind at 1. unfold readProp at 1.
    rewrite Hfree. unfold bind, readProp, removeProp, writeProp, ret.
    now rewrite Hg, <- Hshape. }
  destruct (parentPath_normal p) as [segs [Hdir Hsegs]].
  pose proof (file_in_folder segs n Hsegs (valid_isSegment n Hvalid)) as Hpath.
  cbv zeta in Hpath. rewrite <- Hdir in Hpath. fold newPath in Hpath.
  destruct Hpath as [H1 [H2 H3]].
  split; [exact H1|]. split; [exact H2|]. split; [exact H3|].
  rewrite Hshape. split.
  { apply NoDup_setProp. now apply NoDup_deleteProp. }
  split.
  { rewrite getProp_setProp. apply String.eqb_neq in Hne. rewrite Hne.
    unfold getProp. rewrite lookup_deleteProp. now rewrite String.eqb_refl. }
  split.
  { rewrite getProp_setProp. now rewrite String.eqb_refl. }
  intros q Hq1 Hq2. rewrite getProp_setProp.
  apply not_eq_sym in Hq2. apply String.eqb_neq in Hq2. rewrite Hq2.
  unfold getProp. rewrite lookup_deleteProp.
  apply not_eq_sym in Hq1. apply String.eqb_neq in Hq1. now rewrite Hq1.
Qed.

(** Renaming [/src/lib.rs] to [main.rs] next to a test folder. *)
Lemma renameItem_file_moves_witness :
  let fs := [("/src/", folderItem); ("/src/lib.rs", fileItem "x" true true);
             ("/tests/", folderItem)] in
  NoDup (keys fs) /\
  allDefined fs = true /\
  PgExplorer.isItemNameValid "main.rs" = true /\
  PgExplorer.getItemTypeFromPath "/src/lib.rs" = IsFile /\
  getProp "/src/lib.rs" fs = Some (mkItem (Some "x") (Some true) (Some true)) /\
  getProp "/src/main.rs" fs = None /\
  Explorer.renameItem "/src/lib.rs" "main.rs" fs =
    Returned None
      [("/src/", folderItem); ("/tests/", folderItem);
       ("/src/main.rs", fileItem "x" true true)].
Proof.
  intros fs.
  assert (Hnd : NoDup (keys fs)).
  { repeat constructor; cbn; intuition discriminate. }
  split; [exact Hnd|]. split; [reflexivity|]. split; [reflexivity|].
  split; [reflexivity|]. split; [reflexivity|]. split; [reflexivity|].
  exact (proj1 (renameItem_file_moves "/src/lib.rs" "main.rs" _ fs
                  Hnd eq_refl eq_refl eq_refl eq_refl eq_refl)).
Defined.

(** X17: renaming a file path that contains the separator and is not a
    key of the store to a valid name that is not a key either is not
    reported as an error: the new
    path is added as the last key with the value [undefined], and from
    then on [getTabs] and [getBuildFiles] raise a [TypeError], and so
    does closing a tab. *)
Theorem renameItem_missing_file_adds_undefined (p n : string) (fs : Files) :
  NoDup (keys fs) ->
  isPath p = true ->
  PgExplorer.isItemNameValid n = true ->
  PgExplorer.getItemTypeFromPath p = IsFile ->
  hasProp p fs = false ->
  hasProp (PgExplorer.getParentPathFromPath p ++ n) fs = false ->
  let newPath := (PgExplorer.getParentPathFromPath p ++ n)%string in
  let fs' := fs ++ [(newPath, None)] in
  Explorer.renameItem p n fs = Returned None fs' /\
  Explorer.getTabs fs' = Raised fs' /\
  Explorer.getBuildFiles fs' = Raised fs' /\
  Explorer.changeCurrentFileToTheLastTab fs' = Raised fs'.
Proof.
  intros Hnd _ Hvalid Hfile Hp Hnew newPath fs'.
  assert (Hgp : getProp p fs = None).
  { unfold getProp. apply lookup_None in Hp. now rewrite Hp. }
  assert (Hgn : getProp newPath fs = None).
  { unfold getProp. apply lookup_None in Hnew. fold newPath in Hnew.
    now rewrite Hnew. }
  assert (Hshape : fs' = setProp newPath None (deleteProp p fs)).
  { unfold fs'. rewrite deleteProp_absent by assumption.
    now rewrite setProp_absent. }
  assert (Hnd' : NoDup (keys fs')).
  { rewrite Hshape. apply NoDup_setProp. now apply NoDup_deleteProp. }
  assert (Had' : allDefined fs' = false).
  { unfold fs', allDefined. rewrite forallb_app. cbn.
    now rewrite andb_false_r. }
  split.
  { unfold Explorer.renameItem. rewrite Hvalid, Hfile. cbn [negb].
    cbv zeta. fold newPath. unfold bind at 1. unfold readProp at 1.
    rewrite Hgn. unfold bind, readProp, removeProp, writeProp, ret.
    now rewrite Hgp, <- Hshape. }
  split; [rewrite getTabs_eq by assumption; now rewrite Had'|].
  split; [rewrite getBuildFiles_eq by assumption; now rewrite Had'|].
  rewrite changeCurrentFileToTheLastTab_eq by assumption. now rewrite Had'.
Qed.

(** Renaming a file that was never created. *)
Lemma renameItem_missing_file_adds_undefined_witness :
  let fs := [("/src/", folderItem); ("/src/lib.rs", fileItem "x" true true)] in
  NoDup (keys fs) /\
  isPath "/src/a.rs" = true /\
  PgExplorer.isItemNameValid "b.rs" = true /\
  PgExplorer.getItemTypeFromPath "/src/a.rs" = IsFile /\
  hasProp "/src/a.rs" fs = false /\
  hasProp "/src/b.rs" fs = false /\
  let fs' := fs ++ [("/src/b.rs", None)] in
  Explorer.renameItem "/src/a.rs" "b.rs" fs = Returned None fs' /\
  Explorer.getTabs fs' = Raised fs' /\
  Explorer.getBuildFiles fs' = Raised fs' /\
  Explorer.changeCurrentFileToTheLastTab fs' = Raised fs'.
Proof.
  intros fs.
  assert (Hnd : NoDup (keys fs)).
  { repeat constructor; cbn; intuition discriminate. }
  split; [exact Hnd|]. split; [reflexivity|].
  split; [reflexivity|]. split; [reflexivity|].
  split; [reflexivity|]. split; [reflexivity|].
  exact (renameItem_missing_file_adds_undefined "/src/a.rs" "b.rs" fs
           Hnd eq_refl eq_refl eq_refl eq_refl eq_refl).
Defined.

End SaveAndRenameFile.

(** ** Renaming a folder *)

Section RenameFolder.

(** The loop of the folder branch, started on the entries [rest] that are
    still to be visited, after the entries moved so far: it stops at the
    first entry whose rebuilt key is taken, and has moved every entry
    before it to the end of the store. *)
Lemma forIn_rekey (o : option string) (n : string) (rest : Files) :
  forall done,
    NoDup (keys (rest ++ done)) ->
    allDefined (rest ++ done) = true ->
    exists r d2 rest2,
      rest = d2 ++ rest2 /\
      forIn (keys rest)
        (fun path (_ : unit) =>
           v <- readProp (Explorer.rebuildPath o n (Js.split path "/")) ;;
           match v with
           | Some _ => ret (inr AlreadyExists)
           | None =>
               data <- readProp path ;;
               removeProp path ;;;
               writeProp (Explorer.rebuildPath o n (Js.split path "/")) data ;;;
               ret (inl tt)
           end)
        tt (rest ++ done) =
      Returned r (rest2 ++ done ++ map (rekey o n) d2) /\
      match r with
      | inl _ => rest2 = []
      | inr e =>
          e = AlreadyExists /\
          exists k v rest',
            rest2 = (k, v) :: rest' /\
            hasProp (Explorer.rebuildPath o n (Js.split k "/"))
              (rest2 ++ done ++ map (rekey o n) d2) = true
      end.
Proof.
  induction rest as [|[k v] rest' IH]; intros done Hnd Had.
  - exists (inl tt), [], []. split; [reflexivity|]. split; [|reflexivity].
    cbn [keys map forIn app]. unfold ret. now rewrite app_nil_r.
  - set (s := ((k, v) :: rest') ++ done) in *.
    set (np := Explorer.rebuildPath o n (Js.split k "/")).
    assert (Hhere : hasProp k s = true).
    { unfold hasProp, s. cbn. now rewrite String.eqb_refl. }
    assert (Hk : getProp k s = v).
    { unfold getProp, s. cbn. now rewrite String.eqb_refl. }
    cbn [keys map fst forIn]. unfold bind at 1. unfold stillThere.
    rewrite Hhere. unfold bind at 1. unfold bind at 1. unfold readProp at 1.
    fold np. destruct (getProp np s) as [j|] eqn:Eg.
    + exists (inr AlreadyExists), [], ((k, v) :: rest').
      split; [reflexivity|]. split.
      { unfold ret. cbn [map]. now rewrite app_nil_r. }
      split; [reflexivity|]. exists k, v, rest'. split; [reflexivity|].
      cbn [map]. rewrite app_nil_r. fold s. fold np.
      now apply (getProp_Some_hasProp np j).
    + assert (Habs : hasProp np s = false)
        by now apply allDefined_getProp_None.
      assert (Hdel : deleteProp k s = rest' ++ done).
      { unfold s. cbn [app]. rewrite deleteProp_cons, String.eqb_refl.
        apply deleteProp_absent. apply hasProp_false.
        unfold s in Hnd. cbn in Hnd. now inversion Hnd. }
      assert (Hset : setProp np v (deleteProp k s) =
                     rest' ++ (done ++ [(np, v)])).
      { rewrite Hdel, setProp_absent; [now rewrite app_assoc|].
        apply hasProp_false. intros Hin. apply hasProp_false in Habs.
        apply Habs. unfold s. cbn. now right. }
      assert (Hnd' : NoDup (keys (rest' ++ (done ++ [(np, v)])))).
      { rewrite <- Hset. apply NoDup_setProp. now apply NoDup_deleteProp. }
      assert (Had' : allDefined (rest' ++ (done ++ [(np, v)])) = true).
      { destruct (allDefined_lookup k v s Had) as [i ->].
        { unfold s. cbn. now rewrite String.eqb_refl. }
        rewrite <- Hset. apply allDefined_setProp.
        now apply allDefined_deleteProp. }
      destruct (IH (done ++ [(np, v)]) Hnd' Had') as [r [d2 [rest2 [E [Hrun Hr]]]]].
      exists r, ((k, v) :: d2), rest2.
      split; [cbn [app]; now rewrite E|].
      assert (Hstore : rest2 ++ (done ++ [(np, v)]) ++ map (rekey o n) d2 =
                       rest2 ++ done ++ map (rekey o n) ((k, v) :: d2)).
      { cbn [map]. unfold rekey at 2. cbn [fst snd]. fold np.
        now rewrite <- app_assoc. }
      rewrite <- Hstore. split; [|exact Hr].
      unfold bind, readProp, removeProp, writeProp, ret.
      rewrite Hk, Hset. exact Hrun.
Qed.

(** X18: renaming a folder to a valid name, in a store without
    [undefined] value.  The call returns, with an error or without.  It
    re-keys the entries in enumeration order and moves each one to the
    end of the store, until the rebuilt key of an entry is taken: then it
    returns [AlreadyExists] and leaves the entries re-keyed so far in
    place.  Without error every entry has been re-keyed, in the same
    order and with its item. *)
Theorem renameItem_folder_rekeys (p n : string) (fs : Files) :
  NoDup (keys fs) ->
  allDefined fs = true ->
  PgExplorer.isItemNameValid n = true ->
  PgExplorer.getItemTypeFromPath p = IsFolder ->
  let move := rekey (PgExplorer.getItemNameFromPath p) n in
  exists r done rest,
    fs = done ++ rest /\
    Explorer.renameItem p n fs = Returned r (rest ++ map move done) /\
    match r with
    | None => rest = [] /\ storeOf (Explorer.renameItem p n fs) = map move fs
    | Some e =>
        e = AlreadyExists /\
        exists k v rest',
          rest = (k, v) :: rest' /\
          hasProp (fst (move (k, v))) (rest ++ map move done) = true
    end.
Proof.
  intros Hnd Had Hvalid Hfolder move.
  destruct (forIn_rekey (PgExplorer.getItemNameFromPath p) n fs []) as
    [r [d2 [rest2 [E [Hrun Hr]]]]];
    [now rewrite app_nil_r | now rewrite app_nil_r |].
  rewrite app_nil_r in Hrun. cbn [app] in Hrun, Hr. fold move in Hrun, Hr.
  assert (Hcall : Explorer.renameItem p n fs =
                  Returned (match r with inr e => Some e | inl _ => None end)
                    (rest2 ++ map move d2)).
  { unfold Explorer.renameItem. rewrite Hvalid, Hfolder. cbn [negb].
    unfold bind at 1. unfold ownKeys at 1. unfold bind at 1. cbv zeta.
    rewrite Hrun. now destruct r. }
  exists (match r with inr e => Some e | inl _ => None end), d2, rest2.
  split; [exact E|]. split; [exact Hcall|].
  destruct r as [[]|e].
  - split; [exact Hr|]. rewrite Hcall. cbn [storeOf]. subst rest2.
    rewrite app_nil_r in E. now subst d2.
  - exact Hr.
Qed.

(** Renaming the folder [/a/] to [b]: its two entries are re-keyed, and
    so is the entry of the other folder. *)
Lemma renameItem_folder_rekeys_witness :
  let fs := [("/a/", folderItem); ("/a/m.rs", fileItem "x" false false);
             ("/c/", folderItem)] in
  NoDup (keys fs) /\
  allDefined fs = true /\
  PgExplorer.isItemNameValid "b" = true /\
  PgExplorer.getItemTypeFromPath "/a/" = IsFolder /\
  Explorer.renameItem "/a/" "b" fs =
    Returned None
      [("/b//", folderItem); ("/b/m.rs/", fileItem "x" false false);
       ("/c//", folderItem)] /\
  exists r done rest,
    fs = done ++ rest /\
    Explorer.renameItem "/a/" "b" fs =
      Returned r (rest ++ map (rekey (Some "a") "b") done) /\
    match r with
    | None => rest = [] /\
              storeOf (Explorer.renameItem "/a/" "b" fs) =
              map (rekey (Some "a") "b") fs
    | Some e =>
        e = AlreadyExists /\
        exists k v rest',
          rest = (k, v) :: rest' /\
          hasProp (fst (rekey (Some "a") "b" (k, v)))
            (rest ++ map (rekey (Some "a") "b") done) = true
    end.
Proof.
  intros fs.
  assert (Hnd : NoDup (keys fs)).
  { repeat constructor; cbn; intuition discriminate. }
  split; [exact Hnd|]. split; [reflexivity|]. split; [reflexivity|].
  split; [reflexivity|]. split; [reflexivity|].
  exact (renameItem_folder_rekeys "/a/" "b" fs Hnd eq_refl eq_refl eq_refl).
Defined.

End RenameFolder.

(** ** What a deletion removes and what it keeps *)

Section DeleteEffects.

Lemma deleteItem_eq (p : string) (fs : Files) :
  Explorer.deleteItem p fs =
  (if isCurrentAt p fs then Explorer.changeCurrentFileToTheLastTab else ret tt)
    (restoreFolders p (unprefixed p fs)).
Proof.
  destruct (deleteItem_shape p fs) as [s1 [-> H]]. exact H.
Qed.

Lemma hasProp_lookup (q : string) (s : Files) :
  hasProp q s = match lookup q s with Some _ => true | None => false end.
Proof.
  destruct (lookup q s) as [v|] eqn:E.
  - destruct (hasProp q s) eqn:H; [reflexivity|].
    apply lookup_None in H. congruence.
  - now apply lookup_None.
Qed.

Lemma hasProp_setProp (q k : string) (v : option ItemInfo) (s : Files) :
  hasProp q (setProp k v s) = String.eqb k q || hasProp q s.
Proof.
  rewrite !hasProp_lookup, lookup_setProp. now destruct (String.eqb k q).
Qed.

Lemma lookup_filter_key (g : string -> bool) (q : string) (fs : Files) :
  lookup q (filter (fun kv => g (fst kv)) fs) =
  if g q then lookup q fs else None.
Proof.
  induction fs as [|[k v] r IH]; cbn [filter lookup fst].
  - now destruct (g q).
  - destruct (String.eqb k q) eqn:E.
    + apply String.eqb_eq in E. subst k.
      destruct (g q) eqn:Eg; [cbn [lookup]; now rewrite String.eqb_refl|].
      exact IH.
    + destruct (g k); [cbn [lookup]; rewrite E|]; exact IH.
Qed.

Lemma hasProp_filter_key (g : string -> bool) (q : string) (fs : Files) :
  hasProp q (filter (fun kv => g (fst kv)) fs) = g q && hasProp q fs.
Proof.
  rewrite !hasProp_lookup, lookup_filter_key. now destruct (g q).
Qed.

Lemma keys_filter_key (g : string -> bool) (fs : Files) :
  keys (filter (fun kv => g (fst kv)) fs) = filter g (keys fs).
Proof.
  unfold keys. induction fs as [|[k v] r IH]; [reflexivity|].
  cbn [filter map fst]. destruct (g k); cbn [map fst]; now rewrite IH.
Qed.

Lemma wellFormed_unprefixed (p : string) (fs : Files) :
  wellFormed fs -> wellFormed (unprefixed p fs).
Proof.
  intros [Hnd Had]. unfold unprefixed. split.
  - rewrite (keys_filter_key (fun k => negb (Js.startsWith k p))).
    now apply NoDup_filter.
  - unfold allDefined in *. rewrite forallb_forall in *.
    intros x Hx. apply filter_In in Hx. now apply Had.
Qed.

Lemma wellFormed_restoreFolders (p : string) (s : Files) :
  wellFormed s -> wellFormed (restoreFolders p s).
Proof.
  intros H. unfold restoreFolders. cbv zeta.
  destruct (Nat.eqb _ 1); repeat apply wellFormed_setProp; exact H.
Qed.

Lemma count_setProp_empty (k : string) (s : Files) :
  countCurrent (setProp k (Some emptyItem) s) <= countCurrent s.
Proof.
  destruct (lookup k s) as [v|] eqn:E.
  - pose proof (count_setProp_present k v (Some emptyItem) s E) as H.
    unfold isCurrentEntry at 2 in H. cbn in H. lia.
  - apply lookup_None in E. rewrite count_setProp_absent by assumption.
    cbn. lia.
Qed.

Lemma count_restoreFolders (p : string) (s : Files) :
  countCurrent (restoreFolders p s) <= countCurrent s.
Proof.
  unfold restoreFolders. cbv zeta.
  pose proof (count_setProp_empty (PgExplorer.getParentPathFromPath p) s).
  destruct (Nat.eqb _ 1); [|assumption].
  etransitivity; [apply count_setProp_empty | assumption].
Qed.

Lemma count_filter_key (g : string -> bool) (q : string)
    (v : option ItemInfo) (fs : Files) :
  In (q, v) fs ->
  g q = false ->
  countCurrent (filter (fun kv => g (fst kv)) fs) + b2n (isCurrentEntry (q, v))
  <= countCurrent fs.
Proof.
  intros Hin Hg.
  assert (Hle : forall l, countCurrent (filter (fun kv => g (fst kv)) l)
                          <= countCurrent l).
  { induction l as [|[k0 v0] r IH]; [apply Nat.le_refl|].
    cbn [filter fst]. destruct (g k0); rewrite !count_cons; lia. }
  induction fs as [|[k0 v0] r IH]; [contradiction|].
  cbn [filter fst]. destruct Hin as [[= -> ->]|Hin].
  - rewrite Hg, count_cons. specialize (Hle r). lia.
  - specialize (IH Hin). destruct (g k0); rewrite !count_cons; lia.
Qed.

Lemma NoDup_all_same (a : string) (l : list string) :
  NoDup l -> (forall x, In x l -> x = a) -> l = [] \/ l = [a].
Proof.
  intros Hnd Hall. destruct l as [|x [|y r]]; [now left| |].
  - right. f_equal. apply Hall. now left.
  - exfalso. inversion Hnd as [|? ? Hnotin _]; subst. apply Hnotin.
    rewrite (Hall x) by now left. rewrite (Hall y) by (right; now left).
    now left.
Qed.

(** When [deleteItem] adds the [src/] folder: nothing but the parent
    folder is left. *)
Lemma restoreFolders_src (p : string) (s : Files) :
  NoDup (keys s) ->
  Nat.eqb (length (keys (setProp (PgExplorer.getParentPathFromPath p)
                           (Some emptyItem) s))) 1 = true <->
  (forall k, In k (keys s) -> k = PgExplorer.getParentPathFromPath p).
Proof.
  intros Hnd. set (parent := PgExplorer.getParentPathFromPath p).
  rewrite Nat.eqb_eq. destruct (hasProp parent s) eqn:E.
  - rewrite keys_setProp_present by assumption. apply hasProp_In in E. split.
    + intros Hlen k Hin. destruct (keys s) as [|x [|y r]]; try discriminate.
      destruct E as [<-|[]]. now destruct Hin as [<-|[]].
    + intros Hall. destruct (NoDup_all_same parent _ Hnd Hall) as [H|H];
        rewrite H in *; [contradiction | reflexivity].
  - rewrite setProp_absent by assumption. unfold keys at 1.
    rewrite map_app, length_app. cbn [map length]. fold (keys s). split.
    + intros Hlen k Hin. destruct (keys s); [contradiction | cbn in Hlen; lia].
    + intros Hall. apply hasProp_false in E.
      destruct (NoDup_all_same parent _ Hnd Hall) as [H|H]; rewrite H in *;
        [reflexivity | exfalso; apply E; now left].
Qed.

Lemma hasProp_restoreFolders (p q : string) (s : Files) :
  NoDup (keys s) ->
  let parent := PgExplorer.getParentPathFromPath p in
  hasProp q (restoreFolders p s) = true <->
  hasProp q s = true \/ q = parent \/
  (q = (parent ++ "src/")%string /\ forall k, In k (keys s) -> k = parent).
Proof.
  intros Hnd parent. unfold restoreFolders. cbv zeta. fold parent.
  pose proof (restoreFolders_src p s Hnd) as Hsrc. fold parent in Hsrc.
  destruct (Nat.eqb _ 1).
  - rewrite !hasProp_setProp, !orb_true_iff, !String.eqb_eq.
    destruct Hsrc as [Hsrc _]. specialize (Hsrc eq_refl). split.
    + intros [<-|[<-|H]]; auto.
    + intros [H|[->|[-> _]]]; auto.
  - rewrite hasProp_setProp, orb_true_iff, String.eqb_eq. split.
    + intros [<-|H]; auto.
    + intros [H|[->|[_ Hall]]]; auto.
      destruct Hsrc as [_ Hsrc]. specialize (Hsrc Hall). discriminate.
Qed.

Lemma lookup_restoreFolders (p q : string) (s : Files) :
  q <> PgExplorer.getParentPathFromPath p ->
  q <> (PgExplorer.getParentPathFromPath p ++ "src/")%string ->
  lookup q (restoreFolders p s) = lookup q s.
Proof.
  intros H1 H2. apply not_eq_sym in H1, H2.
  apply String.eqb_neq in H1, H2. unfold restoreFolders. cbv zeta.
  destruct (Nat.eqb _ 1); rewrite !lookup_setProp, ?H2, H1; reflexivity.
Qed.

(** X19: the keys after [deleteItem], in a store without repeated key:
    a key of the store that does not start with the path is kept; the
    parent folder of the path is a key; the [src/] folder under it is
    added exactly when every key that was kept is the parent folder; no
    other key is left.  When the item at the path is not the current
    file, the call returns and every other entry that was kept holds what
    it held. *)
Theorem deleteItem_keys (p : string) (fs : Files) :
  NoDup (keys fs) ->
  let fs' := storeOf (Explorer.deleteItem p fs) in
  let parent := PgExplorer.getParentPathFromPath p in
  (forall q,
     hasProp q fs' = true <->
     (hasProp q fs = true /\ Js.startsWith q p = false) \/
     q = parent \/
     (q = (parent ++ "src/")%string /\
      forall k, In k (keys fs) -> Js.startsWith k p = false -> k = parent)) /\
  (isCurrentAt p fs = false ->
   Explorer.deleteItem p fs = Returned tt fs' /\
   forall q, Js.startsWith q p = false ->
             q <> parent -> q <> (parent ++ "src/")%string ->
             lookup q fs' = lookup q fs).
Proof.
  intros Hnd fs' parent. subst fs'. rewrite deleteItem_eq.
  set (g := fun k => negb (Js.startsWith k p)).
  assert (Hnd1 : NoDup (keys (unprefixed p fs))).
  { unfold unprefixed. rewrite (keys_filter_key g). now apply NoDup_filter. }
  split.
  - intros q.
    assert (Hkeys : keys (storeOf
              ((if isCurrentAt p fs
                then Explorer.changeCurrentFileToTheLastTab else ret tt)
                 (restoreFolders p (unprefixed p fs)))) =
            keys (restoreFolders p (unprefixed p fs))).
    { destruct (isCurrentAt p fs);
        [apply keysKept_changeCurrentFileToTheLastTab | reflexivity]. }
    unfold hasProp at 1. rewrite Hkeys. fold (hasProp q (restoreFolders p (unprefixed p fs))).
    rewrite (hasProp_restoreFolders p q _ Hnd1). fold parent.
    unfold unprefixed. rewrite (hasProp_filter_key g), (keys_filter_key g).
    unfold g. rewrite andb_true_iff, negb_true_iff.
    assert (Hall : (forall k, In k (filter (fun k => negb (Js.startsWith k p)) (keys fs)) -> k = parent) <->
                   (forall k, In k (keys fs) -> Js.startsWith k p = false -> k = parent)).
    { split.
      - intros H k Hin Hk. apply H. apply filter_In. split; [assumption|].
        now rewrite Hk.
      - intros H k Hin. apply filter_In in Hin. destruct Hin as [Hin Hk].
        apply negb_true_iff in Hk. now apply H. }
    rewrite Hall. tauto.
  - intros Hcur. rewrite Hcur. unfold ret. cbn [storeOf].
    split; [reflexivity|]. intros q Hq H1 H2.
    rewrite lookup_restoreFolders by assumption.
    unfold unprefixed. rewrite (lookup_filter_key g). unfold g.
    now rewrite Hq.
Qed.

(** Deleting a file that is not current, next to the current one. *)
Lemma deleteItem_keys_witness :
  let fs := [("/src/", folderItem); ("/src/lib.rs", fileItem "x" true true);
             ("/src/old.rs", fileItem "y" false true)] in
  NoDup (keys fs) /\
  Explorer.deleteItem "/src/old.rs" fs =
    Returned tt
      [("/src/", folderItem); ("/src/lib.rs", fileItem "x" true true)] /\
  hasProp "/src/old.rs" (storeOf (Explorer.deleteItem "/src/old.rs" fs)) = false /\
  (isCurrentAt "/src/old.rs" fs = false ->
   Explorer.deleteItem "/src/old.rs" fs =
     Returned tt (storeOf (Explorer.deleteItem "/src/old.rs" fs)) /\
   forall q, Js.startsWith q "/src/old.rs" = false ->
             q <> "/src/" -> q <> "/src/src/" ->
             lookup q (storeOf (Explorer.deleteItem "/src/old.rs" fs)) =
             lookup q fs).
Proof.
  intros fs.
  assert (Hnd : NoDup (keys fs)).
  { repeat constructor; cbn; intuition discriminate. }
  split; [exact Hnd|]. split; [reflexivity|]. split; [reflexivity|].
  exact (proj2 (deleteItem_keys "/src/old.rs" fs Hnd)).
Defined.

End DeleteEffects.

(** ** Deleting the current file *)

Section DeleteCurrent.

(** [changeCurrentFileToTheLastTab] on a store without [undefined] value
    and with at most one current file: the tabs stay as they are and the
    last one, when there is one, becomes the only current file. *)
Lemma lastTab_result (s : Files) :
  wellFormed s ->
  countCurrent s <= 1 ->
  exists R t,
    Explorer.changeCurrentFileToTheLastTab s = Returned tt R /\
    Explorer.getTabs R = Returned t R /\
    map f_path t = map f_path (tabList s) /\
    match List.rev t with
    | [] => R = s
    | l :: _ =>
        f_current l = Some true /\
        Explorer.getCurrentFile R =
          Returned (Some (mkFull (f_path l) (f_content l) None None)) R /\
        countCurrent R = 1
    end.
Proof.
  intros Hwf Hc. pose proof Hwf as [Hnd Had].
  rewrite changeCurrentFileToTheLastTab_eq, Had by assumption.
  destruct (List.rev (tabList s)) as [|l0 rest0] eqn:Erev.
  { exists s, (tabList s). split; [reflexivity|].
    split; [rewrite getTabs_eq by assumption; now rewrite Had|].
    split; [reflexivity|]. now rewrite Erev. }
  assert (Hin0 : In l0 (tabList s)) by (apply in_rev; rewrite Erev; now left).
  destruct (tabList_In l0 s Hin0) as [i0 [Hl0 Ht0]].
  apply In_lookup in Hl0; [|assumption].
  destruct (changeCurrentFile_result (f_path l0) i0 s Hwf Hl0 (or_intror Ht0))
    as [R [HR [HwfR [Hkeys [HlR Hothers]]]]].
  pose proof (changeCurrentFile_oneCurrent (f_path l0) s (conj Hwf Hc)) as HoneR.
  rewrite HR in HoneR. cbn [storeOf] in HoneR. destruct HoneR as [_ HcR].
  pose proof HwfR as [HndR HadR].
  assert (Hpaths : map f_path (tabList R) = map f_path (tabList s)).
  { rewrite !tabPaths_keys by assumption. rewrite Hkeys.
    apply filter_ext_in. intros q Hq.
    destruct (String.eqb q (f_path l0)) eqn:Eq.
    - apply String.eqb_eq in Eq. subst q. unfold isTabAt, getProp.
      rewrite HlR, Hl0. cbn. now rewrite Ht0.
    - apply String.eqb_neq in Eq. apply hasProp_In in Hq.
      destruct (wellFormed_getProp q s Hwf Hq) as [iq Hiq].
      apply getProp_Some_lookup in Hiq.
      destruct (Hothers q iq Eq Hiq) as [iq' [Hq' [Htq _]]].
      unfold isTabAt, getProp. now rewrite Hq', Hiq, Htq. }
  destruct (rev_head_path s R l0 rest0 Hpaths Erev) as [l [rest [ErevR Hpath]]].
  assert (HinR : In l (tabList R)) by (apply in_rev; rewrite ErevR; now left).
  destruct (tabList_In_item l R HinR) as [i [Hli [_ [Hcont Hcur]]]].
  apply In_lookup in Hli; [|assumption].
  rewrite Hpath, HlR in Hli. injection Hli as <-.
  cbn [content current] in Hcont, Hcur.
  exists R, (tabList R). split; [exact HR|].
  split; [rewrite getTabs_eq by assumption; now rewrite HadR|].
  split; [exact Hpaths|]. rewrite ErevR.
  split; [exact Hcur|]. split.
  - rewrite Hpath, Hcont.
    apply (getCurrentFile_of_unique (f_path l0) _ R HwfR HcR HlR). reflexivity.
  - assert (Hge : 1 <= countCurrent R)
      by (apply (count_current_entry (f_path l0) _ R HlR); reflexivity).
    lia.
Qed.

Lemma tabEntries_keys (s : Files) :
  NoDup (keys s) ->
  map fst (filter isTabEntry s) = filter (fun q => isTabAt q s) (keys s).
Proof.
  intros Hnd. rewrite <- tabList_paths. now apply tabPaths_keys.
Qed.

(** The open tabs after a folder entry is set at [k]. *)
Lemma tabEntries_setProp_empty (k : string) (s : Files) :
  NoDup (keys s) ->
  map fst (filter isTabEntry (setProp k (Some emptyItem) s)) =
  filter (fun q => negb (String.eqb q k)) (map fst (filter isTabEntry s)).
Proof.
  intros Hnd.
  rewrite !tabEntries_keys by (try apply NoDup_setProp; assumption).
  rewrite filter_twice.
  assert (Hold : filter (fun q => isTabAt q (setProp k (Some emptyItem) s))
                   (keys s) =
                 filter (fun q => isTabAt q s && negb (String.eqb q k)) (keys s)).
  { apply filter_ext. intros q. rewrite isTabAt_setProp, (String.eqb_sym k q).
    destruct (String.eqb q k); cbn [negb emptyItem tabs truthyB];
      [now rewrite andb_false_r | now rewrite andb_true_r]. }
  destruct (hasProp k s) eqn:E.
  - now rewrite keys_setProp_present.
  - rewrite setProp_absent by assumption. unfold keys at 1.
    rewrite map_app, filter_app. fold (keys s).
    rewrite <- (setProp_absent k (Some emptyItem) s E), Hold.
    cbn [map fst filter]. rewrite isTabAt_setProp, String.eqb_refl.
    cbn [emptyItem tabs truthyB]. now rewrite app_nil_r.
Qed.

(** The open tabs after the deletion loop and the restoring of the
    folders. *)
Lemma tabEntries_deleted (p : string) (fs : Files) :
  NoDup (keys fs) ->
  map fst (filter isTabEntry (restoreFolders p (unprefixed p fs))) =
  filter (fun q => negb (Js.startsWith q p) &&
                   negb (String.eqb q (PgExplorer.getParentPathFromPath p)))
    (map fst (filter isTabEntry fs)).
Proof.
  intros Hnd. set (parent := PgExplorer.getParentPathFromPath p).
  set (g := fun k => negb (Js.startsWith k p)).
  assert (Hnd1 : NoDup (keys (unprefixed p fs))).
  { unfold unprefixed. rewrite (keys_filter_key g). now apply NoDup_filter. }
  assert (H1 : map fst (filter isTabEntry (unprefixed p fs)) =
               filter g (map fst (filter isTabEntry fs))).
  { unfold unprefixed. rewrite filter_twice.
    rewrite (filter_ext _ (fun kv => isTabEntry kv && g (fst kv)))
      by (intros kv; apply andb_comm).
    rewrite <- filter_twice. apply (keys_filter_key g). }
  assert (H2 : map fst (filter isTabEntry
                 (setProp parent (Some emptyItem) (unprefixed p fs))) =
               filter (fun q => g q && negb (String.eqb q parent))
                 (map fst (filter isTabEntry fs))).
  { rewrite tabEntries_setProp_empty by assumption.
    now rewrite H1, filter_twice. }
  unfold restoreFolders. cbv zeta. fold parent.
  destruct (Nat.eqb _ 1) eqn:Elen; [|exact H2].
  rewrite tabEntries_setProp_empty by now apply NoDup_setProp.
  rewrite H2. rewrite filter_twice. apply filter_ext_in. intros q Hq.
  destruct (g q && negb (String.eqb q parent)) eqn:E;
    [|cbn [andb]; symmetry; exact E].
  exfalso. apply andb_true_iff in E. destruct E as [Eg Ene].
  apply negb_true_iff in Ene. apply String.eqb_neq in Ene. apply Ene.
  apply (proj1 (restoreFolders_src p _ Hnd1) Elen).
  unfold unprefixed. rewrite (keys_filter_key g). apply filter_In.
  split; [|exact Eg].
  apply in_map_iff in Hq. destruct Hq as [kv [<- Hkv]].
  apply filter_In in Hkv. now apply in_map.
Qed.

(** No current file is left when the deletion loop has removed it. *)
Lemma count_deleted (p c : string) (ic : ItemInfo) (fs : Files) :
  countCurrent fs <= 1 ->
  lookup c fs = Some (Some ic) ->
  truthyB (current ic) = true ->
  Js.startsWith c p = true ->
  countCurrent (restoreFolders p (unprefixed p fs)) = 0.
Proof.
  intros Hc Hl Hi Hpre.
  pose proof (count_restoreFolders p (unprefixed p fs)) as H1.
  pose proof (count_filter_key (fun k => negb (Js.startsWith k p)) c
                (Some ic) fs (lookup_In _ _ _ Hl)) as H2.
  cbv beta in H2. rewrite Hpre in H2. specialize (H2 eq_refl).
  unfold isCurrentEntry in H2. cbn [snd] in H2. rewrite Hi in H2.
  cbn [b2n] in H2. fold (unprefixed p fs) in H2. lia.
Qed.

(** X20: deleting the current file, in a store without [undefined] value
    and with one current file: the call returns; the open tabs are those
    that were open, without the ones whose path starts with the deleted
    path and without the parent folder; the last of them is the current
    file afterwards, and when none is left there is no current file. *)
Theorem deleteItem_current_file (p : string) (ip : ItemInfo) (fs : Files) :
  NoDup (keys fs) ->
  allDefined fs = true ->
  countCurrent fs <= 1 ->
  getProp p fs = Some ip ->
  truthyB (current ip) = true ->
  exists fs' t,
    Explorer.deleteItem p fs = Returned tt fs' /\
    Explorer.getTabs fs' = Returned t fs' /\
    map f_path t =
      filter (fun q => negb (Js.startsWith q p) &&
                       negb (String.eqb q (PgExplorer.getParentPathFromPath p)))
        (map fst (filter isTabEntry fs)) /\
    match List.rev t with
    | [] => Explorer.getCurrentFile fs' = Returned None fs'
    | l :: _ =>
        f_current l = Some true /\
        Explorer.getCurrentFile fs' =
          Returned (Some (mkFull (f_path l) (f_content l) None None)) fs'
    end.
Proof.
  intros Hnd Had Hc Hg Hi.
  set (s3 := restoreFolders p (unprefixed p fs)).
  assert (Hwf3 : wellFormed s3).
  { apply wellFormed_restoreFolders, wellFormed_unprefixed. now split. }
  assert (Hc3 : countCurrent s3 = 0).
  { apply getProp_Some_lookup in Hg.
    apply (count_deleted p p ip fs Hc Hg Hi). apply prefix_refl. }
  destruct (lastTab_result s3 Hwf3) as [R [t [HR [Ht [Hpaths Hlast]]]]]; [lia|].
  exists R, t. split.
  { rewrite deleteItem_eq. unfold isCurrentAt. rewrite Hg, Hi. exact HR. }
  split; [exact Ht|]. split.
  { rewrite Hpaths, tabList_paths. now apply tabEntries_deleted. }
  destruct (List.rev t) as [|l rest].
  - subst R. now apply getCurrentFile_of_none.
  - destruct Hlast as [H1 [H2 _]]. now split.
Qed.

(** Deleting the current file [b.rs] while the tab of [a.rs] is open. *)
Lemma deleteItem_current_file_witness :
  let fs := [("/src/", folderItem); ("/src/a.rs", fileItem "a" false true);
             ("/src/b.rs", fileItem "b" true true)] in
  NoDup (keys fs) /\
  allDefined fs = true /\
  countCurrent fs <= 1 /\
  getProp "/src/b.rs" fs = Some (mkItem (Some "b") (Some true) (Some true)) /\
  Explorer.deleteItem "/src/b.rs" fs =
    Returned tt [("/src/", folderItem); ("/src/a.rs", fileItem "a" true true)] /\
  exists fs' t,
    Explorer.deleteItem "/src/b.rs" fs = Returned tt fs' /\
    Explorer.getTabs fs' = Returned t fs' /\
    map f_path t = ["/src/a.rs"] /\
    match List.rev t with
    | [] => Explorer.getCurrentFile fs' = Returned None fs'
    | l :: _ =>
        f_current l = Some true /\
        Explorer.getCurrentFile fs' =
          Returned (Some (mkFull (f_path l) (f_content l) None None)) fs'
    end.
Proof.
  intros fs.
  assert (Hnd : NoDup (keys fs)).
  { repeat constructor; cbn; intuition discriminate. }
  assert (Hc : countCurrent fs <= 1) by (vm_compute; lia).
  split; [exact Hnd|]. split; [reflexivity|]. split; [exact Hc|].
  split; [reflexivity|]. split; [reflexivity|].
  exact (deleteItem_current_file "/src/b.rs" _ fs Hnd eq_refl Hc eq_refl eq_refl).
Defined.

(** X21: deleting a path that is not itself the current file but is a
    prefix of the path of the current file, as the folder of the current
    file is: the call returns and no file is current afterwards, although
    the tabs whose path does not start with the deleted path stay open. *)
Theorem deleteItem_folder_of_current (p c : string) (ic : ItemInfo)
    (fs : Files) :
  NoDup (keys fs) ->
  allDefined fs = true ->
  countCurrent fs <= 1 ->
  isCurrentAt p fs = false ->
  lookup c fs = Some (Some ic) ->
  truthyB (current ic) = true ->
  Js.startsWith c p = true ->
  exists fs',
    Explorer.deleteItem p fs = Returned tt fs' /\
    countCurrent fs' = 0 /\
    Explorer.getCurrentFile fs' = Returned None fs' /\
    exists t,
      Explorer.getTabs fs' = Returned t fs' /\
      map f_path t =
        filter (fun q => negb (Js.startsWith q p) &&
                         negb (String.eqb q (PgExplorer.getParentPathFromPath p)))
          (map fst (filter isTabEntry fs)).
Proof.
  intros Hnd Had Hc Hp Hl Hi Hpre.
  set (s3 := restoreFolders p (unprefixed p fs)).
  assert (Hwf3 : wellFormed s3).
  { apply wellFormed_restoreFolders, wellFormed_unprefixed. now split. }
  assert (Hc3 : countCurrent s3 = 0)
    by exact (count_deleted p c ic fs Hc Hl Hi Hpre).
  exists s3. split; [rewrite deleteItem_eq; now rewrite Hp|].
  split; [exact Hc3|]. split; [now apply getCurrentFile_of_none|].
  exists (tabList s3). destruct Hwf3 as [Hnd3 Had3]. split.
  - rewrite getTabs_eq by assumption. now rewrite Had3.
  - rewrite tabList_paths. now apply tabEntries_deleted.
Qed.

(** Deleting the folder [/src/] of the current file while a test file is
    open in a tab: the tab stays, no file is current. *)
Lemma deleteItem_folder_of_current_witness :
  let fs := [("/src/", folderItem); ("/src/lib.rs", fileItem "x" true true);
             ("/tests/t.rs", fileItem "t" false true)] in
  NoDup (keys fs) /\
  allDefined fs = true /\
  countCurrent fs <= 1 /\
  isCurrentAt "/src/" fs = false /\
  lookup "/src/lib.rs" fs = Some (fileItem "x" true true) /\
  Js.startsWith "/src/lib.rs" "/src/" = true /\
  exists fs',
    Explorer.deleteItem "/src/" fs = Returned tt fs' /\
    countCurrent fs' = 0 /\
    Explorer.getCurrentFile fs' = Returned None fs' /\
    exists t,
      Explorer.getTabs fs' = Returned t fs' /\
      map f_path t = ["/tests/t.rs"].
Proof.
  intros fs.
  assert (Hnd : NoDup (keys fs)).
  { repeat constructor; cbn; intuition discriminate. }
  assert (Hc : countCurrent fs <= 1) by (vm_compute; lia).
  split; [exact Hnd|]. split; [reflexivity|]. split; [exact Hc|].
  split; [reflexivity|]. split; [reflexivity|]. split; [reflexivity|].
  exact (deleteItem_folder_of_current "/src/" "/src/lib.rs" _ fs
           Hnd eq_refl Hc eq_refl eq_refl eq_refl eq_refl).
Defined.

End DeleteCurrent.

(** ** No call raises on a store the mutations produce *)

Section CallsReturn.

Lemma itemName_defined (p : string) :
  exists name, PgExplorer.getItemNameFromPath p = Some name.
Proof.
  unfold PgExplorer.getItemNameFromPath, PgExplorer.getItemTypeFromPath,
    PgExplorer.at_.
  destruct (Js.endsWith p "/") eqn:E.
  - destruct (splitOn_endsWith "/" p E) as [items [Hit Hne]].
    rewrite split_char in *. rewrite Hit in *. rewrite length_app. cbn [length].
    destruct items as [|h t]; [now destruct Hne|]. cbn [length].
    replace (Nat.ltb (S (length t) + 1) 2) with false
      by (symmetry; apply Nat.ltb_ge; lia).
    destruct (nth_error ((h :: t) ++ [EmptyString]) (S (length t) + 1 - 2))
      as [x|] eqn:Ex; [now exists x|].
    apply nth_error_None in Ex. rewrite length_app in Ex. cbn [length] in Ex.
    lia.
  - pose proof (split_slash_nonempty p) as Hne.
    destruct (Js.split p "/") as [|h t] eqn:Es; [now destruct Hne|].
    cbn [length]. replace (Nat.ltb (S (length t)) 1) with false
      by (symmetry; apply Nat.ltb_ge; lia).
    destruct (nth_error (h :: t) (S (length t) - 1)) as [x|] eqn:Ex;
      [now exists x|].
    apply nth_error_None in Ex. cbn [length] in Ex. lia.
Qed.

Lemma changeCurrentFile_returns (p : string) (s : Files) :
  wellFormed s ->
  hasProp p s = true ->
  exists R, Explorer.changeCurrentFile p s = Returned tt R.
Proof.
  intros Hwf Hp. rewrite changeCurrentFile_eq by assumption.
  destruct (wellFormed_getProp p s Hwf Hp) as [i Hi].
  apply getProp_Some_lookup in Hi. destruct Hwf as [Hnd _].
  destruct (clearCurrent_lookup p i s Hnd Hi) as [i' [Hi' _]].
  apply getProp_Some_lookup in Hi'. rewrite Hi'. eexists. reflexivity.
Qed.

Lemma lastTab_returns (s : Files) :
  wellFormed s ->
  exists R, Explorer.changeCurrentFileToTheLastTab s = Returned tt R.
Proof.
  intros Hwf. pose proof Hwf as [Hnd Had].
  rewrite changeCurrentFileToTheLastTab_eq, Had by assumption.
  destruct (List.rev (tabList s)) as [|l rest] eqn:Erev; [now exists s|].
  assert (Hin : In l (tabList s)) by (apply in_rev; rewrite Erev; now left).
  destruct (tabList_In l s Hin) as [i [Hl _]].
  apply changeCurrentFile_returns; [assumption|].
  apply hasProp_In. change (f_path l) with (fst (f_path l, Some i)).
  now apply in_map.
Qed.

(** On a store without repeated key and without [undefined] value every
    call returns, but for a tab or current-file change at a path that is
    not a key. *)
Lemma calls_return (p n c : string) (s : Files) :
  wellFormed s ->
  (exists r s', Explorer.newItem p s = Returned r s') /\
  (exists s', Explorer.deleteItem p s = Returned tt s') /\
  (exists r s', Explorer.renameItem p n s = Returned r s') /\
  (exists s', Explorer.saveFile p c s = Returned tt s') /\
  (hasProp p s = true ->
   (exists s', Explorer.changeCurrentFile p s = Returned tt s') /\
   (exists s', Explorer.removeFromTabs p s = Returned tt s')) /\
  (exists r, Explorer.getCurrentFile s = Returned r s) /\
  Explorer.getTabs s = Returned (tabList s) s /\
  Explorer.getBuildFiles s = Returned (buildList s) s.
Proof.
  intros Hwf. pose proof Hwf as [Hnd Had].
  split.
  { unfold Explorer.newItem.
    destruct (itemName_defined p) as [name ->].
    destruct (negb (PgExplorer.isItemNameValid name));
      [eexists; eexists; reflexivity|].
    unfold bind at 1. unfold readProp.
    destruct (getProp p s) as [i|] eqn:E; [eexists; eexists; reflexivity|].
    destruct (PgExplorer.getItemTypeFromPath p);
      [eexists; eexists; reflexivity|].
    unfold bind at 1. unfold writeProp.
    set (s1 := setProp p (Some (mkItem (Some "") (Some true) (Some true))) s).
    destruct (changeCurrentFile_returns p s1) as [R HR].
    - now apply wellFormed_setProp.
    - unfold s1. rewrite hasProp_setProp. now rewrite String.eqb_refl.
    - unfold bind. rewrite HR. eexists. eexists. reflexivity. }
  split.
  { rewrite deleteItem_eq. destruct (isCurrentAt p s);
      [|eexists; reflexivity].
    apply lastTab_returns, wellFormed_restoreFolders.
    now apply wellFormed_unprefixed. }
  split.
  { unfold Explorer.renameItem.
    destruct (negb (PgExplorer.isItemNameValid n));
      [eexists; eexists; reflexivity|].
    destruct (PgExplorer.getItemTypeFromPath p).
    - destruct (forIn_rekey (PgExplorer.getItemNameFromPath p) n s []) as
        [r [d2 [rest2 [_ [Hrun _]]]]];
        [now rewrite app_nil_r | now rewrite app_nil_r |].
      rewrite app_nil_r in Hrun.
      unfold bind at 1. unfold ownKeys at 1. unfold bind at 1. cbv zeta.
      rewrite Hrun. destruct r; eexists; eexists; reflexivity.
    - cbv zeta. unfold bind at 1. unfold readProp at 1.
      destruct (getProp _ s); eexists; eexists; reflexivity. }
  split; [rewrite saveFile_eq; eexists; reflexivity|].
  split.
  { intros Hp. split; [now apply changeCurrentFile_returns|].
    rewrite removeFromTabs_eq.
    destruct (wellFormed_getProp p s Hwf Hp) as [i ->].
    apply lastTab_returns. now apply wellFormed_setProp. }
  split.
  { rewrite getCurrentFile_eq by assumption.
    destruct (currentOf_defined s Had) as [r ->]. now exists r. }
  split.
  - rewrite getTabs_eq by assumption. now rewrite Had.
  - rewrite getBuildFiles_eq by assumption. now rewrite Had.
Qed.

(** X22: no [TypeError] in the stores the mutations produce.  Start from
    a store without repeated key and without [undefined] value that has
    at most one current file, and run any sequence of mutations whose
    paths contain the separator and in which each rename of a file names
    a key of the store at that moment.  On the
    store reached, creating, deleting, renaming and saving return for
    every argument, the queries for the current file, the tabs and the
    build files return, and changing the current file or closing a tab
    returns whenever the path is a key. *)
Theorem calls_return_after_mutations (ms : list Mutation) (p n c : string)
    (fs : Files) :
  NoDup (keys fs) ->
  allDefined fs = true ->
  countCurrent fs <= 1 ->
  forallb pathArg ms = true ->
  sourcesExist ms fs = true ->
  let s := applyAll ms fs in
  (exists r s', Explorer.newItem p s = Returned r s') /\
  (exists s', Explorer.deleteItem p s = Returned tt s') /\
  (exists r s', Explorer.renameItem p n s = Returned r s') /\
  (exists s', Explorer.saveFile p c s = Returned tt s') /\
  (hasProp p s = true ->
   (exists s', Explorer.changeCurrentFile p s = Returned tt s') /\
   (exists s', Explorer.removeFromTabs p s = Returned tt s')) /\
  (exists r, Explorer.getCurrentFile s = Returned r s) /\
  Explorer.getTabs s = Returned (tabList s) s /\
  Explorer.getBuildFiles s = Returned (buildList s) s.
Proof.
  intros Hnd Had Hc _ Hsrc s.
  assert (H : oneCurrent fs) by (repeat split; assumption).
  destruct (applyAll_oneCurrent ms fs H Hsrc) as [Hwf _].
  now apply calls_return.
Qed.

(** A first visit: a file is created, the default file is renamed and
    the folder of both is deleted. *)
Lemma calls_return_after_mutations_witness :
  let ms := [NewItem "/src/a.rs"; RenameItem DEFAULT_FILE "main.rs";
             DeleteItem "/src/"] in
  NoDup (keys DEFAULT_EXPLORER) /\
  allDefined DEFAULT_EXPLORER = true /\
  countCurrent DEFAULT_EXPLORER <= 1 /\
  forallb pathArg ms = true /\
  sourcesExist ms DEFAULT_EXPLORER = true /\
  applyAll ms DEFAULT_EXPLORER = [("/", folderItem); ("/src/", folderItem)] /\
  let s := applyAll ms DEFAULT_EXPLORER in
  (exists r s', Explorer.newItem "/src/b.rs" s = Returned r s') /\
  (exists s', Explorer.deleteItem "/src/b.rs" s = Returned tt s') /\
  (exists r s', Explorer.renameItem "/src/b.rs" "c.rs" s = Returned r s') /\
  (exists s', Explorer.saveFile "/src/b.rs" "x" s = Returned tt s') /\
  (hasProp "/src/b.rs" s = true ->
   (exists s', Explorer.changeCurrentFile "/src/b.rs" s = Returned tt s') /\
   (exists s', Explorer.removeFromTabs "/src/b.rs" s = Returned tt s')) /\
  (exists r, Explorer.getCurrentFile s = Returned r s) /\
  Explorer.getTabs s = Returned (tabList s) s /\
  Explorer.getBuildFiles s = Returned (buildList s) s.
Proof.
  intros ms.
  assert (Hnd : NoDup (keys DEFAULT_EXPLORER)).
  { repeat constructor; cbn; intuition discriminate. }
  assert (Hc : countCurrent DEFAULT_EXPLORER <= 1) by (vm_compute; lia).
  assert (Hpaths : forallb pathArg ms = true) by (vm_compute; reflexivity).
  assert (Hsrc : sourcesExist ms DEFAULT_EXPLORER = true)
    by (vm_compute; reflexivity).
  split; [exact Hnd|]. split; [reflexivity|]. split; [exact Hc|].
  split; [exact Hpaths|].
  split; [exact Hsrc|]. split; [vm_compute; reflexivity|].
  exact (calls_return_after_mutations ms "/src/b.rs" "c.rs" "x"
           DEFAULT_EXPLORER Hnd eq_refl Hc Hpaths Hsrc).
Defined.

End CallsReturn.

(** ** Opening the folders above a path *)

Section OpenAllParents.

Variable hasEl : string -> bool.

Lemma segsText_snoc (segs : list string) (x : string) :
  segsText (segs ++ [x]) = (segsText segs ++ (x ++ "/"))%string.
Proof.
  induction segs as [|y r IH]; cbn [app segsText append].
  - reflexivity.
  - rewrite IH, append_assoc_str. reflexivity.
Qed.

Lemma folderPath_snoc (segs : list string) (x : string) :
  folderPath (segs ++ [x]) = (folderPath segs ++ (x ++ "/"))%string.
Proof.
  unfold folderPath. cbn [append]. now rewrite segsText_snoc.
Qed.

Lemma openAllParents_loop (rsegs : list string) :
  Forall (fun x => isSegment x = true) rsegs ->
  forall fuel path opened,
    length rsegs < fuel ->
    PgExplorer.getParentPathFromPath path = folderPath (List.rev rsegs) ->
    openAllParents fuel hasEl path opened =
    Some (opened ++ takeWhile hasEl (ancestorsOf rsegs)).
Proof.
  induction 1 as [|x above Hx Habove IH]; intros fuel path opened Hfuel Hparent.
  - destruct fuel as [|fuel']; [cbn in Hfuel; lia|].
    cbn [openAllParents]. rewrite Hparent.
    cbn [List.rev ancestorsOf takeWhile].
    change (folderPath []) with "/".
    destruct (hasEl "/"); cbn [negb]; [reflexivity | now rewrite app_nil_r].
  - destruct fuel as [|fuel']; [cbn in Hfuel; lia|].
    cbn [openAllParents]. rewrite Hparent.
    cbn [ancestorsOf takeWhile]. set (parent := folderPath (List.rev (x :: above))).
    destruct (hasEl parent); cbn [negb]; [|now rewrite app_nil_r].
    assert (Hrev : Forall (fun y => isSegment y = true) (List.rev above))
      by now apply Forall_rev.
    assert (Hshape : parent = (folderPath (List.rev above) ++ (x ++ "/"))%string).
    { unfold parent. cbn [List.rev]. apply folderPath_snoc. }
    assert (Hroot : String.eqb parent "/" = false).
    { apply String.eqb_neq. rewrite Hshape. unfold folderPath.
      apply isSegment_spec in Hx. destruct Hx as [Hne _].
      destruct (segsText (List.rev above)); cbn [append]; [|discriminate].
      destruct x; [now destruct Hne | discriminate]. }
    rewrite Hroot.
    rewrite (IH fuel' parent (opened ++ [parent])).
    + now rewrite <- app_assoc.
    + cbn [length] in Hfuel. lia.
    + rewrite Hshape. apply (folder_in_folder (List.rev above) x Hrev Hx).
Qed.

(** X23: [openAllParents] ends for every path and every document.  The
    parent path of the path is a folder path [/s1/.../sn/] without empty
    segment; within [n + 1] rounds the loop has opened that folder, then
    the folder above it, and so on up to the root, stopping before the
    first of them that has no element. *)
Theorem openAllParents_ends (path : string) :
  exists segs,
    PgExplorer.getParentPathFromPath path = folderPath segs /\
    Forall (fun x => isSegment x = true) segs /\
    forall fuel,
      length segs < fuel ->
      openAllParents fuel hasEl path [] =
      Some (takeWhile hasEl (ancestorsOf (List.rev segs))).
Proof.
  destruct (parentPath_normal path) as [segs [Hparent Hsegs]].
  exists segs. split; [exact Hparent|]. split; [exact Hsegs|].
  intros fuel Hfuel.
  apply (openAllParents_loop (List.rev segs)).
  - now apply Forall_rev.
  - now rewrite length_rev.
  - now rewrite rev_involutive.
Qed.

End OpenAllParents.

(** ** The listing of a folder after an item is created *)

Section FolderListing.

Lemma forIn_continues {A R : Type} (ks : list string)
    (body : string -> A -> M (A + R)) (s : Files) :
  (forall k a, exists a', body k a s = Returned (inl a') s) ->
  forall acc, exists a', forIn ks body acc s = Returned (inl a') s.
Proof.
  intros Hbody. induction ks as [|k rest IH]; intros acc; cbn [forIn].
  - now exists acc.
  - unfold bind at 1. unfold stillThere.
    destruct (hasProp k s); [|apply IH].
    unfold bind. destruct (Hbody k acc) as [a' ->]. apply IH.
Qed.

(** A string that includes a non-empty separator splits in two pieces at
    least. *)
Lemma splitOn_includes (sep s : string) :
  sep <> EmptyString ->
  Js.includes s sep = true ->
  exists a b t, Js.splitOn sep 0 s = a :: b :: t.
Proof.
  intros Hsep. induction s as [|c r IH]; cbn [Js.includes Js.splitOn].
  - destruct sep; [now destruct Hsep | discriminate].
  - destruct (String.prefix sep (String c r)) eqn:E.
    + intros _.
      destruct (Js.splitOn sep (String.length sep - 1) r) as [|b t] eqn:Es.
      * now apply splitOn_nonempty in Es.
      * now exists EmptyString, b, t.
    + cbn [orb]. intros H. destruct (IH H) as [a [b [t ->]]].
      now exists (String c a), b, t.
Qed.

Lemma getFolderContent_returns (path : string) (fs : Files) :
  path <> EmptyString ->
  exists r, Explorer.getFolderContent path fs = Returned r fs.
Proof.
  intros Hne. unfold Explorer.getFolderContent.
  unfold bind at 1. unfold ownKeys at 1. unfold bind.
  destruct (forIn_continues (R := Empty_set) (keys fs)
    (fun itemPath filesAndFolders =>
       if Js.includes itemPath path
       then match nth_error (Js.split itemPath path) 1 with
            | None => typeError
            | Some rest =>
                match Js.split rest "/" with
                | item :: _ => ret (inl (Explorer.pushItem item filesAndFolders))
                | [] => typeError
                end
            end
       else ret (inl filesAndFolders)) fs) with (acc := mkFolder [] [])
    as [a Ha].
  - intros k a. destruct (Js.includes k path) eqn:E; [|now exists a].
    unfold Js.split at 1. destruct path as [|pc pr] eqn:Ep;
      [now destruct Hne|]. rewrite <- Ep in *.
    destruct (splitOn_includes path k Hne E) as [x [rest [t ->]]].
    cbn [nth_error].
    pose proof (split_slash_nonempty rest) as Hs.
    destruct (Js.split rest "/") as [|item t']; [now destruct Hs|].
    eexists. reflexivity.
  - rewrite Ha. now exists a.
Qed.

(** X24: [getFolderContent] returns a listing and leaves the store as it
    is for every path that is not empty, on every store, one with
    [undefined] values included; for the empty path it raises a
    [TypeError] as soon as the first key of the store has fewer than two
    characters. *)
Theorem getFolderContent_returns_unless_empty (path k : string)
    (v : option ItemInfo) (fs : Files) :
  (path <> EmptyString ->
   exists r, Explorer.getFolderContent path fs = Returned r fs) /\
  (String.length k <= 1 ->
   Explorer.getFolderContent "" ((k, v) :: fs) = Raised ((k, v) :: fs)).
Proof.
  split; [apply getFolderContent_returns|].
  intros Hk. unfold Explorer.getFolderContent.
  unfold bind at 1. unfold ownKeys at 1. cbn [keys map fst forIn].
  unfold bind at 1. unfold bind at 1. unfold stillThere.
  assert (Hhere : hasProp k ((k, v) :: fs) = true).
  { unfold hasProp. cbn. now rewrite String.eqb_refl. }
  rewrite Hhere. unfold bind at 1.
  assert (Hinc : Js.includes k "" = true).
  { destruct k; cbn [Js.includes]; now rewrite prefix_empty. }
  rewrite Hinc.
  assert (Hsplit : nth_error (Js.split k "") 1 = None).
  { unfold Js.split. destruct k as [|c [|d r]]; [reflexivity | reflexivity|].
    cbn [String.length] in Hk. lia. }
  rewrite Hsplit. reflexivity.
Qed.

(** The listing of the source folder, and the listing asked with the
    empty path when the root folder is the first key. *)
Lemma getFolderContent_returns_unless_empty_witness :
  let fs := [("/src/", folderItem); ("/src/lib.rs", fileItem "x" true true)] in
  "/src/" <> EmptyString /\
  String.length "/" <= 1 /\
  (exists r, Explorer.getFolderContent "/src/" fs = Returned r fs) /\
  Explorer.getFolderContent "" (("/", folderItem) :: fs) =
    Raised (("/", folderItem) :: fs).
Proof.
  intros fs.
  assert (Hne : "/src/" <> EmptyString) by discriminate.
  assert (Hlen : String.length "/" <= 1) by (cbn; lia).
  split; [exact Hne|]. split; [exact Hlen|]. split.
  - exact (proj1 (getFolderContent_returns_unless_empty "/src/" "/"
                    folderItem fs) Hne).
  - exact (proj2 (getFolderContent_returns_unless_empty "/src/" "/"
                    folderItem fs) Hlen).
Defined.

Lemma append_empty (s : string) : (s ++ "")%string = s.
Proof. induction s as [|c r IH]; cbn [append]; congruence. Qed.

(** X25: an item created under a folder path in normal form shows up in
    the listing of that folder.  In a store without repeated key and
    without [undefined] value, [newItem] on the parent path of any path
    followed by a valid name, with or without a final separator, returns
    without error when that path is free, the path is a key afterwards
    and [getFolderContent] of the folder lists the name, among the files
    if the name contains a dot and among the folders otherwise. *)
Theorem newItem_is_listed (q name w : string) (fs : Files) :
  NoDup (keys fs) ->
  allDefined fs = true ->
  PgExplorer.isItemNameValid name = true ->
  w = EmptyString \/ w = "/" ->
  getProp (PgExplorer.getParentPathFromPath q ++ (name ++ w)) fs = None ->
  let dir := PgExplorer.getParentPathFromPath q in
  let p := (dir ++ (name ++ w))%string in
  exists fs' r,
    Explorer.newItem p fs = Returned None fs' /\
    hasProp p fs' = true /\
    Explorer.getFolderContent dir fs' = Returned r fs' /\
    listed name r.
Proof.
  intros Hnd Had Hvalid Hw Hfree dir p.
  change (getProp p fs = None) in Hfree.
  destruct (parentPath_normal q) as [segs [Hdir Hsegs]]. fold dir in Hdir.
  pose proof (valid_isSegment name Hvalid) as Hseg.
  assert (Hname : PgExplorer.getItemNameFromPath p = Some name).
  { unfold p. rewrite Hdir. destruct Hw as [->| ->].
    - rewrite append_empty. apply (file_in_folder segs name Hsegs Hseg).
    - apply (folder_in_folder segs name Hsegs Hseg). }
  assert (Hnew : exists fs',
            Explorer.newItem p fs = Returned None fs' /\ hasProp p fs' = true).
  { unfold Explorer.newItem. rewrite Hname, Hvalid. cbn [negb].
    unfold bind at 1. unfold readProp at 1. rewrite Hfree.
    destruct (PgExplorer.getItemTypeFromPath p).
    - eexists. split; [reflexivity|].
      rewrite hasProp_setProp. now rewrite String.eqb_refl.
    - unfold bind at 1. unfold writeProp.
      set (s1 := setProp p (Some (mkItem (Some "") (Some true) (Some true))) fs).
      assert (H1 : hasProp p s1 = true).
      { unfold s1. rewrite hasProp_setProp. now rewrite String.eqb_refl. }
      destruct (changeCurrentFile_returns p s1) as [R HR];
        [apply wellFormed_setProp; now split | exact H1 |].
      pose proof (keysKept_changeCurrentFile p s1) as Hkeys.
      rewrite HR in Hkeys. cbn [storeOf] in Hkeys.
      exists R. unfold bind. rewrite HR. split; [reflexivity|].
      unfold hasProp. rewrite Hkeys. exact H1. }
  destruct Hnew as [fs' [Hrun Hkey]].
  assert (Hslash : Js.startsWith dir "/" = true).
  { rewrite Hdir. unfold Js.startsWith, folderPath. cbn [String.prefix].
    destruct (ascii_dec "/" "/") as [_|n]; [apply prefix_empty | now destruct n]. }
  destruct (getFolderContent_returns dir fs') as [r Hr].
  { intros E. rewrite E in Hslash. discriminate. }
  exists fs', r. split; [exact Hrun|]. split; [exact Hkey|].
  split; [exact Hr|].
  apply isSegment_spec in Hseg. destruct Hseg as [Hne Hns].
  apply (folderContent_lists dir name w fs' fs' r Hslash Hne Hns);
    [|exact Hkey | exact Hr].
  destruct Hw as [->| ->]; [now left | now right].
Qed.

(** A file [main.rs] created next to [/src/lib.rs]. *)
Lemma newItem_is_listed_witness :
  let fs := [("/src/lib.rs", fileItem "x" true true)] in
  NoDup (keys fs) /\
  allDefined fs = true /\
  PgExplorer.isItemNameValid "main.rs" = true /\
  getProp "/src/main.rs" fs = None /\
  exists fs' r,
    Explorer.newItem "/src/main.rs" fs = Returned None fs' /\
    hasProp "/src/main.rs" fs' = true /\
    Explorer.getFolderContent "/src/" fs' = Returned r fs' /\
    listed "main.rs" r.
Proof.
  intros fs.
  assert (Hnd : NoDup (keys fs)).
  { repeat constructor; cbn; intuition discriminate. }
  split; [exact Hnd|]. split; [reflexivity|]. split; [reflexivity|].
  split; [reflexivity|].
  exact (newItem_is_listed "/src/lib.rs" "main.rs" "" fs
           Hnd eq_refl eq_refl (or_introl eq_refl) eq_refl).
Defined.

End FolderListing.

(** ** The icon of a file name *)

Section LangIcon.

Variable Langs : string -> option string.
Variable UNKNOWN_IMG_SRC : string.

Lemma last_piece (d : ascii) (ext : string) :
  Js.includes ext (String d "") = false ->
  forall base,
    exists front,
      Js.splitOn (String d "") 0 (base ++ String d ext) = front ++ [ext] /\
      front <> [].
Proof.
  intros Hext. induction base as [|c r IH]; cbn [append].
  - rewrite splitOn_char_cons, Ascii.eqb_refl, splitOn_char_none by assumption.
    exists [EmptyString]. split; [reflexivity | discriminate].
  - rewrite splitOn_char_cons. destruct IH as [front [-> Hne]].
    destruct front as [|h t]; [now destruct Hne|]. cbn [app].
    destruct (Ascii.eqb c d).
    + exists (EmptyString :: h :: t). split; [reflexivity | discriminate].
    + exists (String c h :: t). split; [reflexivity | discriminate].
Qed.

(** X26: the icon of a file name is chosen by the text after its last
    dot alone: two names with the same extension have the same icon, the
    one the table gives for the extension, and the unknown icon when the
    table has none or when the name ends with a dot.  A name without dot
    is looked up as a whole. *)
Theorem getIconSrc_by_extension (base ext : string) :
  Js.includes ext "." = false ->
  getIconSrc Langs UNKNOWN_IMG_SRC (base ++ String "." ext) =
    getIconSrc Langs UNKNOWN_IMG_SRC ext /\
  getIconSrc Langs UNKNOWN_IMG_SRC ext =
    (if String.eqb ext "" then UNKNOWN_IMG_SRC
     else match Langs ext with
          | Some src => src
          | None => UNKNOWN_IMG_SRC
          end).
Proof.
  intros Hext.
  assert (Hplain : getIconSrc Langs UNKNOWN_IMG_SRC ext =
                   (if String.eqb ext "" then UNKNOWN_IMG_SRC
                    else match Langs ext with
                         | Some src => src
                         | None => UNKNOWN_IMG_SRC
                         end)).
  { unfold getIconSrc. cbv zeta. rewrite split_char.
    rewrite splitOn_char_none by assumption. reflexivity. }
  split; [|exact Hplain]. rewrite Hplain.
  unfold getIconSrc. cbv zeta. rewrite split_char.
  destruct (last_piece "." ext Hext base) as [front [-> Hne]].
  unfold PgExplorer.at_. rewrite length_app. cbn [length].
  replace (Nat.ltb (length front + 1) 1) with false
    by (symmetry; apply Nat.ltb_ge; lia).
  rewrite nth_error_app2 by lia.
  replace (length front + 1 - 1 - length front) with 0 by lia.
  reflexivity.
Qed.

End LangIcon.

Section LangIconExample.

(** The theorem on a table with one entry. *)
Lemma getIconSrc_by_extension_witness :
  let table := fun ext => if String.eqb ext "rs" then Some "rust.png" else None in
  Js.includes "rs" "." = false /\
  getIconSrc table "unknown.png" "lib.test.rs" = "rust.png" /\
  getIconSrc table "unknown.png" "lib.test.rs" =
    getIconSrc table "unknown.png" "rs".
Proof.
  intros table. split; [reflexivity|]. split; [reflexivity|].
  exact (proj1 (getIconSrc_by_extension table "unknown.png" "lib.test" "rs"
                  eq_refl)).
Defined.

End LangIconExample.

(** ** The wallet kept in the local storage *)

Section Wallet.

Import PgWallet.

Variable K : Type.
Variable fromSecretKey : list nat -> option K.

(** X27: the key of the wallet persists.  After [new PgWallet()], from
    any state of the storage and whether the constructor returns or
    throws, the storage has a wallet item, the default wallet when there
    was none; the key pair made is the one [Keypair.fromSecretKey] gives
    for the stored secret key, each number taken modulo 256 by
    [Uint8Array], with the stored connection flag, and [getKp] makes that
    key pair again; a later [new PgWallet()], whatever the default wallet
    of that page load, has the same outcome and leaves the item as it
    is. *)
Theorem wallet_key_persists (w : Storage) (laterDefault : LsWallet) :
  let made := fst (construct fromSecretKey w) in
  let w1 := snd (construct fromSecretKey w) in
  exists l,
    getLs w1 = Some l /\
    l = match getLs w with Some l0 => l0 | None => DEFAULT_LS_WALLET w end /\
    made = match fromSecretKey (toUint8Array (sk l)) with
           | Some k => Some (mkWallet k (connected l))
           | None => None
           end /\
    getKp fromSecretKey w1 =
      match made with Some m => Some (kp m) | None => None end /\
    construct fromSecretKey (mkStorage (item w1) laterDefault) =
      (made, mkStorage (item w1) laterDefault).
Proof.
  intros made w1. subst made w1. unfold construct, getKp, getLs.
  destruct (item w) as [l|] eqn:E.
  - exists l. cbn [fst snd]. rewrite E. cbn [item].
    destruct (fromSecretKey (toUint8Array (sk l))); repeat split.
  - exists (DEFAULT_LS_WALLET w). cbn [fst snd].
    unfold updateLs, getLs, asParams. rewrite E.
    cbn [item DEFAULT_LS_WALLET u_setupCompleted u_connected u_sk
         setupCompleted connected sk].
    destruct (DEFAULT_LS_WALLET w) as [a b c].
    cbn [setupCompleted connected sk].
    destruct (fromSecretKey (toUint8Array c)); repeat split.
Qed.

(** X28: what [updateLs] stores.  The item read back by [getLs] has the
    fields of the update where they are given and, for the others, those
    of the item stored before or, without one, of the default wallet; two
    updates in a row store what the second, completed by the first,
    stores at once.  An update made while the storage has no item also
    changes the default wallet of the module to what it stores; otherwise
    the default wallet is left as it is. *)
Theorem updateLs_stores (u v : UpdateLsParams) (w : Storage) :
  let before := match getLs w with Some l => l | None => DEFAULT_LS_WALLET w end in
  let merged :=
    mkUpdateLsParams
      (match u_setupCompleted v with Some b => Some b | None => u_setupCompleted u end)
      (match u_connected v with Some b => Some b | None => u_connected u end)
      (match u_sk v with Some k => Some k | None => u_sk u end) in
  getLs (updateLs u w) =
    Some (mkLsWallet
            (match u_setupCompleted u with Some b => b | None => setupCompleted before end)
            (match u_connected u with Some b => b | None => connected before end)
            (match u_sk u with Some k => k | None => sk before end)) /\
  getLs (updateLs v (updateLs u w)) = getLs (updateLs merged w) /\
  DEFAULT_LS_WALLET (updateLs u w) =
    match getLs w, getLs (updateLs u w) with
    | None, Some l => l
    | _, _ => DEFAULT_LS_WALLET w
    end.
Proof.
  intros before merged. subst before merged.
  unfold updateLs, getLs. cbn [item DEFAULT_LS_WALLET].
  destruct u as [[a|] [b|] [c|]], v as [[a'|] [b'|] [c'|]];
    destruct (item w) as [[x y z]|]; try destruct (DEFAULT_LS_WALLET w) as [x y z];
    cbn; repeat split.
Qed.

End Wallet.
